(** * fabfile.py: release automation of sphinx-bootstrap-theme

    A shallow embedding of [fabfile.py].  The script is a sequence of
    shell-outs ([fabric.api.local]), file-system queries ([os.path]) and
    synchronous HTTP calls ([urllib2.urlopen]).  Each task is embedded as a
    finite tree of such requests (module [Prog]); a run of a task is that
    tree together with the answers the environment gave, recorded as a
    trace.  Pure helpers (string formatting, [strip], [basename], the
    dictionary of downloads) are ordinary functions.

    Embedded: [clean], [_dist_wrapper] and the three PyPI tasks, the
    class [GitHub] ([config], [api_op], [downloads], [downloads_del],
    [downloads_put]), [get_suffix], [gh_downloads] and [gh_upload].  The
    tasks that work in a changed directory ([demo], [gh_bundle]) are
    left out.  The functions of the Python library ([json.loads],
    [json.dumps], [base64.encodestring]) are parameters; module [Sandbox]
    gives them, and the environment, one concrete form to run the tasks
    in. *)

From Stdlib Require Import ZArith Ascii String List Lia.
From stdpp Require Import base option list gmap strings fin_maps pretty.

Import ListNotations.
Set Warnings "-register-all".
Local Open Scope string_scope.
Local Open Scope list_scope.

(* ===================================================================== *)
(** ** Python values that the script handles *)
(* ===================================================================== *)

(** Decoded JSON, as [json.loads] returns it: objects become dictionaries
    (a key occurs once), arrays become lists.  Numbers are the integers;
    the download records carry no other ([id], [size]). *)
Inductive json : Type :=
| JNull
| JBool (b : bool)
| JNum (n : Z)
| JStr (s : string)
| JArr (l : list json)
| JObj (m : gmap string json).

(** The values a task parameter such as [tag] can take: the default
    [False], or whatever the command line passes (a string). *)
Inductive pyval : Type :=
| PyNone
| PyBool (b : bool)
| PyInt (n : Z)
| PyStr (s : string).

(** Python truthiness ([bool(v)]). *)
Definition truthy (v : pyval) : bool :=
  match v with
  | PyNone => false
  | PyBool b => b
  | PyInt n => negb (n =? 0)%Z
  | PyStr s => negb (String.eqb s "")
  end.

(** Python [==] on these values: [True == 1], [False == 0]; a string is
    equal only to the same string; [None] only to [None]. *)
Definition py_num (v : pyval) : option Z :=
  match v with
  | PyBool b => Some (if b then 1 else 0)%Z
  | PyInt n => Some n
  | _ => None
  end.

Definition py_eq (a b : pyval) : bool :=
  match a, b with
  | PyNone, PyNone => true
  | PyStr s, PyStr t => String.eqb s t
  | _, _ =>
      match py_num a, py_num b with
      | Some x, Some y => (x =? y)%Z
      | _, _ => false
      end
  end.

(** [x in (a, b, ...)]. *)
Definition py_in (x : pyval) (t : list pyval) : bool :=
  existsb (py_eq x) t.

(** ["%s" % v] for a value that is a string or [None]. *)
Definition fmt_s (v : option string) : string :=
  match v with
  | Some s => s
  | None => "None"
  end.

(* ===================================================================== *)
(** ** String helpers ([str.strip], [str.lstrip], [os.path]) *)
(* ===================================================================== *)

Module Str.

(** The characters [str.strip()] removes: space, tab, newline, carriage
    return, vertical tab, form feed. *)
Definition is_space (c : ascii) : bool :=
  let n := nat_of_ascii c in
  Nat.eqb n 32 || (Nat.leb 9 n && Nat.leb n 13).

Fixpoint lstrip_by (p : ascii -> bool) (s : string) : string :=
  match s with
  | EmptyString => EmptyString
  | String c r => if p c then lstrip_by p r else s
  end.

Fixpoint rstrip_by (p : ascii -> bool) (s : string) : string :=
  match s with
  | EmptyString => EmptyString
  | String c r =>
      match rstrip_by p r with
      | EmptyString => if p c then EmptyString else String c EmptyString
      | r' => String c r'
      end
  end.

Definition strip (s : string) : string :=
  rstrip_by is_space (lstrip_by is_space s).

(** [path.lstrip("/")]. *)
Definition lstrip_slash (s : string) : string :=
  lstrip_by (Ascii.eqb "/"%char) s.

(** [s[:-1]]. *)
Fixpoint drop_last (s : string) : string :=
  match s with
  | EmptyString => EmptyString
  | String c EmptyString => EmptyString
  | String c r => String c (drop_last r)
  end.

Fixpoint has_slash (s : string) : bool :=
  match s with
  | EmptyString => false
  | String c r => Ascii.eqb c "/"%char || has_slash r
  end.

(** [os.path.basename]: what follows the last slash. *)
Fixpoint basename (s : string) : string :=
  match s with
  | EmptyString => EmptyString
  | String c r =>
      if Ascii.eqb c "/"%char then basename r
      else if has_slash r then basename r
      else s
  end.

(** What precedes the last dot of [s]; all of [s] when it has no dot. *)
Fixpoint drop_ext (s : string) : string :=
  match s with
  | EmptyString => EmptyString
  | String c r =>
      if existsb (Ascii.eqb "."%char) (list_ascii_of_string r)
      then String c (drop_ext r)
      else if Ascii.eqb c "."%char then EmptyString else String c r
  end.

Fixpoint all_dots (s : string) : bool :=
  match s with
  | EmptyString => true
  | String c r => Ascii.eqb c "."%char && all_dots r
  end.

(** [os.path.splitext(name)[0]] for a name without slash: the
    extension starts at the last dot, unless only dots precede it. *)
Definition name_root (s : string) : string :=
  if all_dots (drop_ext s) then s else drop_ext s.

(** [os.path.splitext(p)[0]]: the extension is looked for in what
    follows the last slash. *)
Fixpoint splitext_root (s : string) : string :=
  match s with
  | EmptyString => EmptyString
  | String c r =>
      if has_slash r then String c (splitext_root r)
      else if Ascii.eqb c "/"%char then String c (name_root r)
      else name_root s
  end.

(** The double quote character, for the shell command lines. *)
Definition dq : string := String "034"%char EmptyString.

End Str.

(* ===================================================================== *)
(** ** Requests to the environment, programs and runs *)
(* ===================================================================== *)

(** [Request(url, method=..., data=...)] followed by the [add_header]
    calls made on it, in the order they were made. *)
Record Request : Type := mkRequest {
  req_url : string;
  req_method : string;
  req_data : option string;
  req_headers : list (string * string)
}.

(** What ends a task early.  [Abort] is [fabric.api.abort]; [LocalError]
    is the abort [local] performs when the command exits with a nonzero
    status; the others are the Python exceptions of the same name
    ([HTTPError] stands for any failure of [urlopen]). *)
Inductive exn : Type :=
| Abort (msg : string)
| LocalError (cmd : string)
| KeyError (key : string)
| TypeError
| AttributeError
| ValueError
| OSError (path : string)
| HTTPError.

Inductive outcome (A : Type) : Type :=
| Ok (a : A)
| Err (e : exn).
Arguments Ok {A} a.
Arguments Err {A} e.

(** One exchange with the environment: the request and the answer.
    A shell command answers [Some stdout] on exit status 0 and [None]
    otherwise; [urlopen(req).read()] answers [Some body] or fails. *)
Inductive event : Type :=
| EvLocal (cmd : string) (capture : bool) (r : option string)
| EvExists (path : string) (r : bool)
| EvGetsize (path : string) (r : option Z)
| EvUrlopen (req : Request) (r : option string)
| EvPrint (line : string).

Module Prog.

(** A program is a finite tree: it returns, raises, or asks the
    environment and continues with the answer. *)
Inductive prog (A : Type) : Type :=
| Ret (a : A)
| Raise (e : exn)
| Sh (cmd : string) (capture : bool) (k : option string -> prog A)
| Exists (path : string) (k : bool -> prog A)
| Getsize (path : string) (k : option Z -> prog A)
| Urlopen (req : Request) (k : option string -> prog A)
| Print (line : string) (k : prog A).
Arguments Ret {A} a.
Arguments Raise {A} e.
Arguments Sh {A} cmd capture k.
Arguments Exists {A} path k.
Arguments Getsize {A} path k.
Arguments Urlopen {A} req k.
Arguments Print {A} line k.

Fixpoint bind {A B : Type} (m : prog A) (f : A -> prog B) : prog B :=
  match m with
  | Ret a => f a
  | Raise e => Raise e
  | Sh c cap k => Sh c cap (fun r => bind (k r) f)
  | Exists p k => Exists p (fun r => bind (k r) f)
  | Getsize p k => Getsize p (fun r => bind (k r) f)
  | Urlopen q k => Urlopen q (fun r => bind (k r) f)
  | Print l k => Print l (bind k f)
  end.

(** [try: body finally: fin].  [fin] runs however [body] ends; when
    [fin] itself raises, that is what propagates. *)
Fixpoint try_finally {A : Type} (body : prog A) (fin : prog unit) : prog A :=
  match body with
  | Ret a => bind fin (fun _ => Ret a)
  | Raise e => bind fin (fun _ => Raise e)
  | Sh c cap k => Sh c cap (fun r => try_finally (k r) fin)
  | Exists p k => Exists p (fun r => try_finally (k r) fin)
  | Getsize p k => Getsize p (fun r => try_finally (k r) fin)
  | Urlopen q k => Urlopen q (fun r => try_finally (k r) fin)
  | Print l k => Print l (try_finally k fin)
  end.

(** [for x in xs: body x]. *)
Fixpoint for_each {X : Type} (xs : list X) (body : X -> prog unit) : prog unit :=
  match xs with
  | [] => Ret tt
  | x :: rest => bind (body x) (fun _ => for_each rest body)
  end.

(** [runs p tr o]: program [p] can run to outcome [o], the exchanges
    with the environment being [tr], in order. *)
Inductive runs {A : Type} : prog A -> list event -> outcome A -> Prop :=
| runs_ret a : runs (Ret a) [] (Ok a)
| runs_raise e : runs (Raise e) [] (Err e)
| runs_sh c cap k r tr o :
    runs (k r) tr o -> runs (Sh c cap k) (EvLocal c cap r :: tr) o
| runs_exists p k r tr o :
    runs (k r) tr o -> runs (Exists p k) (EvExists p r :: tr) o
| runs_getsize p k r tr o :
    runs (k r) tr o -> runs (Getsize p k) (EvGetsize p r :: tr) o
| runs_urlopen q k r tr o :
    runs (k r) tr o -> runs (Urlopen q k) (EvUrlopen q r :: tr) o
| runs_print l k tr o :
    runs k tr o -> runs (Print l k) (EvPrint l :: tr) o.

(** An environment with a state of type [W]: how it answers each
    request and how the request changes it. *)
Record world (W : Type) : Type := mkWorld {
  w_sh : string -> bool -> W -> option string * W;
  w_exists : string -> W -> bool;
  w_getsize : string -> W -> option Z;
  w_urlopen : Request -> W -> option string * W
}.
Arguments w_sh {W} _ _ _ _.
Arguments w_exists {W} _ _ _.
Arguments w_getsize {W} _ _ _.
Arguments w_urlopen {W} _ _ _.

(** Running a program in an environment: the outcome, the trace and
    the final state. *)
Fixpoint exec {W A : Type} (h : world W) (p : prog A) (w : W)
  : outcome A * list event * W :=
  match p with
  | Ret a => (Ok a, [], w)
  | Raise e => (Err e, [], w)
  | Sh c cap k =>
      let '(r, w1) := w_sh h c cap w in
      let '(o, tr, w2) := exec h (k r) w1 in
      (o, EvLocal c cap r :: tr, w2)
  | Exists p k =>
      let r := w_exists h p w in
      let '(o, tr, w2) := exec h (k r) w in
      (o, EvExists p r :: tr, w2)
  | Getsize p k =>
      let r := w_getsize h p w in
      let '(o, tr, w2) := exec h (k r) w in
      (o, EvGetsize p r :: tr, w2)
  | Urlopen q k =>
      let '(r, w1) := w_urlopen h q w in
      let '(o, tr, w2) := exec h (k r) w1 in
      (o, EvUrlopen q r :: tr, w2)
  | Print l k =>
      let '(o, tr, w2) := exec h k w in
      (o, EvPrint l :: tr, w2)
  end.

End Prog.
Import Prog.

Notation "x <- m ;; k" := (bind m (fun x => k))
  (at level 100, m at next level, right associativity).
Notation "m ;;; k" := (bind m (fun _ => k))
  (at level 100, right associativity).

(** Pure steps that can raise: [outcome] is the error monad. *)
Definition obind {A B : Type} (m : outcome A) (f : A -> outcome B) : outcome B :=
  match m with
  | Ok a => f a
  | Err e => Err e
  end.

Notation "x <-? m ;; k" := (obind m (fun x => k))
  (at level 100, m at next level, right associativity).

Definition lift {A : Type} (m : outcome A) : prog A :=
  match m with
  | Ok a => Ret a
  | Err e => Raise e
  end.

(* ===================================================================== *)
(** ** Subscripts, iteration and formatting of decoded JSON *)
(* ===================================================================== *)

(** [x[key]] for a string [key]: only a dictionary accepts it. *)
Definition getitem (x : json) (key : string) : outcome json :=
  match x with
  | JObj m =>
      match m !! key with
      | Some v => Ok v
      | None => Err (KeyError key)
      end
  | _ => Err TypeError
  end.

(** [for x in v]: a list yields its elements, a dictionary its keys, a
    string its characters; nothing else is iterable. *)
Definition iter_json (v : json) : outcome (list json) :=
  match v with
  | JArr l => Ok l
  | JObj m => Ok (map (fun kv => JStr (fst kv)) (map_to_list m))
  | JStr s => Ok (map (fun c => JStr (String c EmptyString)) (list_ascii_of_string s))
  | _ => Err TypeError
  end.

(** [dict((x['name'], x) for x in records)], as far as [get] with a
    string key can observe it.  Records are taken in order and a later
    record replaces an earlier one of the same name.  A name that is a
    list or a dictionary is unhashable.  A name that is a number, a
    boolean or [null] is a legal key, but it is equal to no string, so
    the entry can never be returned by [get(<string>)]: it is left out. *)
Fixpoint dict_by_name (records : list json) (acc : gmap string json)
  : outcome (gmap string json) :=
  match records with
  | [] => Ok acc
  | x :: rest =>
      name <-? getitem x "name" ;;
      match name with
      | JStr s => dict_by_name rest (<[s := x]> acc)
      | JArr _ | JObj _ => Err TypeError
      | _ => dict_by_name rest acc
      end
  end.

Section Fabfile.

(** The library functions the script calls and whose code is not part
    of it: [json.loads] ([None] is its [ValueError]), [json.dumps] with
    its [indent] argument, [base64.encodestring], and Python's [repr]
    of a list or dictionary. *)
Variable loads : string -> option json.
Variable dumps : option nat -> json -> string.
Variable encodestring : string -> string.
Variable py_repr : json -> string.

(** ["%s" % v] for a decoded JSON value. *)
Definition fmt_json (v : json) : string :=
  match v with
  | JStr s => s
  | JNull => "None"
  | JBool true => "True"
  | JBool false => "False"
  | JNum n => pretty n
  | _ => py_repr v
  end.

(** ["%(key)s" % meta]. *)
Definition fmt_key (meta : gmap string json) (key : string) : outcome string :=
  match meta !! key with
  | Some v => Ok (fmt_json v)
  | None => Err (KeyError key)
  end.

(* =================================================================== *)
(** ** Module constants *)
(* =================================================================== *)

Definition BUILD_DIRS : list string :=
  ["dist"; "build"; "demo/build"; "sphinx_bootstrap_theme.egg-info"].

Definition SDIST_RST_FILES : list string := ["README.rst"; "HISTORY.rst"].

Definition SDIST_TXT_FILES : list string :=
  map (fun x => Str.splitext_root x +:+ ".txt") SDIST_RST_FILES.

(* =================================================================== *)
(** ** Misc. and PyPI tasks *)
(* =================================================================== *)

(** [fabric.api.local(cmd, capture=...)].  The answer of the shell is
    what [local] hands back when it captures; without capture the
    result is the empty string.  A nonzero exit status aborts. *)
Definition local (cmd : string) (capture : bool) : prog string :=
  Sh cmd capture (fun r =>
    match r with
    | Some out => Ret (if capture then out else "")
    | None => Raise (LocalError cmd)
    end).

Definition clean : prog unit :=
  for_each BUILD_DIRS (fun build_dir =>
    local ("rm -rf " +:+ build_dir) false ;;; Ret tt).

(** [with _dist_wrapper(): action].  The generator copies the files,
    yields to [action] inside the [try], and removes the copies in the
    [finally]. *)
Definition _dist_wrapper (action : prog unit) : prog unit :=
  try_finally
    (for_each (combine SDIST_RST_FILES SDIST_TXT_FILES) (fun p =>
       local ("cp " +:+ fst p +:+ " " +:+ snd p) false ;;; Ret tt) ;;;
     action)
    (for_each SDIST_TXT_FILES (fun rst_file =>
       local ("rm -f " +:+ rst_file) false ;;; Ret tt)).

Definition sdist : prog unit :=
  _dist_wrapper (local "python setup.py sdist" false ;;; Ret tt).

Definition pypi_register : prog unit :=
  _dist_wrapper (local "python setup.py register" false ;;; Ret tt).

Definition pypi_upload : prog unit :=
  _dist_wrapper (local "python setup.py sdist upload" false ;;; Ret tt).

(* =================================================================== *)
(** ** GitHub API wrapper *)
(* =================================================================== *)

(** [req.add_header(key, val)]. *)
Definition add_header (key val : string) (req : Request) : Request :=
  {| req_url := req_url req;
     req_method := req_method req;
     req_data := req_data req;
     req_headers := req_headers req ++ [(key, val)] |}.

(** An instance of [class GitHub]. *)
Record GitHub : Type := mkGitHub {
  user : option string;
  password : option string;
  token : option string;
  repo : string;
  api_base : string
}.

(** [GitHub._add_headers(req, headers)]; [headers] is the sequence of
    pairs ([None] and the empty sequence are both falsy). *)
Definition _add_headers (req : Request) (headers : list (string * string))
  : Request :=
  match headers with
  | [] => req
  | _ => fold_left (fun r kv => add_header (fst kv) (snd kv) r) headers req
  end.

(** [GitHub.config(key)]. *)
Definition config (key : string) : prog (option string) :=
  out <- local ("git config github." +:+ key) true ;;
  let val := Str.strip out in
  Ret (if String.eqb val "" then None else Some val).

(** [GitHub()]. *)
Definition GitHub_init : prog GitHub :=
  u <- config "user" ;;
  p <- config "password" ;;
  t <- config "token" ;;
  Ret {| user := u; password := p; token := t;
         repo := "sphinx-bootstrap-theme";
         api_base := "https://api.github.com" |}.

(** The request [api_op] builds. *)
Definition api_request (self : GitHub) (path method : string)
    (headers : list (string * string)) (data : option string) : Request :=
  let url_path :=
    if String.eqb path "" then api_base self
    else api_base self +:+ "/" +:+ Str.lstrip_slash path in
  let auth_str :=
    Str.drop_last
      (encodestring (fmt_s (user self) +:+ ":" +:+ fmt_s (password self))) in
  let req := {| req_url := url_path; req_method := method;
                req_data := data; req_headers := [] |} in
  let req := _add_headers req headers in
  add_header "Authorization" ("Basic " +:+ auth_str) req.

(** [json.loads(results) if results else {}]. *)
Definition decode_body (results : string) : outcome json :=
  if String.eqb results "" then Ok (JObj ∅)
  else match loads results with
       | Some v => Ok v
       | None => Err ValueError
       end.

(** [GitHub.api_op(path, method, headers, data)]. *)
Definition api_op (self : GitHub) (path method : string)
    (headers : list (string * string)) (data : option string) : prog json :=
  Urlopen (api_request self path method headers data) (fun r =>
    match r with
    | Some results => lift (decode_body results)
    | None => Raise HTTPError
    end).

Definition downloads_path (self : GitHub) : string :=
  "repos/" +:+ fmt_s (user self) +:+ "/" +:+ repo self +:+ "/downloads".

(** [GitHub.downloads()]. *)
Definition downloads (self : GitHub) : prog json :=
  api_op self (downloads_path self) "GET" [] None.

(** [GitHub.downloads_del(dl_obj)]. *)
Definition downloads_del (self : GitHub) (dl_obj : json) : prog json :=
  id <- lift (getitem dl_obj "id") ;;
  api_op self (downloads_path self +:+ "/" +:+ fmt_json id) "DELETE" [] None.

(** The default description of [downloads_put]. *)
Definition default_desc (suffix : string) : string :=
  "Pre-packaged sphinx theme for " +:+ suffix +:+ ".".

(** The dictionary [downloads_put] serialises as the body of the create
    request. *)
Definition create_body (file_name : string) (file_size : Z) (desc : string)
  : json :=
  JObj (<["name" := JStr (Str.basename file_name)]>
        (<["size" := JNum file_size]>
         (<["description" := JStr desc]> ∅))).

(** [meta.update({'file_path': file_name})]. *)
Definition meta_update (meta : json) (file_name : string) : outcome json :=
  match meta with
  | JObj m => Ok (JObj (<["file_path" := JStr file_name]> m))
  | _ => Err AttributeError
  end.

Definition form_field (name value : string) : string :=
  "-F " +:+ Str.dq +:+ name +:+ "=" +:+ value +:+ Str.dq +:+ " ".

(** The [curl] command line, ["curl -F ... " % meta]: the keys are
    looked up from left to right. *)
Definition curl_cmd (meta : json) : outcome string :=
  match meta with
  | JObj m =>
      path <-? fmt_key m "path" ;;
      acl <-? fmt_key m "acl" ;;
      name <-? fmt_key m "name" ;;
      accesskeyid <-? fmt_key m "accesskeyid" ;;
      policy <-? fmt_key m "policy" ;;
      signature <-? fmt_key m "signature" ;;
      mime_type <-? fmt_key m "mime_type" ;;
      file_path <-? fmt_key m "file_path" ;;
      Ok ("curl " +:+
          form_field "key" path +:+
          form_field "acl" acl +:+
          form_field "success_action_status" "201" +:+
          form_field "Filename" name +:+
          form_field "AWSAccessKeyId" accesskeyid +:+
          form_field "Policy" policy +:+
          form_field "Signature" signature +:+
          form_field "Content-Type" mime_type +:+
          form_field "file" ("@" +:+ file_path) +:+
          "https://github.s3.amazonaws.com/")
  | _ => Err TypeError
  end.

(** [os.path.getsize(path)]. *)
Definition getsize (path : string) : prog Z :=
  Getsize path (fun r =>
    match r with
    | Some n => Ret n
    | None => Raise (OSError path)
    end).

(** [GitHub.downloads_put(file_name, suffix, desc)]; [desc] is [None]
    when the caller gives none. *)
Definition downloads_put (self : GitHub) (file_name suffix : string)
    (desc : option string) : prog json :=
  let desc :=
    match desc with
    | None | Some "" => default_desc suffix
    | Some d => d
    end in
  (* Part 1: Create the resource. *)
  file_size <- getsize file_name ;;
  meta <- api_op self (downloads_path self) "POST"
            [("Content-Type", "application/json")]
            (Some (dumps None (create_body file_name file_size desc))) ;;
  meta <- lift (meta_update meta file_name) ;;
  (* Part 2: Upload file to s3 (using shelled curl). *)
  cmd <- lift (curl_cmd meta) ;;
  local cmd false ;;;
  Ret meta.

(* =================================================================== *)
(** ** Bundle upload *)
(* =================================================================== *)

Definition suffix_cmd (tag : pyval) : string :=
  if py_in tag [PyBool true; PyStr "True"]
  then "git describe --always --tag"
  else "git rev-parse HEAD".

(** [get_suffix(tag)]. *)
Definition get_suffix (tag : pyval) : prog string :=
  out <- local (suffix_cmd tag) true ;;
  Ret (Str.strip out).

Definition base_zip : string := "build/bootstrap.zip".
Definition base_file : string := Str.basename base_zip.
Definition suffix_zip (suffix : string) : string :=
  "build/bootstrap-" +:+ suffix +:+ ".zip".
Definition suffix_file (suffix : string) : string :=
  Str.basename (suffix_zip suffix).

Definition msg_missing : string :=
  "Did not find current zip files. Please create.".
Definition msg_skip : string := "Found suffixed zip file already. Skipping".

(** [print(line)]. *)
Definition print (line : string) : prog unit := Print line (Ret tt).

(** [fabric.api.abort(msg)]. *)
Definition abort {A : Type} (msg : string) : prog A := Raise (Abort msg).

(** [os.path.exists(path)]. *)
Definition path_exists (path : string) : prog bool :=
  Exists path (fun r => Ret r).

Definition nl : string := String "010" EmptyString.

(** [gh_upload(tag)]. *)
Definition gh_upload (tag : pyval) : prog unit :=
  suffix <- get_suffix tag ;;
  found <- (e <- path_exists base_zip ;;
            if e then path_exists (suffix_zip suffix) else Ret false) ;;
  (if found then Ret tt else abort msg_missing) ;;;
  (* Check if existing downloads *)
  github <- GitHub_init ;;
  dls <- downloads github ;;
  records <- lift (iter_json dls) ;;
  dl_dict <- lift (dict_by_name records ∅) ;;
  let dl_suffix := dl_dict !! suffix_file suffix in
  let dl_base := dl_dict !! base_file in
  match dl_suffix with
  | Some _ => print msg_skip
  | None =>
      match dl_base with
      | Some dl =>
          print "Removing current base zip file." ;;;
          result <- downloads_del github dl ;;
          print ("Result: " +:+ dumps (Some 2) result)
      | None => Ret tt
      end ;;;
      print "Upload new base zip file." ;;;
      result <- downloads_put github base_zip suffix None ;;
      print (nl +:+ "Result: " +:+ dumps (Some 2) result) ;;;
      print "Upload new suffixed zip file." ;;;
      result <- downloads_put github (suffix_zip suffix) suffix None ;;
      print (nl +:+ "Result: " +:+ dumps (Some 2) result)
  end.

(** The last part of [gh_upload], from the test of [dl_suffix] on,
    as a program of its own; [gh_upload] ends with it
    (lemma [gh_upload_tail]). *)
Definition upload_new (github : GitHub) (suffix : string)
    (dl_dict : gmap string json) : prog unit :=
  match dl_dict !! suffix_file suffix with
  | Some _ => print msg_skip
  | None =>
      match dl_dict !! base_file with
      | Some dl =>
          print "Removing current base zip file." ;;;
          result <- downloads_del github dl ;;
          print ("Result: " +:+ dumps (Some 2) result)
      | None => Ret tt
      end ;;;
      print "Upload new base zip file." ;;;
      result <- downloads_put github base_zip suffix None ;;
      print (nl +:+ "Result: " +:+ dumps (Some 2) result) ;;;
      print "Upload new suffixed zip file." ;;;
      result <- downloads_put github (suffix_zip suffix) suffix None ;;
      print (nl +:+ "Result: " +:+ dumps (Some 2) result)
  end.

(** The two loops of [_dist_wrapper], as programs of their own. *)
Definition copy_txt_files : prog unit :=
  for_each (combine SDIST_RST_FILES SDIST_TXT_FILES) (fun p =>
    local ("cp " +:+ fst p +:+ " " +:+ snd p) false ;;; Ret tt).

Definition remove_txt_files : prog unit :=
  for_each SDIST_TXT_FILES (fun rst_file =>
    local ("rm -f " +:+ rst_file) false ;;; Ret tt).

(** ["%(created_at)s: %(name)s (%(id)s)" % download]: the keys are
    looked up from left to right; only a dictionary can be formatted
    this way. *)
Definition download_line (download : json) : outcome string :=
  match download with
  | JObj m =>
      created_at <-? fmt_key m "created_at" ;;
      name <-? fmt_key m "name" ;;
      id <-? fmt_key m "id" ;;
      Ok (created_at +:+ ": " +:+ name +:+ " (" +:+ id +:+ ")")
  | _ => Err TypeError
  end.

(** [gh_downloads()]. *)
Definition gh_downloads : prog unit :=
  print "Downloads:" ;;;
  github <- GitHub_init ;;
  dls <- downloads github ;;
  records <- lift (iter_json dls) ;;
  for_each records (fun download =>
    line <- lift (download_line download) ;;
    print line).

End Fabfile.

(* ===================================================================== *)
(** ** Reading a trace *)
(* ===================================================================== *)

(** The HTTP requests of a run, in the order they were sent. *)
Fixpoint requests (tr : list event) : list Request :=
  match tr with
  | [] => []
  | EvUrlopen q _ :: rest => q :: requests rest
  | _ :: rest => requests rest
  end.

(** The shell commands of a run, in the order they were started. *)
Fixpoint shell_cmds (tr : list event) : list string :=
  match tr with
  | [] => []
  | EvLocal c _ _ :: rest => c :: shell_cmds rest
  | _ :: rest => shell_cmds rest
  end.

Definition has_method (m : string) (q : Request) : bool :=
  String.eqb (req_method q) m.

(** Delete calls are the DELETE requests; an upload call is the create
    (POST) request followed by the [curl] form post. *)
Definition delete_calls (tr : list event) : list Request :=
  List.filter (has_method "DELETE") (requests tr).

Definition create_calls (tr : list event) : list Request :=
  List.filter (has_method "POST") (requests tr).

Definition curl_calls (tr : list event) : list string :=
  List.filter (String.prefix "curl ") (shell_cmds tr).

(** A download record as the API returns it: a dictionary with a string
    under ['name']. *)
Definition record_named (name : string) (x : json) : Prop :=
  exists m, x = JObj m /\ m !! "name" = Some (JStr name).

Definition is_record (x : json) : Prop :=
  exists name, record_named name x.

(** The value of the Authorization header of a request. *)
Definition basic_auth (encodestring : string -> string) (self : GitHub)
  : string :=
  "Basic " +:+
  Str.drop_last
    (encodestring (fmt_s (user self) +:+ ":" +:+ fmt_s (password self))).

(** The description [downloads_put] puts in the create request. *)
Definition effective_desc (suffix : string) (desc : option string) : string :=
  match desc with
  | None | Some "" => default_desc suffix
  | Some d => d
  end.

(** The create request of [downloads_put] for a file of a given size and
    a given description. *)
Definition create_request (dumps : option nat -> json -> string)
    (encodestring : string -> string) (self : GitHub)
    (file_name : string) (file_size : Z) (desc : string) : Request :=
  api_request encodestring self (downloads_path self) "POST"
    [("Content-Type", "application/json")]
    (Some (dumps None (create_body file_name file_size desc))).

(** The request of [downloads()] and the one of [downloads_del] for a
    record whose ['id'] is [id]. *)
Definition list_request (encodestring : string -> string) (self : GitHub)
  : Request :=
  api_request encodestring self (downloads_path self) "GET" [] None.

Definition delete_request (encodestring : string -> string)
    (py_repr : json -> string) (self : GitHub) (id : json) : Request :=
  api_request encodestring self
    (downloads_path self +:+ "/" +:+ fmt_json py_repr id) "DELETE" [] None.

(** The events of the two phases of [gh_upload] that follow the check of
    the local files: reading the configuration, and deleting and
    uploading. *)
Definition config_event (e : event) : Prop :=
  exists key r, e = EvLocal ("git config github." +:+ key) true r.

Definition upload_event (e : event) : Prop :=
  match e with
  | EvPrint _ | EvGetsize _ _ => True
  | EvUrlopen q _ => req_method q = "DELETE" \/ req_method q = "POST"
  | EvLocal c _ _ => String.prefix "curl " c = true
  | EvExists _ _ => False
  end.

(** The parts of the result of [exec]. *)
Definition outcome_of {W A : Type} (x : outcome A * list event * W) : outcome A :=
  fst (fst x).
Definition trace_of {W A : Type} (x : outcome A * list event * W) : list event :=
  snd (fst x).
Definition state_of {W A : Type} (x : outcome A * list event * W) : W :=
  snd x.

(** The three values that [tag in (True, "True")] accepts. *)
Definition selects_describe (tag : pyval) : Prop :=
  tag = PyBool true \/ tag = PyInt 1 \/ tag = PyStr "True".

(** The reading of [get_suffix] that chooses the command by the
    truthiness of [tag]. *)
Definition suffix_by_truthiness (tag : pyval) : Prop :=
  forall tr o, runs (get_suffix tag) tr o ->
    exists r,
      tr = [EvLocal (if truthy tag then "git describe --always --tag"
                     else "git rev-parse HEAD") true r].

(** The reading of [gh_upload] that looks the suffixed download up under
    the name ["bootstrap-<suffix>.zip"]: a run whose fetched list holds
    a record of that name neither deletes nor uploads. *)
Definition skips_on_literal_name
    (loads : string -> option json) (dumps : option nat -> json -> string)
    (encodestring : string -> string) (py_repr : json -> string)
    (tag : pyval) : Prop :=
  forall tr o out q body l,
    runs (gh_upload loads dumps encodestring py_repr tag) tr o ->
    In (EvLocal (suffix_cmd tag) true (Some out)) tr ->
    In (EvUrlopen q (Some body)) tr ->
    req_method q = "GET" ->
    decode_body loads body = Ok (JArr l) ->
    (exists x, In x l /\
       record_named ("bootstrap-" +:+ Str.strip out +:+ ".zip") x) ->
    delete_calls tr = [] /\ create_calls tr = [] /\ curl_calls tr = [].

(** The same reading for the replacement of the base file: every run
    whose fetched list holds a record named ["bootstrap.zip"] and none
    named ["bootstrap-<suffix>.zip"] deletes once and uploads twice. *)
Definition replaces_on_literal_name
    (loads : string -> option json) (dumps : option nat -> json -> string)
    (encodestring : string -> string) (py_repr : json -> string)
    (tag : pyval) : Prop :=
  forall tr o out q body l,
    runs (gh_upload loads dumps encodestring py_repr tag) tr o ->
    In (EvLocal (suffix_cmd tag) true (Some out)) tr ->
    In (EvUrlopen q (Some body)) tr ->
    req_method q = "GET" ->
    decode_body loads body = Ok (JArr l) ->
    (exists x, In x l /\ record_named "bootstrap.zip" x) ->
    (forall x, In x l ->
       ~ record_named ("bootstrap-" +:+ Str.strip out +:+ ".zip") x) ->
    length (delete_calls tr) = 1 /\
    length (create_calls tr) = 2 /\
    length (curl_calls tr) = 2.

(** The reading of [_dist_wrapper] that promises the removal whatever
    the shell does: both removal commands are run and neither [.txt]
    file exists in the final state. *)
Definition cleans_unconditionally {W : Type} (h : world W)
    (action : prog unit) (w : W) : Prop :=
  let res := exec h (_dist_wrapper action) w in
  In "rm -f README.txt" (shell_cmds (trace_of res)) /\
  In "rm -f HISTORY.txt" (shell_cmds (trace_of res)) /\
  w_exists h "README.txt" (state_of res) = false /\
  w_exists h "HISTORY.txt" (state_of res) = false.

(** A shell in which [rm -f] does its work on the two temporary files:
    the command exits with status 0 whether or not the file was there,
    the file is absent afterwards, and no file appears. *)
Definition rm_f_removes {W : Type} (h : world W) : Prop :=
  forall f, In f SDIST_TXT_FILES ->
  forall capture w,
    exists out w',
      w_sh h ("rm -f " +:+ f) capture w = (Some out, w') /\
      w_exists h f w' = false /\
      (forall g, w_exists h g w = false -> w_exists h g w' = false).

(* ===================================================================== *)
(** ** A small environment to run the tasks in *)
(* ===================================================================== *)

Module Sandbox.

(** [strip_prefix p s]: what follows [p] in [s], when [s] starts with [p]. *)
Fixpoint strip_prefix (p s : string) : option string :=
  match p, s with
  | EmptyString, _ => Some s
  | String a p', String b s' =>
      if Ascii.eqb a b then strip_prefix p' s' else None
  | String _ _, EmptyString => None
  end.

(** The part of [s] before the first space, and the part after it. *)
Fixpoint split_space (s : string) : string * string :=
  match s with
  | EmptyString => (EmptyString, EmptyString)
  | String c r =>
      if Ascii.eqb c " "%char then (EmptyString, r)
      else let '(a, b) := split_space r in (String c a, b)
  end.

(** The state is the set of files that exist.  [rm -f] removes a file
    and succeeds whether or not it was there; [cp] needs its source;
    [git] answers fixed values; any other command succeeds silently. *)
Definition sh (cmd : string) (capture : bool) (fs : gset string)
  : option string * gset string :=
  match strip_prefix "rm -f " cmd with
  | Some f => (Some "", fs ∖ {[f]})
  | None =>
      match strip_prefix "cp " cmd with
      | Some args =>
          let '(src, dst) := split_space args in
          if bool_decide (src ∈ fs) then (Some "", fs ∪ {[dst]})
          else (None, fs)
      | None =>
          if String.eqb cmd "git rev-parse HEAD" then (Some "abc123", fs)
          else if String.eqb cmd "git describe --always --tag"
               then (Some "v0.1", fs)
          else if String.eqb cmd "git config github.user"
               then (Some "alice", fs)
          else if String.eqb cmd "git config github.password"
               then (Some "secret", fs)
          else if String.eqb cmd "python setup.py sdist"
               then (None, fs)
          else (Some "", fs)
      end
  end.

(** The remote side answers a GET with [listing], a POST with a fixed
    body and a DELETE with an empty body. *)
Definition http (listing : string) (q : Request) (fs : gset string)
  : option string * gset string :=
  if String.eqb (req_method q) "GET" then (Some listing, fs)
  else if String.eqb (req_method q) "POST" then (Some "META", fs)
  else (Some "", fs).

Definition env (listing : string) : world (gset string) :=
  {| w_sh := sh;
     w_exists := fun p fs => bool_decide (p ∈ fs);
     w_getsize := fun p fs => if bool_decide (p ∈ fs) then Some 1024%Z else None;
     w_urlopen := http listing |}.

Definition record (name : string) (id : Z) : json :=
  JObj (<["name" := JStr name]> (<["id" := JNum id]> ∅)).

Definition meta : gmap string json :=
  <["path" := JStr "downloads/alice/x.zip"]>
  (<["acl" := JStr "public-read"]>
  (<["name" := JStr "x.zip"]>
  (<["accesskeyid" := JStr "AK"]>
  (<["policy" := JStr "P"]>
  (<["signature" := JStr "S"]>
  (<["mime_type" := JStr "application/zip"]>
  (<["id" := JNum 9]> ∅))))))).

(** A decoder that knows a few bodies. *)
Definition loads (body : string) : option json :=
  if String.eqb body "BASE" then Some (JArr [record "bootstrap.zip" 7])
  else if String.eqb body "BOTH"
       then Some (JArr [record "bootstrap.zip" 7;
                        record "bootstrap-abc123.zip" 8])
  else if String.eqb body "NONE" then Some (JArr [])
  else if String.eqb body "META" then Some (JObj meta)
  else None.

(** An encoder that shows the description of a dictionary. *)
Definition dumps (indent : option nat) (v : json) : string :=
  match v with
  | JObj m =>
      match m !! "description" with
      | Some (JStr d) => "{" +:+ d +:+ "}"
      | _ => "{}"
      end
  | _ => "?"
  end.

(** Base64 as [base64.encodestring] produces it: three bytes give four
    characters of the alphabet, an incomplete last group is padded with
    [=], and each group of 57 bytes of input ends its line. *)
Definition b64_alphabet : string :=
  "ABCDEFGHIJKLMNOPQRSTUVWXYZabcdefghijklmnopqrstuvwxyz0123456789+/".

Definition b64_char (n : N) : ascii :=
  match String.get (N.to_nat n) b64_alphabet with
  | Some c => c
  | None => "="%char
  end.

Fixpoint b64_line (l : list ascii) : string :=
  match l with
  | [] => EmptyString
  | [a] =>
      let n := (N_of_ascii a * 65536)%N in
      String (b64_char (n / 262144)%N)
        (String (b64_char ((n / 4096) mod 64)%N) "==")
  | [a; b] =>
      let n := (N_of_ascii a * 65536 + N_of_ascii b * 256)%N in
      String (b64_char (n / 262144)%N)
        (String (b64_char ((n / 4096) mod 64)%N)
           (String (b64_char ((n / 64) mod 64)%N) "="))
  | a :: b :: c :: rest =>
      let n := (N_of_ascii a * 65536 + N_of_ascii b * 256
                + N_of_ascii c)%N in
      String (b64_char (n / 262144)%N)
        (String (b64_char ((n / 4096) mod 64)%N)
           (String (b64_char ((n / 64) mod 64)%N)
              (String (b64_char (n mod 64)%N) (b64_line rest))))
  end.

(** The input cut in pieces of 57 bytes; [cur] holds, reversed, the
    [n] bytes of the piece being filled. *)
Fixpoint b64_pieces (n : nat) (cur l : list ascii) : list (list ascii) :=
  match l with
  | [] => match cur with [] => [] | _ => [rev cur] end
  | c :: r =>
      if Nat.eqb n 56 then rev (c :: cur) :: b64_pieces 0 [] r
      else b64_pieces (S n) (c :: cur) r
  end.

Definition encodestring (s : string) : string :=
  String.concat ""
    (map (fun piece => b64_line piece +:+ String "010" EmptyString)
       (b64_pieces 0 [] (list_ascii_of_string s))).

Definition py_repr (v : json) : string := "?".

(** The [GitHub()] object this environment yields. *)
Definition github : GitHub :=
  {| user := Some "alice"; password := Some "secret"; token := None;
     repo := "sphinx-bootstrap-theme";
     api_base := "https://api.github.com" |}.

(** The same object when nothing is configured. *)
Definition anonymous : GitHub :=
  {| user := None; password := None; token := None;
     repo := "sphinx-bootstrap-theme";
     api_base := "https://api.github.com" |}.

Definition zips : gset string :=
  {[ "build/bootstrap.zip"; "build/bootstrap-abc123.zip" ]}.

Definition sources : gset string := {[ "README.rst"; "HISTORY.rst" ]}.

End Sandbox.

(* ===================================================================== *)
(** ** Further readings of a trace and of the data *)
(* ===================================================================== *)

(** The lines a run printed, in order. *)
Fixpoint prints (tr : list event) : list string :=
  match tr with
  | [] => []
  | EvPrint l :: rest => l :: prints rest
  | _ :: rest => prints rest
  end.

(** The exchanges that went wrong, with the exception each gives rise to:
    a command that exits with a nonzero status, a request that fails, a
    file whose size cannot be read. *)
Definition failed_event (e : event) : option exn :=
  match e with
  | EvLocal c _ None => Some (LocalError c)
  | EvUrlopen _ None => Some HTTPError
  | EvGetsize p None => Some (OSError p)
  | _ => None
  end.

(** A program that handles no failure of the environment: at every
    request, the continuation on a failed answer raises at once. *)
Fixpoint stops_on_failure {A : Type} (p : prog A) : Prop :=
  match p with
  | Ret _ | Raise _ => True
  | Sh c _ k =>
      k None = Raise (LocalError c) /\ forall out, stops_on_failure (k (Some out))
  | Exists _ k => forall r, stops_on_failure (k r)
  | Getsize f k =>
      k None = Raise (OSError f) /\ forall n, stops_on_failure (k (Some n))
  | Urlopen _ k =>
      k None = Raise HTTPError /\ forall body, stops_on_failure (k (Some body))
  | Print _ k => stops_on_failure k
  end.

(** The events of commands that succeeded. *)
Definition succeeded {X : Type} (f : X -> string) (xs : list X)
    (outs : list string) : list event :=
  zip_with (fun x out => EvLocal (f x) false (Some out)) xs outs.

(** The lines [gh_downloads] prints for a list of records, as long as
    every record can be formatted. *)
Fixpoint download_lines (py_repr : json -> string) (records : list json)
  : outcome (list string) :=
  match records with
  | [] => Ok []
  | x :: rest =>
      line <-? download_line py_repr x ;;
      lines <-? download_lines py_repr rest ;;
      Ok (line :: lines)
  end.

(** The value [config] makes of the output of [git config]. *)
Definition config_value (out : string) : option string :=
  if String.eqb (Str.strip out) "" then None else Some (Str.strip out).

(** [x] is a dictionary whose ['name'] is the string [name]. *)
Definition is_named (name : string) (x : json) : bool :=
  match x with
  | JObj m =>
      match m !! "name" with
      | Some (JStr s) => String.eqb s name
      | _ => false
      end
  | _ => false
  end.

(** The last record of a list that carries a given name. *)
Definition last_named (name : string) (l : list json) : option json :=
  List.find (is_named name) (rev l).

(** A record that can enter the dictionary of downloads: a dictionary
    with a ['name'] that is hashable, that is, neither a list nor a
    dictionary. *)
Definition hashable_named (x : json) : Prop :=
  exists m v, x = JObj m /\ m !! "name" = Some v /\
    match v with JArr _ | JObj _ => False | _ => True end.

(** The keys the [curl] command line formats, in the order it looks them
    up. *)
Definition curl_keys : list string :=
  ["path"; "acl"; "name"; "accesskeyid"; "policy"; "signature";
   "mime_type"; "file_path"].

(** The first key of a list that a dictionary lacks. *)
Definition first_missing (m : gmap string json) (keys : list string)
  : option string :=
  List.find (fun k => match m !! k with None => true | Some _ => false end) keys.

(** [s] is empty or begins with a character that is not whitespace, and
    the same for its end. *)
Definition no_leading_space (s : string) : Prop :=
  match s with
  | EmptyString => True
  | String c _ => Str.is_space c = false
  end.

(* ===================================================================== *)
(** ** More environments *)
(* ===================================================================== *)

Module Outage.

(** The sandbox with a storage service that refuses every create
    request, and a shell in which [rm -rf <dir>] removes a directory. *)
Definition http (listing : string) (q : Request) (fs : gset string)
  : option string * gset string :=
  if String.eqb (req_method q) "POST" then (None, fs)
  else Sandbox.http listing q fs.

Definition sh (cmd : string) (capture : bool) (fs : gset string)
  : option string * gset string :=
  match Sandbox.strip_prefix "rm -rf " cmd with
  | Some d => (Some "", fs ∖ {[d]})
  | None => Sandbox.sh cmd capture fs
  end.

Definition env (listing : string) : world (gset string) :=
  {| w_sh := sh;
     w_exists := fun p fs => bool_decide (p ∈ fs);
     w_getsize := fun p fs => if bool_decide (p ∈ fs) then Some 1024%Z else None;
     w_urlopen := http listing |}.

(** An environment without [rm]: every removal fails. *)
Definition sh_no_rm (cmd : string) (capture : bool) (fs : gset string)
  : option string * gset string :=
  match Sandbox.strip_prefix "rm " cmd with
  | Some _ => (None, fs)
  | None => Sandbox.sh cmd capture fs
  end.

Definition env_no_rm : world (gset string) :=
  {| w_sh := sh_no_rm;
     w_exists := fun p fs => bool_decide (p ∈ fs);
     w_getsize := fun p fs => if bool_decide (p ∈ fs) then Some 1024%Z else None;
     w_urlopen := Sandbox.http "" |}.

(** The sandbox with a remote side that answers every request with the
    same body. *)
Definition answering (body : string) : world (gset string) :=
  {| w_sh := Sandbox.sh;
     w_exists := fun p fs => bool_decide (p ∈ fs);
     w_getsize := fun p fs => if bool_decide (p ∈ fs) then Some 1024%Z else None;
     w_urlopen := fun _ fs => (Some body, fs) |}.

Definition build_tree : gset string :=
  {[ "dist"; "build"; "demo/build"; "README.rst" ]}.

(** Two records of the same name. *)
Definition twice : list json :=
  [Sandbox.record "bootstrap.zip" 7; Sandbox.record "other.zip" 8;
   Sandbox.record "bootstrap.zip" 9].

End Outage.

Module Tagged.

(** The sandbox in a repository whose latest tag is [release/1.0]. *)
Definition sh (cmd : string) (capture : bool) (fs : gset string)
  : option string * gset string :=
  if String.eqb cmd "git describe --always --tag"
  then (Some "release/1.0", fs)
  else Sandbox.sh cmd capture fs.

Definition env (listing : string) : world (gset string) :=
  {| w_sh := sh;
     w_exists := fun p fs => bool_decide (p ∈ fs);
     w_getsize := fun p fs => if bool_decide (p ∈ fs) then Some 1024%Z else None;
     w_urlopen := Sandbox.http listing |}.

(** The sandbox decoder with two more listings. *)
Definition loads (body : string) : option json :=
  if String.eqb body "TAGGED"
  then Some (JArr [Sandbox.record "bootstrap-release/1.0.zip" 5])
  else if String.eqb body "SPLIT"
       then Some (JArr [Sandbox.record "bootstrap.zip" 7;
                        Sandbox.record "1.0.zip" 8])
  else Sandbox.loads body.

Definition zips : gset string :=
  {[ "build/bootstrap.zip"; "build/bootstrap-release/1.0.zip" ]}.

End Tagged.

(* ===================================================================== *)
(** ** Runs of compound programs *)
(* ===================================================================== *)

Module RunFacts.

Create HintDb runs.
#[global] Hint Constructors runs : runs.

(** Inversion of a run at each kind of request. *)
Lemma runs_ret_inv {A : Type} (a : A) tr o :
  runs (Ret a) tr o -> tr = [] /\ o = Ok a.
Proof. intros H. inversion H; subst. auto. Qed.

Lemma runs_raise_inv {A : Type} e tr (o : outcome A) :
  runs (Raise e) tr o -> tr = [] /\ o = Err e.
Proof. intros H. inversion H; subst. auto. Qed.

Lemma runs_sh_inv {A : Type} c cap (k : option string -> prog A) tr o :
  runs (Sh c cap k) tr o ->
  exists r tr', tr = EvLocal c cap r :: tr' /\ runs (k r) tr' o.
Proof. intros H. inversion H; subst. eauto. Qed.

Lemma runs_exists_inv {A : Type} p (k : bool -> prog A) tr o :
  runs (Exists p k) tr o ->
  exists r tr', tr = EvExists p r :: tr' /\ runs (k r) tr' o.
Proof. intros H. inversion H; subst. eauto. Qed.

Lemma runs_getsize_inv {A : Type} p (k : option Z -> prog A) tr o :
  runs (Getsize p k) tr o ->
  exists r tr', tr = EvGetsize p r :: tr' /\ runs (k r) tr' o.
Proof. intros H. inversion H; subst. eauto. Qed.

Lemma runs_urlopen_inv {A : Type} q (k : option string -> prog A) tr o :
  runs (Urlopen q k) tr o ->
  exists r tr', tr = EvUrlopen q r :: tr' /\ runs (k r) tr' o.
Proof. intros H. inversion H; subst. eauto. Qed.

Lemma runs_print_inv {A : Type} l (k : prog A) tr o :
  runs (Print l k) tr o ->
  exists tr', tr = EvPrint l :: tr' /\ runs k tr' o.
Proof. intros H. inversion H; subst. eauto. Qed.

(** A run of [m ;; f] is a run of [m] that raises, or a run of [m] that
    returns followed by a run of [f]. *)
Lemma runs_bind_inv {A B : Type} (m : prog A) (f : A -> prog B) tr o :
  runs (bind m f) tr o ->
  (exists a tr1 tr2,
      runs m tr1 (Ok a) /\ runs (f a) tr2 o /\ tr = tr1 ++ tr2)
  \/ (exists e, runs m tr (Err e) /\ o = Err e).
Proof.
  revert tr o.
  induction m as [a|e|c cap k IH|p k IH|p k IH|q k IH|l k IH];
    intros tr o H; simpl in H.
  - left. exists a, [], tr. repeat split; auto with runs.
  - apply runs_raise_inv in H as [-> ->].
    right. exists e. split; auto with runs.
  - apply runs_sh_inv in H as (r & tr' & -> & H).
    destruct (IH _ _ _ H) as [(a & t1 & t2 & H1 & H2 & ->)|(e & H1 & ->)].
    + left. exists a, (EvLocal c cap r :: t1), t2. auto with runs.
    + right. exists e. auto with runs.
  - apply runs_exists_inv in H as (r & tr' & -> & H).
    destruct (IH _ _ _ H) as [(a & t1 & t2 & H1 & H2 & ->)|(e & H1 & ->)].
    + left. exists a, (EvExists p r :: t1), t2. auto with runs.
    + right. exists e. auto with runs.
  - apply runs_getsize_inv in H as (r & tr' & -> & H).
    destruct (IH _ _ _ H) as [(a & t1 & t2 & H1 & H2 & ->)|(e & H1 & ->)].
    + left. exists a, (EvGetsize p r :: t1), t2. auto with runs.
    + right. exists e. auto with runs.
  - apply runs_urlopen_inv in H as (r & tr' & -> & H).
    destruct (IH _ _ _ H) as [(a & t1 & t2 & H1 & H2 & ->)|(e & H1 & ->)].
    + left. exists a, (EvUrlopen q r :: t1), t2. auto with runs.
    + right. exists e. auto with runs.
  - apply runs_print_inv in H as (tr' & -> & H).
    destruct (IH _ _ H) as [(a & t1 & t2 & H1 & H2 & ->)|(e & H1 & ->)].
    + left. exists a, (EvPrint l :: t1), t2. auto with runs.
    + right. exists e. auto with runs.
Qed.

Lemma runs_bind_ok {A B : Type} (m : prog A) (f : A -> prog B) a tr1 tr2 o :
  runs m tr1 (Ok a) -> runs (f a) tr2 o -> runs (bind m f) (tr1 ++ tr2) o.
Proof.
  intros H. remember (Ok a) as oa eqn:E. revert E.
  induction H; intros E Hf; simpl; try discriminate; auto with runs.
  inversion E; subst. exact Hf.
Qed.

Lemma runs_bind_err {A B : Type} (m : prog A) (f : A -> prog B) e tr :
  runs m tr (Err e) -> runs (bind m f) tr (Err e).
Proof.
  intros H. remember (Err e) as oe eqn:E. revert E.
  induction H; intros E; simpl; try discriminate; auto with runs.
  inversion E; subst. constructor.
Qed.

(** A run of [try: body finally: fin] is a run of [body], whatever its
    outcome, followed by a run of [fin]; the outcome is that of [body]
    unless [fin] raises. *)
Lemma runs_try_finally_inv {A : Type} (body : prog A) (fin : prog unit) tr o :
  runs (try_finally body fin) tr o ->
  exists tr1 tr2 ob ofin,
    runs body tr1 ob /\ runs fin tr2 ofin /\ tr = tr1 ++ tr2 /\
    o = match ofin with Ok _ => ob | Err e => Err e end.
Proof.
  revert tr o.
  induction body as [a|e|c cap k IH|p k IH|p k IH|q k IH|l k IH];
    intros tr o H; simpl in H.
  - apply runs_bind_inv in H.
    destruct H as [(u & t1 & t2 & H1 & H2 & ->)|(e & H1 & ->)].
    + apply runs_ret_inv in H2 as [-> ->]. exists [], t1, (Ok a), (Ok u).
      rewrite app_nil_r. auto with runs.
    + exists [], tr, (Ok a), (Err e). auto with runs.
  - apply runs_bind_inv in H.
    destruct H as [(u & t1 & t2 & H1 & H2 & ->)|(e' & H1 & ->)].
    + apply runs_raise_inv in H2 as [-> ->]. exists [], t1, (Err e), (Ok u).
      rewrite app_nil_r. auto with runs.
    + exists [], tr, (Err e), (Err e'). auto with runs.
  - apply runs_sh_inv in H as (r & tr' & -> & H).
    destruct (IH _ _ _ H) as (t1 & t2 & ob & ofin & H1 & H2 & -> & ->).
    exists (EvLocal c cap r :: t1), t2, ob, ofin. auto with runs.
  - apply runs_exists_inv in H as (r & tr' & -> & H).
    destruct (IH _ _ _ H) as (t1 & t2 & ob & ofin & H1 & H2 & -> & ->).
    exists (EvExists p r :: t1), t2, ob, ofin. auto with runs.
  - apply runs_getsize_inv in H as (r & tr' & -> & H).
    destruct (IH _ _ _ H) as (t1 & t2 & ob & ofin & H1 & H2 & -> & ->).
    exists (EvGetsize p r :: t1), t2, ob, ofin. auto with runs.
  - apply runs_urlopen_inv in H as (r & tr' & -> & H).
    destruct (IH _ _ _ H) as (t1 & t2 & ob & ofin & H1 & H2 & -> & ->).
    exists (EvUrlopen q r :: t1), t2, ob, ofin. auto with runs.
  - apply runs_print_inv in H as (tr' & -> & H).
    destruct (IH _ _ H) as (t1 & t2 & ob & ofin & H1 & H2 & -> & ->).
    exists (EvPrint l :: t1), t2, ob, ofin. auto with runs.
Qed.

(** Whatever the environment, an execution is a run. *)
Lemma exec_runs {W A : Type} (h : world W) (p : prog A) w :
  runs p (snd (fst (exec h p w))) (fst (fst (exec h p w))).
Proof.
  revert w.
  induction p as [a|e|c cap k IH|p k IH|p k IH|q k IH|l k IH];
    intros w; simpl.
  - constructor.
  - constructor.
  - destruct (w_sh h c cap w) as [r w1]. specialize (IH r w1).
    destruct (exec h (k r) w1) as [[o tr] w2]. simpl in *. auto with runs.
  - specialize (IH (w_exists h p w) w).
    destruct (exec h (k (w_exists h p w)) w) as [[o tr] w2].
    simpl in *. auto with runs.
  - specialize (IH (w_getsize h p w) w).
    destruct (exec h (k (w_getsize h p w)) w) as [[o tr] w2].
    simpl in *. auto with runs.
  - destruct (w_urlopen h q w) as [r w1]. specialize (IH r w1).
    destruct (exec h (k r) w1) as [[o tr] w2]. simpl in *. auto with runs.
  - specialize (IH w). destruct (exec h k w) as [[o tr] w2].
    simpl in *. auto with runs.
Qed.

(** Execution of [m ;; f]. *)
Lemma exec_bind {W A B : Type} (h : world W) (m : prog A) (f : A -> prog B) w :
  exec h (bind m f) w =
  let '(o, tr, w1) := exec h m w in
  match o with
  | Ok a => let '(o2, tr2, w2) := exec h (f a) w1 in (o2, tr ++ tr2, w2)
  | Err e => (Err e, tr, w1)
  end.
Proof.
  revert w.
  induction m as [a|e|c cap k IH|p k IH|p k IH|q k IH|l k IH];
    intros w; simpl.
  - destruct (exec h (f a) w) as [[o2 tr2] w2]. reflexivity.
  - reflexivity.
  - destruct (w_sh h c cap w) as [r w1]. rewrite IH.
    destruct (exec h (k r) w1) as [[[a|e] tr] w2]; [|reflexivity].
    destruct (exec h (f a) w2) as [[o2 tr2] w3]. reflexivity.
  - rewrite IH.
    destruct (exec h (k (w_exists h p w)) w) as [[[a|e] tr] w2]; [|reflexivity].
    destruct (exec h (f a) w2) as [[o2 tr2] w3]. reflexivity.
  - rewrite IH.
    destruct (exec h (k (w_getsize h p w)) w) as [[[a|e] tr] w2]; [|reflexivity].
    destruct (exec h (f a) w2) as [[o2 tr2] w3]. reflexivity.
  - destruct (w_urlopen h q w) as [r w1]. rewrite IH.
    destruct (exec h (k r) w1) as [[[a|e] tr] w2]; [|reflexivity].
    destruct (exec h (f a) w2) as [[o2 tr2] w3]. reflexivity.
  - rewrite IH.
    destruct (exec h k w) as [[[a|e] tr] w2]; [|reflexivity].
    destruct (exec h (f a) w2) as [[o2 tr2] w3]. reflexivity.
Qed.

(** Execution of [try: body finally: fin]: [fin] runs from the state
    [body] left, whatever the outcome of [body]. *)
Lemma exec_try_finally {W A : Type} (h : world W)
    (body : prog A) (fin : prog unit) w :
  exec h (try_finally body fin) w =
  let '(ob, tr1, w1) := exec h body w in
  let '(ofin, tr2, w2) := exec h fin w1 in
  (match ofin with Ok _ => ob | Err e => Err e end, tr1 ++ tr2, w2).
Proof.
  revert w.
  induction body as [a|e|c cap k IH|p k IH|p k IH|q k IH|l k IH];
    intros w; simpl.
  - rewrite exec_bind. destruct (exec h fin w) as [[[u|e] tr] w1]; simpl;
      rewrite ?app_nil_r; reflexivity.
  - rewrite exec_bind. destruct (exec h fin w) as [[[u|e'] tr] w1]; simpl;
      rewrite ?app_nil_r; reflexivity.
  - destruct (w_sh h c cap w) as [r w1]. rewrite IH.
    destruct (exec h (k r) w1) as [[ob tr1] w2].
    destruct (exec h fin w2) as [[ofin tr2] w3]. reflexivity.
  - rewrite IH.
    destruct (exec h (k (w_exists h p w)) w) as [[ob tr1] w2].
    destruct (exec h fin w2) as [[ofin tr2] w3]. reflexivity.
  - rewrite IH.
    destruct (exec h (k (w_getsize h p w)) w) as [[ob tr1] w2].
    destruct (exec h fin w2) as [[ofin tr2] w3]. reflexivity.
  - destruct (w_urlopen h q w) as [r w1]. rewrite IH.
    destruct (exec h (k r) w1) as [[ob tr1] w2].
    destruct (exec h fin w2) as [[ofin tr2] w3]. reflexivity.
  - rewrite IH.
    destruct (exec h k w) as [[ob tr1] w2].
    destruct (exec h fin w2) as [[ofin tr2] w3]. reflexivity.
Qed.

Lemma requests_app tr1 tr2 : requests (tr1 ++ tr2) = requests tr1 ++ requests tr2.
Proof.
  induction tr1 as [|[] tr1 IH]; simpl; try rewrite IH; reflexivity.
Qed.

Lemma shell_cmds_app tr1 tr2 :
  shell_cmds (tr1 ++ tr2) = shell_cmds tr1 ++ shell_cmds tr2.
Proof.
  induction tr1 as [|[] tr1 IH]; simpl; try rewrite IH; reflexivity.
Qed.

End RunFacts.
Import RunFacts.

(* ===================================================================== *)
(** ** Runs of the basic calls *)
(* ===================================================================== *)

Lemma runs_lift_inv {A : Type} (m : outcome A) tr o :
  runs (lift m) tr o -> tr = [] /\ o = m.
Proof.
  destruct m as [a|e]; simpl; intros H.
  - apply runs_ret_inv in H. exact H.
  - apply runs_raise_inv in H. exact H.
Qed.

Lemma runs_local_inv (cmd : string) (capture : bool) tr o :
  runs (local cmd capture) tr o ->
  exists r,
    tr = [EvLocal cmd capture r] /\
    o = match r with
        | Some out => Ok (if capture then out else "")
        | None => Err (LocalError cmd)
        end.
Proof.
  unfold local. intros H.
  apply runs_sh_inv in H as (r & tr' & -> & H). exists r.
  destruct r as [out|].
  - apply runs_ret_inv in H as [-> ->]. auto.
  - apply runs_raise_inv in H as [-> ->]. auto.
Qed.

Lemma runs_getsize_call_inv (path : string) tr o :
  runs (getsize path) tr o ->
  exists r,
    tr = [EvGetsize path r] /\
    o = match r with
        | Some n => Ok n
        | None => Err (OSError path)
        end.
Proof.
  unfold getsize. intros H.
  apply runs_getsize_inv in H as (r & tr' & -> & H). exists r.
  destruct r as [n|].
  - apply runs_ret_inv in H as [-> ->]. auto.
  - apply runs_raise_inv in H as [-> ->]. auto.
Qed.

(* ===================================================================== *)
(** ** The names of the bundles *)
(* ===================================================================== *)

Lemma has_slash_app (a b : string) :
  Str.has_slash (a +:+ b) = Str.has_slash a || Str.has_slash b.
Proof.
  induction a as [|c a IH]; simpl; [reflexivity|].
  rewrite IH. apply orb_assoc.
Qed.

Lemma basename_no_slash (s : string) :
  Str.has_slash s = false -> Str.basename s = s.
Proof.
  destruct s as [|c r]; simpl; [reflexivity|].
  intros H. apply orb_false_iff in H as [-> ->]. reflexivity.
Qed.

Lemma basename_dir (d f : string) :
  Str.basename (d +:+ "/" +:+ f) = Str.basename f.
Proof.
  induction d as [|c d IH]; simpl; [reflexivity|].
  rewrite IH, has_slash_app. simpl.
  rewrite orb_true_r. destruct (Ascii.eqb c "/"); reflexivity.
Qed.

(** [base_file] is ["bootstrap.zip"], and for a suffix without slash
    (a commit hash, an ordinary tag) [suffix_file] is
    ["bootstrap-<suffix>.zip"]. *)
Lemma base_file_eq : base_file = "bootstrap.zip".
Proof. reflexivity. Qed.

Lemma suffix_file_no_slash (suffix : string) :
  Str.has_slash suffix = false ->
  suffix_file suffix = "bootstrap-" +:+ suffix +:+ ".zip".
Proof.
  intros H. unfold suffix_file, suffix_zip.
  change ("build/bootstrap-" +:+ suffix +:+ ".zip")
    with ("build" +:+ "/" +:+ ("bootstrap-" +:+ suffix +:+ ".zip")).
  rewrite basename_dir. apply basename_no_slash.
  rewrite !has_slash_app, H. reflexivity.
Qed.

(** A tag with a slash names a file in a subdirectory, and the name looked
    up remotely is its last component. *)
Example suffix_file_of_tag_with_slash :
  suffix_file "release/1.0" = "1.0.zip".
Proof. reflexivity. Qed.

(* ===================================================================== *)
(** ** The build suffix *)
(* ===================================================================== *)

Lemma py_in_true_tag (tag : pyval) :
  py_in tag [PyBool true; PyStr "True"] = true <-> selects_describe tag.
Proof.
  unfold selects_describe, py_in. simpl. split.
  - destruct tag as [|[]|n|s]; simpl; try discriminate; auto.
    + rewrite orb_false_r. intros H%Z.eqb_eq. subst. auto.
    + rewrite orb_false_r. intros H%String.eqb_eq. subst. auto.
  - intros [->|[->| ->]]; reflexivity.
Qed.

Lemma suffix_cmd_cases (tag : pyval) :
  (selects_describe tag /\ suffix_cmd tag = "git describe --always --tag")
  \/ (~ selects_describe tag /\ suffix_cmd tag = "git rev-parse HEAD").
Proof.
  unfold suffix_cmd.
  destruct (py_in tag [PyBool true; PyStr "True"]) eqn:E.
  - left. split; [apply py_in_true_tag; exact E | reflexivity].
  - right. split; [|reflexivity].
    intros H%py_in_true_tag. congruence.
Qed.

Lemma runs_get_suffix (tag : pyval) tr o :
  runs (get_suffix tag) tr o ->
  exists r, tr = [EvLocal (suffix_cmd tag) true r] /\
    o = match r with
        | Some out => Ok (Str.strip out)
        | None => Err (LocalError (suffix_cmd tag))
        end.
Proof.
  unfold get_suffix, local. simpl. intros H.
  apply runs_sh_inv in H as (r & tr' & -> & H). exists r.
  destruct r as [out|]; simpl in H.
  - apply runs_ret_inv in H as [-> ->]. auto.
  - apply runs_raise_inv in H as [-> ->]. auto.
Qed.

(** C4, as amended.  [get_suffix(tag)] runs exactly one command and
    returns its output with surrounding whitespace removed.  The command
    is [git describe --always --tag] when [tag] is equal to [True] or to
    the string ["True"] (for Python's [==], so also the integer 1), and
    [git rev-parse HEAD] for every other value, truthy or not. *)
Theorem get_suffix_selects_by_membership (tag : pyval) tr o :
  runs (get_suffix tag) tr o ->
  exists cmd r,
    tr = [EvLocal cmd true r] /\
    ((selects_describe tag /\ cmd = "git describe --always --tag")
     \/ (~ selects_describe tag /\ cmd = "git rev-parse HEAD")) /\
    (forall out, r = Some out -> o = Ok (Str.strip out)).
Proof.
  intros H. apply runs_get_suffix in H as (r & -> & ->).
  exists (suffix_cmd tag), r. split; [reflexivity|]. split.
  - apply suffix_cmd_cases.
  - intros out ->. reflexivity.
Qed.

Lemma get_suffix_selects_by_membership_witness :
  runs (get_suffix (PyStr "True"))
       [EvLocal "git describe --always --tag" true (Some " v0.1 ")]
       (Ok "v0.1") /\
  exists cmd r,
    [EvLocal "git describe --always --tag" true (Some " v0.1 ")]
      = [EvLocal cmd true r] /\
    ((selects_describe (PyStr "True") /\ cmd = "git describe --always --tag")
     \/ (~ selects_describe (PyStr "True") /\ cmd = "git rev-parse HEAD")) /\
    (forall out, r = Some out -> Ok "v0.1" = Ok (Str.strip out)).
Proof.
  assert (R : runs (get_suffix (PyStr "True"))
                [EvLocal "git describe --always --tag" true (Some " v0.1 ")]
                (Ok "v0.1")).
  { unfold get_suffix, local. simpl.
    apply runs_sh with (r := Some " v0.1 "). simpl.
    apply (runs_ret "v0.1"). }
  split; [exact R|].
  apply (get_suffix_selects_by_membership (PyStr "True") _ _ R).
Defined.

(** C4, as stated, fails: the string ["true"] is truthy, yet
    [get_suffix("true")] runs [git rev-parse HEAD]. *)
Lemma get_suffix_truthy_counterexample :
  truthy (PyStr "true") = true /\ ~ suffix_by_truthiness (PyStr "true").
Proof.
  split; [reflexivity|].
  intros H.
  destruct (H [EvLocal "git rev-parse HEAD" true (Some "abc123")] (Ok "abc123"))
    as (r & E).
  - unfold get_suffix, local. simpl.
    apply runs_sh with (r := Some "abc123"). simpl. apply (runs_ret "abc123").
  - simpl in E. discriminate E.
Qed.

(* ===================================================================== *)
(** ** The configuration reader and the API client *)
(* ===================================================================== *)

Lemma config_trimmed_or_absent_aux (key : string) tr o :
  runs (config key) tr o ->
  exists r,
    tr = [EvLocal ("git config github." +:+ key) true r] /\
    o = match r with
        | Some out =>
            Ok (if String.eqb (Str.strip out) "" then None
                else Some (Str.strip out))
        | None => Err (LocalError ("git config github." +:+ key))
        end.
Proof.
  unfold config. intros H.
  apply runs_bind_inv in H as [(out & t1 & t2 & H1 & H2 & ->)|(e & H1 & ->)];
    apply runs_local_inv in H1 as (r & -> & E); exists r.
  - destruct r as [out'|]; [|discriminate]. injection E as ->.
    apply runs_ret_inv in H2 as [-> ->]. auto.
  - destruct r as [out'|]; [discriminate|]. injection E as ->. auto.
Qed.

(** C7.  [config(key)] runs [git config github.<key>] and nothing else;
    with [val] the output with surrounding whitespace removed, it returns
    [val] when [val] is not empty and [None] when it is. *)
Theorem config_trimmed_or_absent (key : string) tr o :
  runs (config key) tr o ->
  exists r,
    tr = [EvLocal ("git config github." +:+ key) true r] /\
    forall out, r = Some out ->
      (Str.strip out <> "" -> o = Ok (Some (Str.strip out))) /\
      (Str.strip out = "" -> o = Ok None).
Proof.
  intros H. apply config_trimmed_or_absent_aux in H as (r & -> & ->).
  exists r. split; [reflexivity|].
  intros out ->. split; intros E.
  - apply String.eqb_neq in E. rewrite E. reflexivity.
  - rewrite E. reflexivity.
Qed.

Lemma config_trimmed_or_absent_witness :
  runs (config "user")
       [EvLocal "git config github.user" true (Some "alice ")]
       (Ok (Some "alice")) /\
  exists r,
    [EvLocal "git config github.user" true (Some "alice ")]
      = [EvLocal ("git config github." +:+ "user") true r] /\
    forall out, r = Some out ->
      (Str.strip out <> "" -> Ok (Some "alice") = Ok (Some (Str.strip out))) /\
      (Str.strip out = "" -> Ok (Some "alice") = Ok None).
Proof.
  assert (R : runs (config "user")
                [EvLocal "git config github.user" true (Some "alice ")]
                (Ok (Some "alice"))).
  { unfold config, local. simpl.
    apply runs_sh with (r := Some "alice "). simpl.
    apply (runs_ret (Some "alice")). }
  split; [exact R|].
  apply (config_trimmed_or_absent "user" _ _ R).
Defined.

Section ApiClient.

Variable loads : string -> option json.
Variable encodestring : string -> string.

Lemma req_headers_add_headers (req : Request) headers :
  req_headers (_add_headers req headers) = req_headers req ++ headers.
Proof.
  unfold _add_headers. destruct headers as [|h hs].
  - rewrite app_nil_r. reflexivity.
  - generalize (h :: hs). clear h hs. intros hs. revert req.
    induction hs as [|h hs IH]; intros req; simpl.
    + rewrite app_nil_r. reflexivity.
    + rewrite IH. destruct h as [key val]. simpl.
      rewrite <- app_assoc. reflexivity.
Qed.

Lemma api_request_headers (self : GitHub) path method headers data :
  req_headers (api_request encodestring self path method headers data)
  = headers ++ [("Authorization", basic_auth encodestring self)].
Proof.
  unfold api_request, add_header. simpl.
  rewrite req_headers_add_headers. reflexivity.
Qed.

Lemma runs_api_op (self : GitHub) path method headers data tr o :
  runs (api_op loads encodestring self path method headers data) tr o ->
  exists r,
    tr = [EvUrlopen (api_request encodestring self path method headers data) r]
    /\ o = match r with
           | Some body => decode_body loads body
           | None => Err HTTPError
           end.
Proof.
  unfold api_op. intros H.
  apply runs_urlopen_inv in H as (r & tr' & -> & H). exists r.
  destruct r as [body|].
  - destruct (decode_body loads body) as [v|e]; simpl in H.
    + apply runs_ret_inv in H as [-> ->]. auto.
    + apply runs_raise_inv in H as [-> ->]. auto.
  - apply runs_raise_inv in H as [-> ->]. auto.
Qed.

(** C6.  A run of [api_op] is one HTTP exchange.  When the response
    body is not empty the result is the body decoded by [json.loads]
    (and the [ValueError] of [json.loads] when it does not decode);
    when the body is empty the result is the empty dictionary. *)
Theorem api_op_decodes_body (self : GitHub) path method headers data tr o :
  runs (api_op loads encodestring self path method headers data) tr o ->
  exists r,
    tr = [EvUrlopen (api_request encodestring self path method headers data) r]
    /\ forall body, r = Some body ->
         (body <> "" ->
            o = match loads body with
                | Some v => Ok v
                | None => Err ValueError
                end) /\
         (body = "" -> o = Ok (JObj ∅)).
Proof.
  intros H. apply runs_api_op in H as (r & -> & ->). exists r.
  split; [reflexivity|]. intros body ->. unfold decode_body. split; intros E.
  - apply String.eqb_neq in E. rewrite E. reflexivity.
  - rewrite E. reflexivity.
Qed.

(** C10.  Whatever the configured user and password, [None] included,
    a run of [api_op] sends its request, and the request carries, after
    the caller's headers, an Authorization header whose value is
    ["Basic "] followed by the base64 encoding (minus its last
    character) of ["<user>:<password>"], an absent value being rendered
    as ["None"].  The call fails only when [urlopen] fails or the body
    does not decode. *)
Theorem api_op_always_authorizes (self : GitHub) path method headers data tr o :
  runs (api_op loads encodestring self path method headers data) tr o ->
  exists q r,
    tr = [EvUrlopen q r] /\
    req_headers q = headers ++ [("Authorization", basic_auth encodestring self)] /\
    (user self = None -> password self = None ->
     basic_auth encodestring self
     = "Basic " +:+ Str.drop_last (encodestring "None:None")) /\
    (forall e, o = Err e ->
       (r = None /\ e = HTTPError)
       \/ (exists body, r = Some body /\ body <> "" /\
                       loads body = None /\ e = ValueError)).
Proof.
  intros H. apply runs_api_op in H as (r & -> & ->).
  exists (api_request encodestring self path method headers data), r.
  split; [reflexivity|]. split; [apply api_request_headers|]. split.
  - intros Hu Hp. unfold basic_auth. rewrite Hu, Hp. reflexivity.
  - intros e. destruct r as [body|].
    + unfold decode_body. destruct (String.eqb_spec body "") as [->|Hne].
      * discriminate.
      * destruct (loads body) eqn:El; [discriminate|].
        intros [= <-]. right. exists body. auto.
    + intros [= <-]. left. auto.
Qed.

End ApiClient.

(* ===================================================================== *)
(** ** Creating and uploading a download *)
(* ===================================================================== *)

Section Upload.

Variable loads : string -> option json.
Variable dumps : option nat -> json -> string.
Variable encodestring : string -> string.
Variable py_repr : json -> string.

(** The exchanges of a run of [downloads_put], step by step: the size
    of the file, the create request, the [curl] command. *)
Lemma runs_downloads_put (self : GitHub) file_name suffix desc tr o :
  runs (downloads_put loads dumps encodestring py_repr
          self file_name suffix desc) tr o ->
  (tr = [EvGetsize file_name None] /\ o = Err (OSError file_name))
  \/ exists sz r,
       let q := create_request dumps encodestring self file_name sz
                  (effective_desc suffix desc) in
       (tr = [EvGetsize file_name (Some sz); EvUrlopen q r] /\
        exists e, o = Err e)
       \/ exists body m cmd rc,
            r = Some body /\
            decode_body loads body = Ok (JObj m) /\
            curl_cmd py_repr (JObj (<["file_path" := JStr file_name]> m))
              = Ok cmd /\
            tr = [EvGetsize file_name (Some sz); EvUrlopen q r;
                  EvLocal cmd false rc] /\
            o = match rc with
                | Some _ => Ok (JObj (<["file_path" := JStr file_name]> m))
                | None => Err (LocalError cmd)
                end.
Proof.
  unfold downloads_put. fold (effective_desc suffix desc). intros H.
  apply runs_bind_inv in H
    as [(sz & t1 & t2 & H1 & H & ->)|(e & H1 & ->)];
    apply runs_getsize_call_inv in H1 as (rs & -> & E).
  2:{ destruct rs; [discriminate|]. injection E as <-. left. auto. }
  destruct rs as [n|]; [|discriminate]. injection E as <-.
  right. exists sz. simpl.
  apply runs_bind_inv in H
    as [(meta & t1 & t3 & H1 & H & ->)|(e & H1 & ->)];
    apply runs_api_op in H1 as (r & -> & E); exists r.
  2:{ left. eauto. }
  destruct r as [body|]; [|discriminate]. simpl.
  apply runs_bind_inv in H
    as [(meta' & t1 & t4 & H1 & H & ->)|(e & H1 & ->)];
    apply runs_lift_inv in H1 as [-> E1].
  2:{ left. eauto. }
  destruct meta as [| | | | |m]; try discriminate E1.
  simpl in E1. injection E1 as ->. simpl.
  apply runs_bind_inv in H
    as [(cmd & t1 & t5 & H1 & H & ->)|(e & H1 & ->)];
    apply runs_lift_inv in H1 as [-> E1].
  2:{ left. eauto. }
  symmetry in E1. simpl.
  apply runs_bind_inv in H
    as [(u & t1 & t6 & H1 & H & ->)|(e & H1 & ->)];
    apply runs_local_inv in H1 as (rc & -> & E2).
  - destruct rc as [out|]; [|discriminate].
    apply runs_ret_inv in H as [-> ->].
    right. exists body, m, cmd, (Some out). auto.
  - destruct rc as [out|]; [discriminate|]. injection E2 as ->.
    right. exists body, m, cmd, None. auto.
Qed.

(** C8.  A run of [downloads_put] without description begins by
    reading the size of the file.  When the size cannot be read the run
    ends there with the error and sends nothing.  Otherwise the next
    exchange is the create request: a POST to the downloads of the
    repository whose body is the encoding of the dictionary with the
    name, the size read and the description
    ["Pre-packaged sphinx theme for <suffix>."]; it is the only HTTP
    request of the run. *)
Theorem downloads_put_default_description (self : GitHub) file_name suffix tr o :
  runs (downloads_put loads dumps encodestring py_repr
          self file_name suffix None) tr o ->
  (tr = [EvGetsize file_name None] /\ o = Err (OSError file_name))
  \/ exists sz r rest,
       let desc := "Pre-packaged sphinx theme for " +:+ suffix +:+ "." in
       let q := api_request encodestring self
                  ("repos/" +:+ fmt_s (user self) +:+ "/" +:+ repo self
                   +:+ "/downloads")
                  "POST" [("Content-Type", "application/json")]
                  (Some (dumps None (create_body file_name sz desc))) in
       tr = EvGetsize file_name (Some sz) :: EvUrlopen q r :: rest /\
       requests tr = [q] /\
       req_method q = "POST" /\
       req_data q = Some (dumps None (create_body file_name sz desc)) /\
       getitem (create_body file_name sz desc) "description"
       = Ok (JStr desc).
Proof.
  intros H. apply runs_downloads_put in H.
  destruct H as [[-> ->]|(sz & r & H)]; [left; auto|].
  right. simpl in H.
  assert (Hd : getitem
                 (create_body file_name sz
                    ("Pre-packaged sphinx theme for " +:+ suffix +:+ "."))
                 "description"
               = Ok (JStr ("Pre-packaged sphinx theme for " +:+ suffix +:+ "."))).
  { unfold create_body, getitem.
    rewrite lookup_insert_ne by discriminate.
    rewrite lookup_insert_ne by discriminate.
    rewrite lookup_insert_eq. reflexivity. }
  destruct H as [[-> _]|(body & m & cmd & rc & _ & _ & _ & -> & _)].
  - exists sz, r, []. cbv zeta.
    split; [reflexivity|]. split; [reflexivity|].
    split; [reflexivity|]. split; [reflexivity|]. exact Hd.
  - exists sz, r, [EvLocal cmd false rc]. cbv zeta.
    split; [reflexivity|]. split; [reflexivity|].
    split; [reflexivity|]. split; [reflexivity|]. exact Hd.
Qed.

(** C9.  What a successful [downloads_put] returns is the dictionary
    decoded from the response to the create request, with
    ['file_path'] bound to [file_name]: that key holds [file_name] and
    every other key holds what the response holds for it. *)
Theorem downloads_put_returns_augmented_meta
    (self : GitHub) file_name suffix desc tr result :
  runs (downloads_put loads dumps encodestring py_repr
          self file_name suffix desc) tr (Ok result) ->
  exists q body m,
    In (EvUrlopen q (Some body)) tr /\
    req_method q = "POST" /\
    decode_body loads body = Ok (JObj m) /\
    result = JObj (<["file_path" := JStr file_name]> m) /\
    getitem result "file_path" = Ok (JStr file_name) /\
    (forall key, key <> "file_path" ->
       getitem result key = getitem (JObj m) key).
Proof.
  intros H. apply runs_downloads_put in H.
  destruct H as [[_ [=]]|(sz & r & H)]. simpl in H.
  destruct H as [[_ [e [=]]]|(body & m & cmd & rc & -> & Hd & _ & -> & E)].
  destruct rc as [out|]; [|discriminate]. injection E as ->.
  eexists _, body, m. split; [simpl; eauto|].
  split; [reflexivity|]. split; [exact Hd|]. split; [reflexivity|]. split.
  - simpl. rewrite lookup_insert_eq. reflexivity.
  - intros key Hk. simpl. rewrite lookup_insert_ne by congruence.
    reflexivity.
Qed.

End Upload.

(* ===================================================================== *)
(** ** The distribution wrapper *)
(* ===================================================================== *)

Lemma dist_wrapper_unfold (action : prog unit) :
  _dist_wrapper action
  = try_finally (copy_txt_files ;;; action) remove_txt_files.
Proof. reflexivity. Qed.

Lemma SDIST_TXT_FILES_eq : SDIST_TXT_FILES = ["README.txt"; "HISTORY.txt"].
Proof. reflexivity. Qed.

Section Cleanup.

Context {W : Type} (h : world W).

(** The removals, whatever the shell does: the first one is always
    started, the second one when the first exits with status 0. *)
Lemma exec_remove_txt_files_any (w : W) :
  exists o r1 rest w',
    exec h remove_txt_files w
    = (o, EvLocal "rm -f README.txt" false r1 :: rest, w') /\
    ((r1 = None /\ rest = [] /\ o = Err (LocalError "rm -f README.txt"))
     \/ (exists out1 r2,
           r1 = Some out1 /\
           rest = [EvLocal "rm -f HISTORY.txt" false r2])).
Proof.
  unfold remove_txt_files. rewrite SDIST_TXT_FILES_eq. simpl.
  change ("rm -f " +:+ "README.txt") with "rm -f README.txt".
  change ("rm -f " +:+ "HISTORY.txt") with "rm -f HISTORY.txt".
  destruct (w_sh h "rm -f README.txt" false w) as [[out1|] w1]; simpl.
  - destruct (w_sh h "rm -f HISTORY.txt" false w1) as [[out2|] w2]; simpl;
      eexists _, _, _, _; (split; [reflexivity|]); right; eauto.
  - eexists _, _, _, _. split; [reflexivity|]. left. auto.
Qed.

(** The removals in a shell in which [rm -f] does its work. *)
Lemma exec_remove_txt_files (rm_f : rm_f_removes h) (w : W) :
  exists out1 out2 w',
    exec h remove_txt_files w
    = (Ok tt,
       [EvLocal "rm -f README.txt" false (Some out1);
        EvLocal "rm -f HISTORY.txt" false (Some out2)], w') /\
    w_exists h "README.txt" w' = false /\
    w_exists h "HISTORY.txt" w' = false.
Proof.
  destruct (rm_f "README.txt" (or_introl eq_refl) false w)
    as (out1 & w1 & E1 & A1 & _).
  destruct (rm_f "HISTORY.txt" (or_intror (or_introl eq_refl)) false w1)
    as (out2 & w2 & E2 & A2 & K2).
  exists out1, out2, w2. split; [|split].
  - unfold remove_txt_files. rewrite SDIST_TXT_FILES_eq. simpl in *.
    rewrite E1. simpl. rewrite E2. reflexivity.
  - apply K2. exact A1.
  - exact A2.
Qed.

(** C5, as amended.  Whatever the inner action and however it ends,
    [rm -f README.txt] is run after everything the copies and the
    action did, and [rm -f HISTORY.txt] follows it exactly when it
    exits with status 0.  In a shell in which [rm -f] of either file
    exits with status 0 whether or not the file was there, leaves it
    absent and makes no file appear, both removals are run in this
    order, the outcome of the wrapper is that of the copies followed by
    the action, and neither [.txt] file exists in the final state.
    When the copies succeed, what comes between them and the removals
    is the run of the action, and the outcome is the action's. *)
Theorem dist_wrapper_always_cleans (action : prog unit) (w : W) :
  let res := exec h (_dist_wrapper action) w in
  let body := exec h (copy_txt_files ;;; action) w in
  (exists r1 rest,
     trace_of res
     = trace_of body ++ EvLocal "rm -f README.txt" false r1 :: rest /\
     ((r1 = None /\ rest = [] /\
       outcome_of res = Err (LocalError "rm -f README.txt"))
      \/ (exists out1 r2,
            r1 = Some out1 /\
            rest = [EvLocal "rm -f HISTORY.txt" false r2]))) /\
  (rm_f_removes h ->
   w_exists h "README.txt" (state_of res) = false /\
   w_exists h "HISTORY.txt" (state_of res) = false /\
   outcome_of res = outcome_of body /\
   (exists out1 out2,
      trace_of res
      = trace_of body ++
        [EvLocal "rm -f README.txt" false (Some out1);
         EvLocal "rm -f HISTORY.txt" false (Some out2)]) /\
   (forall trc wc,
      exec h copy_txt_files w = (Ok tt, trc, wc) ->
      outcome_of body = outcome_of (exec h action wc) /\
      trace_of body = trc ++ trace_of (exec h action wc))).
Proof.
  intros res body. subst res body.
  rewrite dist_wrapper_unfold, exec_try_finally.
  assert (Hbody : forall trc wc,
    exec h copy_txt_files w = (Ok tt, trc, wc) ->
    outcome_of (exec h (copy_txt_files ;;; action) w)
      = outcome_of (exec h action wc) /\
    trace_of (exec h (copy_txt_files ;;; action) w)
      = trc ++ trace_of (exec h action wc)).
  { intros trc wc Hc. rewrite exec_bind, Hc.
    destruct (exec h action wc) as [[oa tra] wa]. split; reflexivity. }
  destruct (exec h (copy_txt_files ;;; action) w) as [[ob trb] wb].
  split.
  - destruct (exec_remove_txt_files_any wb)
      as (o & r1 & rest & w' & E & Hr).
    rewrite E. unfold outcome_of, trace_of. cbn [fst snd].
    exists r1, rest. split; [reflexivity|].
    destruct Hr as [(-> & -> & ->)|Hr]; [left; auto|right; exact Hr].
  - intros rm_f.
    destruct (exec_remove_txt_files rm_f wb)
      as (out1 & out2 & w' & E & A1 & A2).
    rewrite E. unfold state_of, outcome_of, trace_of in *.
    cbn [fst snd] in *.
    split; [exact A1|]. split; [exact A2|]. split; [reflexivity|].
    split; [|exact Hbody].
    exists out1, out2. reflexivity.
Qed.

End Cleanup.

(** The sandbox shell treats [rm -f] as described. *)
Lemma sandbox_rm_f (listing : string) :
  forall f capture w,
    exists out w',
      w_sh (Sandbox.env listing) ("rm -f " +:+ f) capture w = (Some out, w') /\
      w_exists (Sandbox.env listing) f w' = false /\
      (forall g, w_exists (Sandbox.env listing) g w = false ->
                 w_exists (Sandbox.env listing) g w' = false).
Proof.
  intros f capture w. exists "", (w ∖ {[f]}). simpl. split; [|split].
  - unfold Sandbox.sh. simpl. reflexivity.
  - apply bool_decide_eq_false.
    rewrite elem_of_difference, elem_of_singleton. tauto.
  - intros g Hg. apply bool_decide_eq_false in Hg.
    apply bool_decide_eq_false.
    rewrite elem_of_difference. tauto.
Qed.

Lemma sandbox_rm_f_removes (listing : string) :
  rm_f_removes (Sandbox.env listing).
Proof. intros f _. apply sandbox_rm_f. Qed.

Lemma dist_wrapper_always_cleans_witness :
  let h := Sandbox.env "" in
  let action := local "python setup.py sdist" false ;;; Ret tt in
  let res := exec h (_dist_wrapper action) Sandbox.sources in
  let body := exec h (copy_txt_files ;;; action) Sandbox.sources in
  rm_f_removes h /\
  outcome_of res = Err (LocalError "python setup.py sdist") /\
  trace_of res
  = [EvLocal "cp README.rst README.txt" false (Some "");
     EvLocal "cp HISTORY.rst HISTORY.txt" false (Some "");
     EvLocal "python setup.py sdist" false None;
     EvLocal "rm -f README.txt" false (Some "");
     EvLocal "rm -f HISTORY.txt" false (Some "")] /\
  (exists r1 rest,
     trace_of res
     = trace_of body ++ EvLocal "rm -f README.txt" false r1 :: rest /\
     ((r1 = None /\ rest = [] /\
       outcome_of res = Err (LocalError "rm -f README.txt"))
      \/ (exists out1 r2,
            r1 = Some out1 /\
            rest = [EvLocal "rm -f HISTORY.txt" false r2]))) /\
  (rm_f_removes h ->
   w_exists h "README.txt" (state_of res) = false /\
   w_exists h "HISTORY.txt" (state_of res) = false /\
   outcome_of res = outcome_of body /\
   (exists out1 out2,
      trace_of res
      = trace_of body ++
        [EvLocal "rm -f README.txt" false (Some out1);
         EvLocal "rm -f HISTORY.txt" false (Some out2)]) /\
   (forall trc wc,
      exec h copy_txt_files Sandbox.sources = (Ok tt, trc, wc) ->
      outcome_of body = outcome_of (exec h action wc) /\
      trace_of body = trc ++ trace_of (exec h action wc))).
Proof.
  intros h action res body.
  split; [exact (sandbox_rm_f_removes "")|].
  split; [vm_compute; reflexivity|].
  split; [vm_compute; reflexivity|].
  exact (dist_wrapper_always_cleans h action Sandbox.sources).
Defined.

(** C5, as stated, fails in a shell whose [rm] fails: the first removal
    ends the loop of the [finally], [rm -f HISTORY.txt] is not run, and
    both copies are still there when the wrapper completes. *)
Lemma dist_wrapper_cleans_counterexample :
  let h := Outage.env_no_rm in
  let action := local "python setup.py sdist upload" false ;;; Ret tt in
  let res := exec h (_dist_wrapper action) Sandbox.sources in
  trace_of res
  = [EvLocal "cp README.rst README.txt" false (Some "");
     EvLocal "cp HISTORY.rst HISTORY.txt" false (Some "");
     EvLocal "python setup.py sdist upload" false (Some "");
     EvLocal "rm -f README.txt" false None] /\
  outcome_of res = Err (LocalError "rm -f README.txt") /\
  w_exists h "README.txt" (state_of res) = true /\
  w_exists h "HISTORY.txt" (state_of res) = true /\
  ~ cleans_unconditionally h action Sandbox.sources.
Proof.
  intros h action res.
  split; [vm_compute; reflexivity|].
  split; [vm_compute; reflexivity|].
  split; [vm_compute; reflexivity|].
  split; [vm_compute; reflexivity|].
  intros (_ & _ & H & _). vm_compute in H. discriminate H.
Qed.

(* ===================================================================== *)
(** ** The dictionary of downloads *)
(* ===================================================================== *)

(** An entry of the dictionary is a record of the list under its own
    name, or was in the dictionary before. *)
Lemma dict_by_name_lookup (l : list json) :
  forall acc d key x,
    dict_by_name l acc = Ok d ->
    d !! key = Some x ->
    (In x l /\ record_named key x) \/ acc !! key = Some x.
Proof.
  induction l as [|y l IH]; intros acc d key x Hd Hx; simpl in Hd.
  - injection Hd as <-. right. exact Hx.
  - destruct y as [| | | | |m]; simpl in Hd; try discriminate.
    destruct (m !! "name") as [name|] eqn:En; simpl in Hd; [|discriminate].
    destruct name as [| | |s| |]; try discriminate;
      destruct (IH _ _ _ _ Hd Hx) as [[Hin Hr]|Hacc];
      try (left; split; [right; exact Hin|exact Hr]);
      try (right; exact Hacc).
    destruct (decide (s = key)) as [->|Hne].
    + rewrite lookup_insert_eq in Hacc. injection Hacc as <-.
      left. split; [left; reflexivity|]. exists m. auto.
    + rewrite lookup_insert_ne in Hacc by exact Hne. right. exact Hacc.
Qed.

(** A name carried by a record of the list, or already in the
    dictionary, is in the dictionary. *)
Lemma dict_by_name_present (l : list json) :
  forall acc d key,
    dict_by_name l acc = Ok d ->
    (exists x, In x l /\ record_named key x) \/ is_Some (acc !! key) ->
    is_Some (d !! key).
Proof.
  induction l as [|y l IH]; intros acc d key Hd Hk; simpl in Hd.
  - injection Hd as <-. destruct Hk as [(x & [] & _)|Hk]. exact Hk.
  - destruct y as [| | | | |m]; simpl in Hd; try discriminate.
    destruct (m !! "name") as [name|] eqn:En; simpl in Hd; [|discriminate].
    assert (Hcases :
      (exists x, In x l /\ record_named key x) \/ is_Some (acc !! key)
      \/ name = JStr key).
    { destruct Hk as [(x & [<-|Hin] & Hr)|Hk]; eauto.
      destruct Hr as (m' & [= <-] & Hn). right. right. congruence. }
    destruct name as [| | |s| |]; try discriminate;
      try (apply (IH _ _ _ Hd);
           destruct Hcases as [H|[H|H]]; [left; exact H|right; exact H|
                                          discriminate H]).
    apply (IH _ _ _ Hd).
    destruct Hcases as [H|[H|H]]; [left; exact H| |].
    + right. destruct (decide (s = key)) as [->|Hne].
      * rewrite lookup_insert_eq. eauto.
      * rewrite lookup_insert_ne by exact Hne. exact H.
    + injection H as ->. right. rewrite lookup_insert_eq. eauto.
Qed.

(** A list of download records always yields a dictionary. *)
Lemma dict_by_name_records (l : list json) :
  Forall is_record l -> forall acc, exists d, dict_by_name l acc = Ok d.
Proof.
  induction 1 as [|x l (name & m & -> & Hn) _ IH]; intros acc; simpl.
  - eauto.
  - rewrite Hn. simpl. apply IH.
Qed.

(* ===================================================================== *)
(** ** Runs of [gh_upload] *)
(* ===================================================================== *)

Lemma runs_bind_Forall {A B : Type} (P : event -> Prop)
    (m : prog A) (f : A -> prog B) tr o :
  (forall t oa, runs m t oa -> Forall P t) ->
  (forall a t ob, runs (f a) t ob -> Forall P t) ->
  runs (bind m f) tr o -> Forall P tr.
Proof.
  intros Hm Hf H.
  apply runs_bind_inv in H as [(a & t1 & t2 & H1 & H2 & ->)|(e & H1 & _)].
  - apply Forall_app. split; [eapply Hm|eapply Hf]; eassumption.
  - eapply Hm; eassumption.
Qed.

Lemma runs_print_call_inv (line : string) tr o :
  runs (print line) tr o -> tr = [EvPrint line] /\ o = Ok tt.
Proof.
  unfold print. intros H.
  apply runs_print_inv in H as (tr' & -> & H).
  apply runs_ret_inv in H as [-> ->]. auto.
Qed.

Lemma runs_path_exists_inv (path : string) tr o :
  runs (path_exists path) tr o ->
  exists r, tr = [EvExists path r] /\ o = Ok r.
Proof.
  unfold path_exists. intros H.
  apply runs_exists_inv in H as (r & tr' & -> & H).
  apply runs_ret_inv in H as [-> ->]. eauto.
Qed.

Lemma runs_config_events (key : string) tr o :
  runs (config key) tr o -> Forall config_event tr.
Proof.
  intros H. apply config_trimmed_or_absent_aux in H as (r & -> & _).
  constructor; [|constructor]. exists key, r. reflexivity.
Qed.

Lemma runs_GitHub_init_events tr o :
  runs GitHub_init tr o -> Forall config_event tr.
Proof.
  unfold GitHub_init. intros H.
  repeat (eapply runs_bind_Forall in H; [exact H| apply runs_config_events |];
          clear H; intros ? ? ? H).
  apply runs_ret_inv in H as [-> _]. constructor.
Qed.

Lemma req_method_add_headers (req : Request) headers :
  req_method (_add_headers req headers) = req_method req.
Proof.
  unfold _add_headers. destruct headers as [|h hs]; [reflexivity|].
  generalize (h :: hs). clear h hs. intros hs. revert req.
  induction hs as [|h hs IH]; intros req; simpl; [reflexivity|].
  rewrite IH. reflexivity.
Qed.

Lemma req_method_api_request encodestring (self : GitHub) path method headers data :
  req_method (api_request encodestring self path method headers data) = method.
Proof.
  unfold api_request, add_header. simpl. apply req_method_add_headers.
Qed.

Lemma curl_cmd_prefix py_repr (meta : json) cmd :
  curl_cmd py_repr meta = Ok cmd -> String.prefix "curl " cmd = true.
Proof.
  unfold curl_cmd. destruct meta as [| | | | |m]; try discriminate.
  repeat match goal with
         | |- context [fmt_key ?r ?d ?k] =>
             destruct (fmt_key r d k); simpl; try discriminate
         end.
  intros [= <-]. reflexivity.
Qed.

(** Splits [Forall P [e1; ...; en]] into the n goals [P ei]. *)
Ltac each_event :=
  repeat (apply Forall_cons_2; [simpl|]); try apply Forall_nil_2.

Section GhUpload.

Variable loads : string -> option json.
Variable dumps : option nat -> json -> string.
Variable encodestring : string -> string.
Variable py_repr : json -> string.

Local Abbreviation gh_upload' := (gh_upload loads dumps encodestring py_repr).
Local Abbreviation upload_new' := (upload_new loads dumps encodestring py_repr).
Local Abbreviation downloads_put' :=
  (downloads_put loads dumps encodestring py_repr).
Local Abbreviation downloads_del' := (downloads_del loads encodestring py_repr).

Lemma gh_upload_tail (tag : pyval) :
  gh_upload' tag
  = (suffix <- get_suffix tag ;;
     found <- (e <- path_exists base_zip ;;
               if e then path_exists (suffix_zip suffix) else Ret false) ;;
     (if found then Ret tt else abort msg_missing) ;;;
     github <- GitHub_init ;;
     dls <- downloads loads encodestring github ;;
     records <- lift (iter_json dls) ;;
     dl_dict <- lift (dict_by_name records ∅) ;;
     upload_new' github suffix dl_dict).
Proof. reflexivity. Qed.

Lemma runs_downloads_del (self : GitHub) (dl : json) tr o :
  runs (downloads_del' self dl) tr o ->
  match getitem dl "id" with
  | Err e => tr = [] /\ o = Err e
  | Ok id =>
      exists r,
        tr = [EvUrlopen (delete_request encodestring py_repr self id) r] /\
        o = match r with
            | Some body => decode_body loads body
            | None => Err HTTPError
            end
  end.
Proof.
  unfold downloads_del. intros H.
  apply runs_bind_inv in H as [(id & t1 & t2 & H1 & H & ->)|(e & H1 & ->)];
    apply runs_lift_inv in H1 as [-> E]; rewrite <- E.
  - apply runs_api_op in H as (r & -> & ->). exists r. auto.
  - auto.
Qed.

Lemma runs_downloads_put_ok (self : GitHub) file_name suffix desc tr result :
  runs (downloads_put' self file_name suffix desc) tr (Ok result) ->
  exists sz body m cmd out,
    tr = [EvGetsize file_name (Some sz);
          EvUrlopen (create_request dumps encodestring self file_name sz
                       (effective_desc suffix desc)) (Some body);
          EvLocal cmd false (Some out)] /\
    decode_body loads body = Ok (JObj m) /\
    result = JObj (<["file_path" := JStr file_name]> m) /\
    curl_cmd py_repr result = Ok cmd.
Proof.
  intros H. apply runs_downloads_put in H.
  destruct H as [[_ [=]]|(sz & r & H)]. simpl in H.
  destruct H as [[_ [e [=]]]|(body & m & cmd & rc & -> & Hd & Hc & -> & E)].
  destruct rc as [out|]; [|discriminate]. injection E as ->.
  exists sz, body, m, cmd, out. auto.
Qed.

Lemma runs_downloads_put_events (self : GitHub) file_name suffix desc tr o :
  runs (downloads_put' self file_name suffix desc) tr o ->
  Forall upload_event tr.
Proof.
  intros H. apply runs_downloads_put in H.
  destruct H as [[-> _]|(sz & r & H)].
  - each_event. exact I.
  - simpl in H.
    destruct H as [[-> _]|(body & m & cmd & rc & _ & _ & Hc & -> & _)].
    + each_event; [exact I|]. right. reflexivity.
    + each_event; [exact I| |].
      * right. reflexivity.
      * exact (curl_cmd_prefix py_repr
                 (JObj (<["file_path" := JStr file_name]> m)) cmd Hc).
Qed.

Lemma runs_downloads_del_events (self : GitHub) dl tr o :
  runs (downloads_del' self dl) tr o -> Forall upload_event tr.
Proof.
  intros H. apply runs_downloads_del in H.
  destruct (getitem dl "id") as [id|e].
  - destruct H as (r & -> & _). each_event. left. reflexivity.
  - destruct H as [-> _]. constructor.
Qed.

Lemma runs_print_events line tr o :
  runs (print line) tr o -> Forall upload_event tr.
Proof.
  intros H. apply runs_print_call_inv in H as [-> _]. each_event. exact I.
Qed.

(** Whatever happens after the dictionary is built, it is printing,
    reading file sizes, DELETE and POST requests, and [curl]. *)
Lemma runs_upload_new_events (github : GitHub) suffix d tr o :
  runs (upload_new' github suffix d) tr o -> Forall upload_event tr.
Proof.
  unfold upload_new. intros H.
  destruct (d !! suffix_file suffix) as [x|].
  { apply runs_print_events in H. exact H. }
  eapply runs_bind_Forall in H; [exact H| |]; clear H.
  { intros t oa H. destruct (d !! base_file) as [dl|].
    - eapply runs_bind_Forall in H; [exact H| |]; clear H.
      + intros ? ?. apply runs_print_events.
      + intros _ ? ? H.
        eapply runs_bind_Forall in H; [exact H| |]; clear H.
        * intros ? ?. apply runs_downloads_del_events.
        * intros ? ? ?. apply runs_print_events.
    - apply runs_ret_inv in H as [-> _]. constructor. }
  intros _ t ob H.
  eapply runs_bind_Forall in H; [exact H| |]; clear H.
  { intros ? ?. apply runs_print_events. }
  intros _ ? ? H.
  eapply runs_bind_Forall in H; [exact H| |]; clear H.
  { intros ? ?. apply runs_downloads_put_events. }
  intros ? ? ? H.
  eapply runs_bind_Forall in H; [exact H| |]; clear H.
  { intros ? ?. apply runs_print_events. }
  intros _ ? ? H.
  eapply runs_bind_Forall in H; [exact H| |]; clear H.
  { intros ? ?. apply runs_print_events. }
  intros _ ? ? H.
  eapply runs_bind_Forall in H; [exact H| |]; clear H.
  { intros ? ?. apply runs_downloads_put_events. }
  intros ? ? ?. apply runs_print_events.
Qed.

(** The phases of a run of [gh_upload]: the suffix command, the check
    of the two local files, the configuration, the fetch of the list,
    and the tail. *)
Lemma runs_gh_upload_inv (tag : pyval) tr o :
  runs (gh_upload' tag) tr o ->
  exists r0 tr1,
    tr = EvLocal (suffix_cmd tag) true r0 :: tr1 /\
    match r0 with
    | None => tr1 = [] /\ o = Err (LocalError (suffix_cmd tag))
    | Some out =>
        let suffix := Str.strip out in
        (tr1 = [EvExists base_zip false] /\ o = Err (Abort msg_missing))
        \/ (tr1 = [EvExists base_zip true;
                   EvExists (suffix_zip suffix) false] /\
            o = Err (Abort msg_missing))
        \/ exists trc tr2,
             tr1 = EvExists base_zip true
                   :: EvExists (suffix_zip suffix) true :: trc ++ tr2 /\
             Forall config_event trc /\
             ((tr2 = [] /\ exists e, o = Err e)
              \/ exists github rb tr3,
                   tr2 = EvUrlopen (list_request encodestring github) rb
                         :: tr3 /\
                   ((tr3 = [] /\ (exists e, o = Err e) /\
                     forall body dls records,
                       rb = Some body ->
                       decode_body loads body = Ok dls ->
                       iter_json dls = Ok records ->
                       exists e, dict_by_name records ∅ = Err e)
                    \/ exists body dls records d,
                         rb = Some body /\
                         decode_body loads body = Ok dls /\
                         iter_json dls = Ok records /\
                         dict_by_name records ∅ = Ok d /\
                         runs (upload_new' github suffix d) tr3 o))
    end.
Proof.
  rewrite gh_upload_tail. intros H.
  apply runs_bind_inv in H
    as [(suffix & t0 & tr1 & H0 & H & ->)|(e & H0 & ->)];
    apply runs_get_suffix in H0 as (r0 & -> & E0); exists r0.
  2:{ exists []. split; [reflexivity|].
      destruct r0; [discriminate|]. injection E0 as ->. auto. }
  exists tr1. split; [reflexivity|].
  destruct r0 as [out|]; [|discriminate]. injection E0 as ->. simpl.
  (* the check of the local files *)
  apply runs_bind_inv in H
    as [(found & tf & tr2 & Hf & H & ->)|(e & Hf & ->)].
  2:{ exfalso.
      apply runs_bind_inv in Hf
        as [(e1 & t1 & t2 & H1 & H2 & ->)|(e' & H1 & _)];
        apply runs_path_exists_inv in H1 as (r1 & -> & E1);
        [|discriminate].
      injection E1 as ->.
      destruct r1.
      - apply runs_path_exists_inv in H2 as (r2 & _ & [=]).
      - apply runs_ret_inv in H2 as [_ [=]]. }
  apply runs_bind_inv in Hf
    as [(e1 & t1 & t2 & H1 & H2 & ->)|(e' & H1 & _)];
    apply runs_path_exists_inv in H1 as (r1 & -> & E1);
    [|discriminate].
  injection E1 as ->.
  destruct r1.
  2:{ apply runs_ret_inv in H2 as [-> [= ->]].
      apply runs_bind_inv in H
        as [(u & t1 & t2 & H1 & _ & _)|(e & H1 & ->)];
        apply runs_raise_inv in H1 as [-> E]; [discriminate|].
      injection E as <-. left. auto. }
  apply runs_path_exists_inv in H2 as (r2 & -> & [= ->]).
  destruct r2.
  2:{ apply runs_bind_inv in H
        as [(u & t1 & t2 & H1 & _ & _)|(e & H1 & ->)];
        apply runs_raise_inv in H1 as [-> E]; [discriminate|].
      injection E as <-. right. left. auto. }
  right. right.
  apply runs_bind_inv in H
    as [(u & t1 & tr3 & H1 & H & ->)|(e & H1 & _)];
    apply runs_ret_inv in H1 as [-> E]; [|discriminate]. clear E u.
  (* the configuration *)
  apply runs_bind_inv in H
    as [(github & trc & tr4 & Hc & H & ->)|(e & Hc & ->)].
  2:{ exists tr3, []. rewrite app_nil_r. split; [reflexivity|].
      split; [eapply runs_GitHub_init_events; exact Hc|]. left. eauto. }
  exists trc, tr4. split; [reflexivity|].
  split; [eapply runs_GitHub_init_events; exact Hc|]. right.
  (* the fetch *)
  apply runs_bind_inv in H
    as [(dls & td & tr5 & Hd & H & ->)|(e & Hd & ->)];
    apply runs_api_op in Hd as (rb & -> & Ed); exists github, rb.
  2:{ exists []. split; [reflexivity|]. left.
      split; [reflexivity|]. split; [eauto|].
      intros body dls records -> Hb. congruence. }
  exists tr5. split; [reflexivity|].
  destruct rb as [body|]; [|discriminate]. symmetry in Ed.
  apply runs_bind_inv in H
    as [(records & t1 & tr6 & Hi & H & ->)|(e & Hi & ->)];
    apply runs_lift_inv in Hi as [-> Ei]; symmetry in Ei.
  2:{ left. split; [reflexivity|]. split; [eauto|].
      intros body' dls' records [= <-] Hb. congruence. }
  apply runs_bind_inv in H
    as [(d & t1 & tr7 & Hy & H & ->)|(e & Hy & ->)];
    apply runs_lift_inv in Hy as [-> Ey]; symmetry in Ey.
  2:{ left. split; [reflexivity|]. split; [eauto|].
      intros body' dls' records' [= <-] Hb Hr.
      exists e. congruence. }
  right. exists body, dls, records, d. auto.
Qed.

(** The tail of a run that completes, when the dictionary holds the
    base name and not the suffixed name: one DELETE, then the two
    uploads. *)
Lemma runs_upload_new_replace (github : GitHub) suffix d dl tr :
  d !! suffix_file suffix = None ->
  d !! base_file = Some dl ->
  runs (upload_new' github suffix d) tr (Ok tt) ->
  exists id sz1 m1 cmd1 sz2 m2 cmd2,
    getitem dl "id" = Ok id /\
    requests tr
    = [delete_request encodestring py_repr github id;
       create_request dumps encodestring github base_zip sz1
         (default_desc suffix);
       create_request dumps encodestring github (suffix_zip suffix) sz2
         (default_desc suffix)] /\
    shell_cmds tr = [cmd1; cmd2] /\
    curl_cmd py_repr (JObj (<["file_path" := JStr base_zip]> m1))
      = Ok cmd1 /\
    curl_cmd py_repr (JObj (<["file_path" := JStr (suffix_zip suffix)]> m2))
      = Ok cmd2.
Proof.
  unfold upload_new. intros -> -> H.
  apply runs_bind_inv in H as [(u0 & ta & tb & Ha & H & ->)|(? & _ & [=])].
  (* the removal of the base record *)
  apply runs_bind_inv in Ha as [(u1 & t1 & t2 & H1 & Ha & ->)|(? & _ & [=])].
  apply runs_print_call_inv in H1 as [-> _].
  apply runs_bind_inv in Ha as [(res & t1 & t3 & H1 & Ha & ->)|(? & _ & [=])].
  apply runs_downloads_del in H1.
  destruct (getitem dl "id") as [id|e]; [|destruct H1 as [_ [=]]].
  destruct H1 as (rd & -> & _).
  apply runs_print_call_inv in Ha as [-> _].
  (* the upload of the base file *)
  apply runs_bind_inv in H as [(u2 & t1 & tc & H1 & H & ->)|(? & _ & [=])].
  apply runs_print_call_inv in H1 as [-> _].
  apply runs_bind_inv in H as [(res1 & t1 & td & H1 & H & ->)|(? & _ & [=])].
  apply runs_downloads_put_ok in H1
    as (sz1 & body1 & m1 & cmd1 & out1 & -> & _ & -> & Hc1).
  apply runs_bind_inv in H as [(u3 & t1 & te & H1 & H & ->)|(? & _ & [=])].
  apply runs_print_call_inv in H1 as [-> _].
  (* the upload of the suffixed file *)
  apply runs_bind_inv in H as [(u4 & t1 & tf & H1 & H & ->)|(? & _ & [=])].
  apply runs_print_call_inv in H1 as [-> _].
  apply runs_bind_inv in H as [(res2 & t1 & tg & H1 & H & ->)|(? & _ & [=])].
  apply runs_downloads_put_ok in H1
    as (sz2 & body2 & m2 & cmd2 & out2 & -> & _ & -> & Hc2).
  apply runs_print_call_inv in H as [-> _].
  exists id, sz1, m1, cmd1, sz2, m2, cmd2.
  split; [reflexivity|]. split; [reflexivity|]. split; [reflexivity|].
  split; [exact Hc1|exact Hc2].
Qed.

Lemma requests_downloads_put (self : GitHub) file_name suffix desc tr o :
  runs (downloads_put' self file_name suffix desc) tr o ->
  (requests tr = [] /\ exists e, o = Err e)
  \/ exists sz,
       requests tr
       = [create_request dumps encodestring self file_name sz
            (effective_desc suffix desc)].
Proof.
  intros H. apply runs_downloads_put in H.
  destruct H as [[-> ->]|(sz & r & H)]; [left; eauto|].
  right. exists sz. simpl in H.
  destruct H as [[-> _]|(body & m & cmd & rc & _ & _ & _ & -> & _)];
    reflexivity.
Qed.

(** The tail of any run, completed or not, when the dictionary holds the
    base name and not the suffixed name: its requests are an initial part
    of the sequence DELETE, create base, create suffixed. *)
Lemma runs_upload_new_in_order (github : GitHub) suffix d dl tr o :
  d !! suffix_file suffix = None ->
  d !! base_file = Some dl ->
  runs (upload_new' github suffix d) tr o ->
  exists id sz1 sz2 rest,
    [delete_request encodestring py_repr github id;
     create_request dumps encodestring github base_zip sz1
       (default_desc suffix);
     create_request dumps encodestring github (suffix_zip suffix) sz2
       (default_desc suffix)]
    = requests tr ++ rest.
Proof.
  unfold upload_new. intros -> -> H.
  apply runs_bind_inv in H as [(u0 & ? & ? & Ha & H & ->)|(e & Ha & ->)].
  2:{ (* the removal failed *)
      apply runs_bind_inv in Ha as [(u1 & ? & ? & H1 & Ha & ->)|(? & H1 & _)];
        apply runs_print_call_inv in H1 as [-> E1]; [|discriminate].
      apply runs_bind_inv in Ha as [(res & ? & ? & H1 & Ha & ->)|(? & H1 & _)].
      { apply runs_print_call_inv in Ha as [_ [=]]. }
      apply runs_downloads_del in H1.
      destruct (getitem dl "id") as [id|e'].
      - destruct H1 as (rd & -> & _). exists id, 0%Z, 0%Z. eexists. reflexivity.
      - destruct H1 as [-> _]. exists JNull, 0%Z, 0%Z. eexists. reflexivity. }
  apply runs_bind_inv in Ha as [(u1 & ? & ? & H1 & Ha & ->)|(? & _ & [=])].
  apply runs_print_call_inv in H1 as [-> _].
  apply runs_bind_inv in Ha as [(res & ? & ? & H1 & Ha & ->)|(? & _ & [=])].
  apply runs_downloads_del in H1.
  destruct (getitem dl "id") as [id|e]; [|destruct H1 as [_ [=]]].
  destruct H1 as (rd & -> & _).
  apply runs_print_call_inv in Ha as [-> _].
  exists id. simpl.
  (* the upload of the base file *)
  apply runs_bind_inv in H as [(u2 & ? & ? & H1 & H & ->)|(? & H1 & _)];
    apply runs_print_call_inv in H1 as [-> E1]; [|discriminate].
  simpl.
  apply runs_bind_inv in H as [(res1 & ? & ? & H1 & H & ->)|(e & H1 & ->)].
  2:{ apply requests_downloads_put in H1 as [[-> _]|(sz1 & ->)].
      - exists 0%Z, 0%Z. eexists. reflexivity.
      - exists sz1, 0%Z. eexists. reflexivity. }
  apply requests_downloads_put in H1 as [[_ [e [=]]]|(sz1 & H1)].
  exists sz1. rewrite requests_app, H1. simpl.
  apply runs_bind_inv in H as [(u3 & ? & ? & H2 & H & ->)|(? & H2 & _)];
    apply runs_print_call_inv in H2 as [-> E2]; [|discriminate].
  simpl.
  (* the upload of the suffixed file *)
  apply runs_bind_inv in H as [(u4 & ? & ? & H2 & H & ->)|(? & H2 & _)];
    apply runs_print_call_inv in H2 as [-> E3]; [|discriminate].
  simpl.
  apply runs_bind_inv in H as [(res2 & ? & ? & H2 & H & ->)|(e & H2 & ->)].
  2:{ apply requests_downloads_put in H2 as [[-> _]|(sz2 & ->)].
      - exists 0%Z. eexists. reflexivity.
      - exists sz2, []. reflexivity. }
  apply requests_downloads_put in H2 as [[_ [e [=]]]|(sz2 & H2)].
  exists sz2, []. rewrite requests_app, H2.
  apply runs_print_call_inv in H as [-> _]. reflexivity.
Qed.

Lemma suffix_cmd_not_config (tag : pyval) key :
  suffix_cmd tag <> "git config github." +:+ key.
Proof.
  destruct (suffix_cmd_cases tag) as [[_ ->]|[_ ->]]; simpl; discriminate.
Qed.

Lemma suffix_cmd_not_curl (tag : pyval) :
  String.prefix "curl " (suffix_cmd tag) = false.
Proof.
  destruct (suffix_cmd_cases tag) as [[_ ->]|[_ ->]]; reflexivity.
Qed.

Lemma config_events_quiet trc :
  Forall config_event trc ->
  requests trc = [] /\
  List.filter (String.prefix "curl ") (shell_cmds trc) = [] /\
  (forall p r, ~ In (EvExists p r) trc) /\
  (forall q r, ~ In (EvUrlopen q r) trc).
Proof.
  induction 1 as [|e trc (key & r & ->) _ (IH1 & IH2 & IH3 & IH4)]; simpl.
  - repeat split; auto.
  - repeat split; auto.
    + intros p r' [[=]|Hin]. eapply IH3; exact Hin.
    + intros q r' [[=]|Hin]. eapply IH4; exact Hin.
Qed.

Lemma upload_events_no_get tr q r :
  Forall upload_event tr ->
  In (EvUrlopen q r) tr -> req_method q = "GET" -> False.
Proof.
  intros HF Hin Hm. rewrite Forall_forall in HF.
  apply list_elem_of_In in Hin.
  specialize (HF _ Hin). simpl in HF. rewrite Hm in HF.
  destruct HF as [|]; discriminate.
Qed.

Lemma upload_events_no_suffix_cmd tr tag r :
  Forall upload_event tr -> In (EvLocal (suffix_cmd tag) true r) tr -> False.
Proof.
  intros HF Hin. rewrite Forall_forall in HF.
  apply list_elem_of_In in Hin.
  specialize (HF _ Hin). simpl in HF.
  rewrite suffix_cmd_not_curl in HF. discriminate.
Qed.

Lemma upload_events_no_exists tr p r :
  Forall upload_event tr -> In (EvExists p r) tr -> False.
Proof.
  intros HF Hin. rewrite Forall_forall in HF.
  apply list_elem_of_In in Hin.
  exact (HF _ Hin).
Qed.

(** A run in which the suffix command answered [out] and a GET
    request was answered [body]: that request is the fetch of the
    list, nothing was sent before it, and what follows is the tail,
    run on the dictionary built from [body]. *)
Lemma runs_gh_upload_fetched (tag : pyval) tr o out q body :
  runs (gh_upload' tag) tr o ->
  In (EvLocal (suffix_cmd tag) true (Some out)) tr ->
  In (EvUrlopen q (Some body)) tr ->
  req_method q = "GET" ->
  exists github pre tr3,
    tr = pre ++ EvUrlopen q (Some body) :: tr3 /\
    q = list_request encodestring github /\
    requests pre = [] /\
    List.filter (String.prefix "curl ") (shell_cmds pre) = [] /\
    ((tr3 = [] /\ (exists e, o = Err e) /\
      forall dls records,
        decode_body loads body = Ok dls ->
        iter_json dls = Ok records ->
        exists e, dict_by_name records ∅ = Err e)
     \/ exists dls records d,
          decode_body loads body = Ok dls /\
          iter_json dls = Ok records /\
          dict_by_name records ∅ = Ok d /\
          runs (upload_new' github (Str.strip out) d) tr3 o).
Proof.
  intros H Hs Hg Hm.
  apply runs_gh_upload_inv in H as (r0 & tr1 & -> & H).
  destruct Hg as [[=]|Hg].
  destruct r0 as [out0|]; [|destruct H as [-> _]; destruct Hg].
  simpl in H.
  destruct H as [[-> _]|[[-> _]|(trc & tr2 & -> & Hc & H)]].
  { destruct Hg as [[=]|[]]. }
  { destruct Hg as [[=]|[[=]|[]]]. }
  destruct (config_events_quiet _ Hc) as (Hq1 & Hq2 & Hq3 & Hq4).
  destruct Hg as [[=]|[[=]|Hg]].
  apply in_app_or in Hg as [Hg|Hg]; [destruct (Hq4 _ _ Hg)|].
  destruct H as [[-> _]|(github & rb & tr3 & -> & H)]; [destruct Hg|].
  assert (Hup : Forall upload_event tr3).
  { destruct H as [[-> _]|(b & dls & records & d & _ & _ & _ & _ & H)].
    - constructor.
    - eapply runs_upload_new_events. exact H. }
  destruct Hg as [[= <- ->]|Hg];
    [|destruct (upload_events_no_get _ _ _ Hup Hg Hm)].
  assert (out0 = out) as ->.
  { destruct Hs as [[= ->]|[[=]|[[=]|Hs]]]; [reflexivity|].
    apply in_app_or in Hs as [Hs|[[=]|Hs]].
    - rewrite Forall_forall in Hc. apply list_elem_of_In in Hs.
      destruct (Hc _ Hs) as (key & r & [= E _]).
      destruct (suffix_cmd_not_config _ _ E).
    - destruct (upload_events_no_suffix_cmd _ _ _ Hup Hs). }
  exists github,
    (EvLocal (suffix_cmd tag) true (Some out)
     :: EvExists base_zip true
     :: EvExists (suffix_zip (Str.strip out)) true :: trc), tr3.
  split; [reflexivity|].
  split; [reflexivity|]. split; [exact Hq1|]. split.
  { simpl. rewrite suffix_cmd_not_curl. exact Hq2. }
  destruct H as [(-> & He & Hf)|(b & dls & records & d & [= <-] & H)].
  - left. split; [reflexivity|]. split; [exact He|].
    intros dls records. apply Hf. reflexivity.
  - right. exists dls, records, d. exact H.
Qed.

(** C3.  A run of [gh_upload] in which one of the two local files is
    found missing ends there: it aborts with the message
    ["Did not find current zip files. Please create."], and its trace
    is the suffix command followed by the checks, with no HTTP request
    and no [curl] upload. *)
Theorem gh_upload_aborts_without_zips (tag : pyval) tr o :
  runs (gh_upload' tag) tr o ->
  (exists path, In (EvExists path false) tr) ->
  o = Err (Abort "Did not find current zip files. Please create.") /\
  requests tr = [] /\
  curl_calls tr = [] /\
  exists out,
    tr = [EvLocal (suffix_cmd tag) true (Some out);
          EvExists "build/bootstrap.zip" false]
    \/ tr = [EvLocal (suffix_cmd tag) true (Some out);
             EvExists "build/bootstrap.zip" true;
             EvExists ("build/bootstrap-" +:+ Str.strip out +:+ ".zip")
               false].
Proof.
  intros H (path & Hin).
  apply runs_gh_upload_inv in H as (r0 & tr1 & -> & H).
  destruct Hin as [[=]|Hin].
  destruct r0 as [out|]; [|destruct H as [-> _]; destruct Hin].
  simpl in H. unfold curl_calls.
  destruct H as [[-> ->]|[[-> ->]|(trc & tr2 & -> & Hc & H)]].
  - simpl. rewrite suffix_cmd_not_curl. eauto 6.
  - simpl. rewrite suffix_cmd_not_curl. eauto 6.
  - exfalso.
    destruct (config_events_quiet _ Hc) as (_ & _ & Hq3 & _).
    destruct Hin as [[=]|[[=]|Hin]].
    apply in_app_or in Hin as [Hin|Hin]; [destruct (Hq3 _ _ Hin)|].
    destruct H as [[-> _]|(github & rb & tr3 & -> & H)]; [destruct Hin|].
    destruct Hin as [[=]|Hin].
    destruct H as [[-> _]|(b & dls & records & d & _ & _ & _ & _ & H)];
      [destruct Hin|].
    eapply upload_events_no_exists; [|exact Hin].
    eapply runs_upload_new_events. exact H.
Qed.

(** C1, as amended.  A run of [gh_upload] in which the list fetched
    from the remote side holds a record whose name is the suffixed file
    name, the basename of [build/bootstrap-<suffix>.zip], sends no
    request but the fetch: no DELETE, no create, no [curl].
    When the list is a list of download records the run prints
    ["Found suffixed zip file already. Skipping"] and returns. *)
Theorem gh_upload_skips_when_present (tag : pyval) tr o out q body l :
  runs (gh_upload' tag) tr o ->
  In (EvLocal (suffix_cmd tag) true (Some out)) tr ->
  In (EvUrlopen q (Some body)) tr ->
  req_method q = "GET" ->
  decode_body loads body = Ok (JArr l) ->
  (exists x, In x l /\ record_named (suffix_file (Str.strip out)) x) ->
  delete_calls tr = [] /\
  create_calls tr = [] /\
  curl_calls tr = [] /\
  requests tr = [q] /\
  (Forall is_record l ->
   o = Ok tt /\
   exists pre,
     tr = pre ++ [EvUrlopen q (Some body);
                  EvPrint "Found suffixed zip file already. Skipping"]).
Proof.
  intros H Hs Hg Hm Hd Hx.
  destruct (runs_gh_upload_fetched _ _ _ _ _ _ H Hs Hg Hm)
    as (github & pre & tr3 & -> & Hq & Hp1 & Hp2 & Htail).
  assert (Hskip : (tr3 = [] /\ ~ Forall is_record l)
                  \/ (tr3 = [EvPrint msg_skip] /\ o = Ok tt)).
  { destruct Htail as [(-> & _ & Hf)|(dls & records & d & Hd' & Hi & Hy & Hr)].
    - left. split; [reflexivity|]. intros Hwf.
      destruct (Hf _ _ Hd eq_refl) as [e He].
      destruct (dict_by_name_records l Hwf ∅) as [d Hd']. congruence.
    - right. rewrite Hd in Hd'. injection Hd' as <-. injection Hi as <-.
      destruct (dict_by_name_present l ∅ d _ Hy (or_introl Hx)) as [x Hl].
      unfold upload_new in Hr. rewrite Hl in Hr.
      apply runs_print_call_inv in Hr. exact Hr. }
  assert (Hreq : requests (pre ++ EvUrlopen q (Some body) :: tr3) = [q]).
  { rewrite requests_app, Hp1.
    destruct Hskip as [[-> _]|[-> _]]; reflexivity. }
  assert (Hcurl : curl_calls (pre ++ EvUrlopen q (Some body) :: tr3) = []).
  { unfold curl_calls. rewrite shell_cmds_app, List.filter_app, Hp2.
    destruct Hskip as [[-> _]|[-> _]]; reflexivity. }
  unfold delete_calls, create_calls. rewrite Hreq. simpl.
  unfold has_method. rewrite Hm. simpl.
  repeat (split; [reflexivity || assumption|]).
  intros Hwf.
  destruct Hskip as [[_ Hn]|[-> ->]]; [destruct (Hn Hwf)|].
  split; [reflexivity|]. exists pre. reflexivity.
Qed.

(** Any run, completed or cut short by a failing call, in which the
    fetched list holds a record named ["bootstrap.zip"] and none with the
    suffixed file name: its requests are an initial part of the sequence
    fetch, DELETE, create base, create suffixed.  So no such run deletes
    twice, uploads before it deletes, or uploads the suffixed file
    before the base file. *)
Lemma gh_upload_requests_in_order (tag : pyval) tr o out q body l :
  runs (gh_upload' tag) tr o ->
  In (EvLocal (suffix_cmd tag) true (Some out)) tr ->
  In (EvUrlopen q (Some body)) tr ->
  req_method q = "GET" ->
  decode_body loads body = Ok (JArr l) ->
  (exists x, In x l /\ record_named "bootstrap.zip" x) ->
  (forall x, In x l -> ~ record_named (suffix_file (Str.strip out)) x) ->
  exists github id sz1 sz2 rest,
    [q;
     delete_request encodestring py_repr github id;
     create_request dumps encodestring github base_zip sz1
       (default_desc (Str.strip out));
     create_request dumps encodestring github (suffix_zip (Str.strip out)) sz2
       (default_desc (Str.strip out))]
    = requests tr ++ rest.
Proof.
  intros H Hs Hg Hm Hd Hb Hn.
  destruct (runs_gh_upload_fetched _ _ _ _ _ _ H Hs Hg Hm)
    as (github & pre & tr3 & -> & Hq & Hp1 & Hp2 & Htail).
  exists github. rewrite requests_app, Hp1. simpl.
  destruct Htail as [(-> & _ & _)|(dls & records & d & Hd' & Hi & Hy & Hr)].
  { exists JNull, 0%Z, 0%Z. eexists. reflexivity. }
  rewrite Hd in Hd'. injection Hd' as <-. injection Hi as <-.
  assert (Hsuf : d !! suffix_file (Str.strip out) = None).
  { destruct (d !! suffix_file (Str.strip out)) as [x|] eqn:E; [|reflexivity].
    destruct (dict_by_name_lookup l ∅ d _ x Hy E) as [[Hin Hr']|He].
    - destruct (Hn x Hin Hr').
    - rewrite lookup_empty in He. discriminate. }
  destruct (dict_by_name_present l ∅ d base_file Hy (or_introl Hb))
    as [dl Hdl].
  destruct (runs_upload_new_in_order github _ d dl tr3 o Hsuf Hdl Hr)
    as (id & sz1 & sz2 & rest & E).
  exists id, sz1, sz2, rest. rewrite E. reflexivity.
Qed.

(** C2, as amended.  A run of [gh_upload] that completes, and in
    which the list fetched from the remote side holds a record named
    ["bootstrap.zip"] and none with the suffixed file name, the
    basename of [build/bootstrap-<suffix>.zip], sends
    after the fetch exactly three requests, in this order: the DELETE
    of a record of the list named ["bootstrap.zip"], the create
    request for [build/bootstrap.zip], the create request for
    [build/bootstrap-<suffix>.zip].  Its two [curl] commands post
    these two files, in the same order. *)
Theorem gh_upload_replaces_base (tag : pyval) tr out q body l :
  runs (gh_upload' tag) tr (Ok tt) ->
  In (EvLocal (suffix_cmd tag) true (Some out)) tr ->
  In (EvUrlopen q (Some body)) tr ->
  req_method q = "GET" ->
  decode_body loads body = Ok (JArr l) ->
  (exists x, In x l /\ record_named "bootstrap.zip" x) ->
  (forall x, In x l -> ~ record_named (suffix_file (Str.strip out)) x) ->
  exists github dl id sz1 sz2 m1 m2 cmd1 cmd2,
    let suffix := Str.strip out in
    let del := delete_request encodestring py_repr github id in
    let put1 := create_request dumps encodestring github
                  "build/bootstrap.zip" sz1 (default_desc suffix) in
    let put2 := create_request dumps encodestring github
                  ("build/bootstrap-" +:+ suffix +:+ ".zip") sz2
                  (default_desc suffix) in
    In dl l /\ record_named "bootstrap.zip" dl /\
    getitem dl "id" = Ok id /\
    requests tr = [q; del; put1; put2] /\
    delete_calls tr = [del] /\
    create_calls tr = [put1; put2] /\
    curl_calls tr = [cmd1; cmd2] /\
    curl_cmd py_repr
      (JObj (<["file_path" := JStr "build/bootstrap.zip"]> m1)) = Ok cmd1 /\
    curl_cmd py_repr
      (JObj (<["file_path" := JStr ("build/bootstrap-" +:+ suffix +:+ ".zip")]>
               m2)) = Ok cmd2.
Proof.
  intros H Hs Hg Hm Hd Hb Hn.
  destruct (runs_gh_upload_fetched _ _ _ _ _ _ H Hs Hg Hm)
    as (github & pre & tr3 & -> & Hq & Hp1 & Hp2 & Htail).
  destruct Htail as [(_ & [e [=]] & _)|(dls & records & d & Hd' & Hi & Hy & Hr)].
  rewrite Hd in Hd'. injection Hd' as <-. injection Hi as <-.
  assert (Hsuf : d !! suffix_file (Str.strip out) = None).
  { destruct (d !! suffix_file (Str.strip out)) as [x|] eqn:E; [|reflexivity].
    destruct (dict_by_name_lookup l ∅ d _ x Hy E) as [[Hin Hr']|He].
    - destruct (Hn x Hin Hr').
    - rewrite lookup_empty in He. discriminate. }
  destruct (dict_by_name_present l ∅ d base_file Hy (or_introl Hb))
    as [dl Hdl].
  destruct (dict_by_name_lookup l ∅ d _ dl Hy Hdl) as [[Hin Hrec]|He];
    [|rewrite lookup_empty in He; discriminate].
  destruct (runs_upload_new_replace github _ d dl tr3 Hsuf Hdl Hr)
    as (id & sz1 & m1 & cmd1 & sz2 & m2 & cmd2 & Hid & Hreq & Hsh & Hc1 & Hc2).
  exists github, dl, id, sz1, sz2, m1, m2, cmd1, cmd2. cbv zeta.
  assert (Hrq : requests (pre ++ EvUrlopen q (Some body) :: tr3)
                = q :: requests tr3).
  { rewrite requests_app, Hp1. reflexivity. }
  split; [exact Hin|]. split; [exact Hrec|]. split; [exact Hid|].
  split; [rewrite Hrq, Hreq; reflexivity|].
  split.
  { unfold delete_calls. rewrite Hrq, Hreq. simpl.
    unfold has_method at 1. rewrite Hm. reflexivity. }
  split.
  { unfold create_calls. rewrite Hrq, Hreq. simpl.
    unfold has_method at 1. rewrite Hm. reflexivity. }
  split; [|split; [exact Hc1|exact Hc2]].
  unfold curl_calls. rewrite shell_cmds_app, List.filter_app, Hp2.
  simpl. rewrite Hsh. simpl.
  rewrite (curl_cmd_prefix _ _ _ Hc1), (curl_cmd_prefix _ _ _ Hc2).
  reflexivity.
Qed.

End GhUpload.

(* ===================================================================== *)
(** ** The theorems at work in the sandbox *)
(* ===================================================================== *)

(** Finds a given event in an explicit trace. *)
Ltac find_event :=
  vm_compute; repeat first [left; reflexivity | right].

Lemma gh_upload_aborts_without_zips_witness :
  let p := gh_upload Sandbox.loads Sandbox.dumps Sandbox.encodestring
             Sandbox.py_repr (PyBool false) in
  let res := exec (Sandbox.env "BASE") p ∅ in
  runs p (trace_of res) (outcome_of res) /\
  (exists path, In (EvExists path false) (trace_of res)) /\
  outcome_of res = Err (Abort "Did not find current zip files. Please create.") /\
  requests (trace_of res) = [] /\
  curl_calls (trace_of res) = [] /\
  exists out,
    trace_of res
    = [EvLocal (suffix_cmd (PyBool false)) true (Some out);
       EvExists "build/bootstrap.zip" false]
    \/ trace_of res
       = [EvLocal (suffix_cmd (PyBool false)) true (Some out);
          EvExists "build/bootstrap.zip" true;
          EvExists ("build/bootstrap-" +:+ Str.strip out +:+ ".zip") false].
Proof.
  intros p res.
  assert (R : runs p (trace_of res) (outcome_of res))
    by apply exec_runs.
  assert (E : exists path, In (EvExists path false) (trace_of res)).
  { exists "build/bootstrap.zip". find_event. }
  split; [exact R|]. split; [exact E|].
  exact (gh_upload_aborts_without_zips Sandbox.loads Sandbox.dumps
           Sandbox.encodestring Sandbox.py_repr (PyBool false) _ _ R E).
Defined.

Lemma gh_upload_skips_when_present_witness :
  let p := gh_upload Sandbox.loads Sandbox.dumps Sandbox.encodestring
             Sandbox.py_repr (PyBool false) in
  let res := exec (Sandbox.env "BOTH") p Sandbox.zips in
  let tr := trace_of res in
  let q := list_request Sandbox.encodestring Sandbox.github in
  let l := [Sandbox.record "bootstrap.zip" 7;
            Sandbox.record "bootstrap-abc123.zip" 8] in
  runs p tr (outcome_of res) /\
  In (EvLocal (suffix_cmd (PyBool false)) true (Some "abc123")) tr /\
  In (EvUrlopen q (Some "BOTH")) tr /\
  Forall is_record l /\
  delete_calls tr = [] /\
  create_calls tr = [] /\
  curl_calls tr = [] /\
  requests tr = [q] /\
  (Forall is_record l ->
   outcome_of res = Ok tt /\
   exists pre,
     tr = pre ++ [EvUrlopen q (Some "BOTH");
                  EvPrint "Found suffixed zip file already. Skipping"]).
Proof.
  intros p res tr q l.
  assert (R : runs p tr (outcome_of res)) by apply exec_runs.
  assert (Hs : In (EvLocal (suffix_cmd (PyBool false)) true (Some "abc123")) tr)
    by find_event.
  assert (Hg : In (EvUrlopen q (Some "BOTH")) tr) by find_event.
  assert (Hx : exists x, In x l /\
                 record_named (suffix_file (Str.strip "abc123")) x).
  { exists (Sandbox.record "bootstrap-abc123.zip" 8).
    split; [right; left; reflexivity|].
    eexists. split; [reflexivity|]. vm_compute. reflexivity. }
  assert (Hwf : Forall is_record l).
  { each_event.
    - exists "bootstrap.zip". eexists. split; [reflexivity|].
      vm_compute. reflexivity.
    - exists "bootstrap-abc123.zip". eexists. split; [reflexivity|].
      vm_compute. reflexivity. }
  split; [exact R|]. split; [exact Hs|]. split; [exact Hg|].
  split; [exact Hwf|].
  exact (gh_upload_skips_when_present Sandbox.loads Sandbox.dumps
           Sandbox.encodestring Sandbox.py_repr (PyBool false) tr _
           "abc123" q "BOTH" l R Hs Hg eq_refl eq_refl Hx).
Defined.

Lemma gh_upload_replaces_base_witness :
  let p := gh_upload Sandbox.loads Sandbox.dumps Sandbox.encodestring
             Sandbox.py_repr (PyBool false) in
  let res := exec (Sandbox.env "BASE") p Sandbox.zips in
  let tr := trace_of res in
  let q := list_request Sandbox.encodestring Sandbox.github in
  let l := [Sandbox.record "bootstrap.zip" 7] in
  runs p tr (Ok tt) /\
  In (EvLocal (suffix_cmd (PyBool false)) true (Some "abc123")) tr /\
  In (EvUrlopen q (Some "BASE")) tr /\
  (exists x, In x l /\ record_named "bootstrap.zip" x) /\
  (forall x, In x l -> ~ record_named (suffix_file (Str.strip "abc123")) x) /\
  exists github dl id sz1 sz2 m1 m2 cmd1 cmd2,
    let suffix := Str.strip "abc123" in
    let del := delete_request Sandbox.encodestring Sandbox.py_repr github id in
    let put1 := create_request Sandbox.dumps Sandbox.encodestring github
                  "build/bootstrap.zip" sz1 (default_desc suffix) in
    let put2 := create_request Sandbox.dumps Sandbox.encodestring github
                  ("build/bootstrap-" +:+ suffix +:+ ".zip") sz2
                  (default_desc suffix) in
    In dl l /\ record_named "bootstrap.zip" dl /\
    getitem dl "id" = Ok id /\
    requests tr = [q; del; put1; put2] /\
    delete_calls tr = [del] /\
    create_calls tr = [put1; put2] /\
    curl_calls tr = [cmd1; cmd2] /\
    curl_cmd Sandbox.py_repr
      (JObj (<["file_path" := JStr "build/bootstrap.zip"]> m1)) = Ok cmd1 /\
    curl_cmd Sandbox.py_repr
      (JObj (<["file_path" := JStr ("build/bootstrap-" +:+ suffix +:+ ".zip")]>
               m2)) = Ok cmd2.
Proof.
  intros p res tr q l.
  assert (R : runs p tr (Ok tt)).
  { change (Ok tt) with (outcome_of res). apply exec_runs. }
  assert (Hs : In (EvLocal (suffix_cmd (PyBool false)) true (Some "abc123")) tr)
    by find_event.
  assert (Hg : In (EvUrlopen q (Some "BASE")) tr) by find_event.
  assert (Hb : exists x, In x l /\ record_named "bootstrap.zip" x).
  { exists (Sandbox.record "bootstrap.zip" 7).
    split; [left; reflexivity|].
    eexists. split; [reflexivity|]. vm_compute. reflexivity. }
  assert (Hn : forall x, In x l ->
                 ~ record_named (suffix_file (Str.strip "abc123")) x).
  { intros x [<-|[]] (m & [= <-] & Hname). vm_compute in Hname.
    discriminate Hname. }
  split; [exact R|]. split; [exact Hs|]. split; [exact Hg|].
  split; [exact Hb|]. split; [exact Hn|].
  exact (gh_upload_replaces_base Sandbox.loads Sandbox.dumps
           Sandbox.encodestring Sandbox.py_repr (PyBool false) tr
           "abc123" q "BASE" l R Hs Hg eq_refl eq_refl Hb Hn).
Defined.

(** C1, as stated, fails when the suffix holds a slash.  With the tag
    [release/1.0] the name the task looks up is ["1.0.zip"]; the fetched
    list holds a record named ["bootstrap-release/1.0.zip"], and the
    run uploads both files all the same. *)
Lemma gh_upload_skips_counterexample :
  let p := gh_upload Tagged.loads Sandbox.dumps Sandbox.encodestring
             Sandbox.py_repr (PyStr "True") in
  let res := exec (Tagged.env "TAGGED") p Tagged.zips in
  let tr := trace_of res in
  let q := list_request Sandbox.encodestring Sandbox.github in
  let l := [Sandbox.record "bootstrap-release/1.0.zip" 5] in
  runs p tr (outcome_of res) /\
  In (EvLocal (suffix_cmd (PyStr "True")) true (Some "release/1.0")) tr /\
  In (EvUrlopen q (Some "TAGGED")) tr /\
  decode_body Tagged.loads "TAGGED" = Ok (JArr l) /\
  (exists x, In x l /\ record_named "bootstrap-release/1.0.zip" x) /\
  suffix_file "release/1.0" = "1.0.zip" /\
  map req_method (requests tr) = ["GET"; "POST"; "POST"] /\
  length (create_calls tr) = 2 /\
  length (curl_calls tr) = 2 /\
  ~ skips_on_literal_name Tagged.loads Sandbox.dumps Sandbox.encodestring
      Sandbox.py_repr (PyStr "True").
Proof.
  intros p res tr q l.
  assert (R : runs p tr (outcome_of res)) by apply exec_runs.
  assert (Hs : In (EvLocal (suffix_cmd (PyStr "True")) true
                     (Some "release/1.0")) tr) by find_event.
  assert (Hg : In (EvUrlopen q (Some "TAGGED")) tr) by find_event.
  assert (Hx : exists x, In x l /\
                 record_named "bootstrap-release/1.0.zip" x).
  { exists (Sandbox.record "bootstrap-release/1.0.zip" 5).
    split; [left; reflexivity|].
    eexists. split; [reflexivity|]. vm_compute. reflexivity. }
  split; [exact R|]. split; [exact Hs|]. split; [exact Hg|].
  split; [reflexivity|]. split; [exact Hx|].
  split; [vm_compute; reflexivity|].
  split; [vm_compute; reflexivity|].
  split; [vm_compute; reflexivity|].
  split; [vm_compute; reflexivity|].
  intros H.
  destruct (H tr (outcome_of res) "release/1.0" q "TAGGED" l
              R Hs Hg eq_refl eq_refl Hx) as (_ & Hc & _).
  vm_compute in Hc. discriminate Hc.
Qed.

(** C2, as stated, fails in two ways.  With the tag [release/1.0] and a
    fetched list that holds records named ["bootstrap.zip"] and
    ["1.0.zip"], none is named ["bootstrap-release/1.0.zip"], yet the
    run finds the name it looks up, ["1.0.zip"], and skips: it deletes
    nothing and uploads nothing.  And a run in which the first create
    request fails ends there, after the delete, with one create request
    and no [curl]. *)
Lemma gh_upload_replaces_counterexample :
  (let p := gh_upload Tagged.loads Sandbox.dumps Sandbox.encodestring
              Sandbox.py_repr (PyStr "True") in
   let res := exec (Tagged.env "SPLIT") p Tagged.zips in
   let tr := trace_of res in
   let q := list_request Sandbox.encodestring Sandbox.github in
   let l := [Sandbox.record "bootstrap.zip" 7; Sandbox.record "1.0.zip" 8] in
   runs p tr (outcome_of res) /\
   In (EvLocal (suffix_cmd (PyStr "True")) true (Some "release/1.0")) tr /\
   In (EvUrlopen q (Some "SPLIT")) tr /\
   decode_body Tagged.loads "SPLIT" = Ok (JArr l) /\
   (exists x, In x l /\ record_named "bootstrap.zip" x) /\
   (forall x, In x l -> ~ record_named "bootstrap-release/1.0.zip" x) /\
   outcome_of res = Ok tt /\
   map req_method (requests tr) = ["GET"] /\
   prints tr = ["Found suffixed zip file already. Skipping"] /\
   ~ replaces_on_literal_name Tagged.loads Sandbox.dumps
       Sandbox.encodestring Sandbox.py_repr (PyStr "True")) /\
  (let p := gh_upload Sandbox.loads Sandbox.dumps Sandbox.encodestring
              Sandbox.py_repr (PyBool false) in
   let res := exec (Outage.env "BASE") p Sandbox.zips in
   let tr := trace_of res in
   let q := list_request Sandbox.encodestring Sandbox.github in
   let l := [Sandbox.record "bootstrap.zip" 7] in
   runs p tr (outcome_of res) /\
   In (EvLocal (suffix_cmd (PyBool false)) true (Some "abc123")) tr /\
   In (EvUrlopen q (Some "BASE")) tr /\
   decode_body Sandbox.loads "BASE" = Ok (JArr l) /\
   (exists x, In x l /\ record_named "bootstrap.zip" x) /\
   (forall x, In x l -> ~ record_named "bootstrap-abc123.zip" x) /\
   outcome_of res = Err HTTPError /\
   map req_method (requests tr) = ["GET"; "DELETE"; "POST"] /\
   curl_calls tr = [] /\
   ~ replaces_on_literal_name Sandbox.loads Sandbox.dumps
       Sandbox.encodestring Sandbox.py_repr (PyBool false)).
Proof.
  split.
  - intros p res tr q l.
    assert (R : runs p tr (outcome_of res)) by apply exec_runs.
    assert (Hs : In (EvLocal (suffix_cmd (PyStr "True")) true
                       (Some "release/1.0")) tr) by find_event.
    assert (Hg : In (EvUrlopen q (Some "SPLIT")) tr) by find_event.
    assert (Hb : exists x, In x l /\ record_named "bootstrap.zip" x).
    { exists (Sandbox.record "bootstrap.zip" 7).
      split; [left; reflexivity|].
      eexists. split; [reflexivity|]. vm_compute. reflexivity. }
    assert (Hn : forall x, In x l ->
                   ~ record_named "bootstrap-release/1.0.zip" x).
    { intros x [<-|[<-|[]]] (m & [= <-] & Hname); vm_compute in Hname;
        discriminate Hname. }
    split; [exact R|]. split; [exact Hs|]. split; [exact Hg|].
    split; [reflexivity|]. split; [exact Hb|]. split; [exact Hn|].
    split; [vm_compute; reflexivity|].
    split; [vm_compute; reflexivity|].
    split; [vm_compute; reflexivity|].
    intros H.
    destruct (H tr (outcome_of res) "release/1.0" q "SPLIT" l
                R Hs Hg eq_refl eq_refl Hb Hn) as (Hc & _).
    vm_compute in Hc. discriminate Hc.
  - intros p res tr q l.
    assert (R : runs p tr (outcome_of res)) by apply exec_runs.
    assert (Hs : In (EvLocal (suffix_cmd (PyBool false)) true
                       (Some "abc123")) tr) by find_event.
    assert (Hg : In (EvUrlopen q (Some "BASE")) tr) by find_event.
    assert (Hb : exists x, In x l /\ record_named "bootstrap.zip" x).
    { exists (Sandbox.record "bootstrap.zip" 7).
      split; [left; reflexivity|].
      eexists. split; [reflexivity|]. vm_compute. reflexivity. }
    assert (Hn : forall x, In x l ->
                   ~ record_named "bootstrap-abc123.zip" x).
    { intros x [<-|[]] (m & [= <-] & Hname); vm_compute in Hname;
        discriminate Hname. }
    split; [exact R|]. split; [exact Hs|]. split; [exact Hg|].
    split; [reflexivity|]. split; [exact Hb|]. split; [exact Hn|].
    split; [vm_compute; reflexivity|].
    split; [vm_compute; reflexivity|].
    split; [vm_compute; reflexivity|].
    intros H.
    destruct (H tr (outcome_of res) "abc123" q "BASE" l
                R Hs Hg eq_refl eq_refl Hb Hn) as (_ & Hc & _).
    vm_compute in Hc. discriminate Hc.
Qed.

Lemma api_op_decodes_body_witness :
  let p := api_op Sandbox.loads Sandbox.encodestring Sandbox.github
             "/repos/alice/sphinx-bootstrap-theme/downloads" "GET" [] None in
  let res := exec (Sandbox.env "NONE") p ∅ in
  runs p (trace_of res) (outcome_of res) /\
  outcome_of res = Ok (JArr []) /\
  exists r,
    trace_of res
    = [EvUrlopen (api_request Sandbox.encodestring Sandbox.github
                    "/repos/alice/sphinx-bootstrap-theme/downloads"
                    "GET" [] None) r] /\
    forall body, r = Some body ->
      (body <> "" ->
         outcome_of res = match Sandbox.loads body with
                          | Some v => Ok v
                          | None => Err ValueError
                          end) /\
      (body = "" -> outcome_of res = Ok (JObj ∅)).
Proof.
  intros p res.
  assert (R : runs p (trace_of res) (outcome_of res)) by apply exec_runs.
  split; [exact R|]. split; [reflexivity|].
  exact (api_op_decodes_body Sandbox.loads Sandbox.encodestring
           Sandbox.github _ _ _ _ _ _ R).
Defined.

Lemma api_op_always_authorizes_witness :
  let p := api_op Sandbox.loads Sandbox.encodestring Sandbox.anonymous
             "repos/None/sphinx-bootstrap-theme/downloads" "GET" [] None in
  let res := exec (Sandbox.env "NONE") p ∅ in
  runs p (trace_of res) (outcome_of res) /\
  basic_auth Sandbox.encodestring Sandbox.anonymous = "Basic Tm9uZTpOb25l" /\
  exists q r,
    trace_of res = [EvUrlopen q r] /\
    req_headers q
    = [] ++ [("Authorization",
              basic_auth Sandbox.encodestring Sandbox.anonymous)] /\
    (user Sandbox.anonymous = None -> password Sandbox.anonymous = None ->
     basic_auth Sandbox.encodestring Sandbox.anonymous
     = "Basic " +:+ Str.drop_last (Sandbox.encodestring "None:None")) /\
    (forall e, outcome_of res = Err e ->
       (r = None /\ e = HTTPError)
       \/ (exists body, r = Some body /\ body <> "" /\
                       Sandbox.loads body = None /\ e = ValueError)).
Proof.
  intros p res.
  assert (R : runs p (trace_of res) (outcome_of res)) by apply exec_runs.
  split; [exact R|]. split; [reflexivity|].
  exact (api_op_always_authorizes Sandbox.loads Sandbox.encodestring
           Sandbox.anonymous _ _ _ _ _ _ R).
Defined.

Lemma downloads_put_default_description_witness :
  let p := downloads_put Sandbox.loads Sandbox.dumps Sandbox.encodestring
             Sandbox.py_repr Sandbox.github "build/bootstrap.zip" "abc123"
             None in
  let res := exec (Sandbox.env "NONE") p Sandbox.zips in
  let tr := trace_of res in
  let sent := create_request Sandbox.dumps Sandbox.encodestring Sandbox.github
                "build/bootstrap.zip" 1024
                "Pre-packaged sphinx theme for abc123." in
  runs p tr (outcome_of res) /\
  In (EvUrlopen sent (Some "META")) tr /\
  req_data sent = Some "{Pre-packaged sphinx theme for abc123.}" /\
  ((tr = [EvGetsize "build/bootstrap.zip" None] /\
    outcome_of res = Err (OSError "build/bootstrap.zip"))
   \/ exists sz r rest,
        let desc := "Pre-packaged sphinx theme for " +:+ "abc123" +:+ "." in
        let q := api_request Sandbox.encodestring Sandbox.github
                   ("repos/" +:+ fmt_s (user Sandbox.github) +:+ "/"
                    +:+ repo Sandbox.github +:+ "/downloads")
                   "POST" [("Content-Type", "application/json")]
                   (Some (Sandbox.dumps None
                            (create_body "build/bootstrap.zip" sz desc))) in
        tr = EvGetsize "build/bootstrap.zip" (Some sz) :: EvUrlopen q r :: rest /\
        requests tr = [q] /\
        req_method q = "POST" /\
        req_data q
        = Some (Sandbox.dumps None
                  (create_body "build/bootstrap.zip" sz desc)) /\
        getitem (create_body "build/bootstrap.zip" sz desc) "description"
        = Ok (JStr desc)).
Proof.
  intros p res tr sent.
  assert (R : runs p tr (outcome_of res)) by apply exec_runs.
  split; [exact R|].
  split; [find_event|].
  split; [vm_compute; reflexivity|].
  exact (downloads_put_default_description Sandbox.loads Sandbox.dumps
           Sandbox.encodestring Sandbox.py_repr Sandbox.github
           "build/bootstrap.zip" "abc123" tr _ R).
Defined.

Lemma downloads_put_returns_augmented_meta_witness :
  let p := downloads_put Sandbox.loads Sandbox.dumps Sandbox.encodestring
             Sandbox.py_repr Sandbox.github "build/bootstrap.zip" "abc123"
             None in
  let res := exec (Sandbox.env "NONE") p Sandbox.zips in
  let tr := trace_of res in
  let result :=
    JObj (<["file_path" := JStr "build/bootstrap.zip"]> Sandbox.meta) in
  runs p tr (Ok result) /\
  exists q body m,
    In (EvUrlopen q (Some body)) tr /\
    req_method q = "POST" /\
    decode_body Sandbox.loads body = Ok (JObj m) /\
    result = JObj (<["file_path" := JStr "build/bootstrap.zip"]> m) /\
    getitem result "file_path" = Ok (JStr "build/bootstrap.zip") /\
    (forall key, key <> "file_path" ->
       getitem result key = getitem (JObj m) key).
Proof.
  intros p res tr result.
  assert (R : runs p tr (Ok result)).
  { change (Ok result) with (outcome_of res). apply exec_runs. }
  split; [exact R|].
  exact (downloads_put_returns_augmented_meta Sandbox.loads Sandbox.dumps
           Sandbox.encodestring Sandbox.py_repr Sandbox.github
           "build/bootstrap.zip" "abc123" None tr result R).
Defined.

(* ===================================================================== *)
(** ** Sample runs *)
(* ===================================================================== *)

Example strip_git_output :
  Str.strip (" 1f3a9c0" +:+ String "010" EmptyString) = "1f3a9c0".
Proof. reflexivity. Qed.

Example basename_base_zip : Str.basename "build/bootstrap.zip" = "bootstrap.zip".
Proof. reflexivity. Qed.

(** [pypi_upload] when every command succeeds: the copies, the upload, the
    removals; the copies are gone at the end. *)
Example pypi_upload_in_sandbox :
  let res := exec (Sandbox.env "") pypi_upload Sandbox.sources in
  outcome_of res = Ok tt /\
  shell_cmds (trace_of res)
  = ["cp README.rst README.txt"; "cp HISTORY.rst HISTORY.txt";
     "python setup.py sdist upload";
     "rm -f README.txt"; "rm -f HISTORY.txt"] /\
  state_of res = Sandbox.sources.
Proof. vm_compute. auto. Qed.

(** The copies cannot be made when the sources are missing: the action
    does not run, the removals do. *)
Example sdist_without_sources :
  let res := exec (Sandbox.env "") sdist ∅ in
  outcome_of res = Err (LocalError "cp README.rst README.txt") /\
  shell_cmds (trace_of res)
  = ["cp README.rst README.txt"; "rm -f README.txt"; "rm -f HISTORY.txt"].
Proof. vm_compute. auto. Qed.

(** [gh_upload] against an empty remote list: the fetch, no DELETE, and
    the two uploads. *)
Example gh_upload_fresh :
  let p := gh_upload Sandbox.loads Sandbox.dumps Sandbox.encodestring
             Sandbox.py_repr (PyBool false) in
  let res := exec (Sandbox.env "NONE") p Sandbox.zips in
  outcome_of res = Ok tt /\
  map req_method (requests (trace_of res)) = ["GET"; "POST"; "POST"] /\
  length (curl_calls (trace_of res)) = 2.
Proof. vm_compute. auto. Qed.

(** With [tag=True] on the command line the suffix is the description of
    the commit, and the suffixed bundle is looked for under that name. *)
Example gh_upload_tagged_without_bundle :
  let p := gh_upload Sandbox.loads Sandbox.dumps Sandbox.encodestring
             Sandbox.py_repr (PyStr "True") in
  let res := exec (Sandbox.env "NONE") p Sandbox.zips in
  outcome_of res = Err (Abort msg_missing) /\
  trace_of res
  = [EvLocal "git describe --always --tag" true (Some "v0.1");
     EvExists "build/bootstrap.zip" true;
     EvExists "build/bootstrap-v0.1.zip" false].
Proof. vm_compute. auto. Qed.

(* ===================================================================== *)
(** ** Trimmed values and file names *)
(* ===================================================================== *)

Lemma lstrip_by_no_leading (p : ascii -> bool) (s : string) :
  match Str.lstrip_by p s with
  | EmptyString => True
  | String c _ => p c = false
  end.
Proof.
  induction s as [|c r IH]; simpl; [exact I|].
  destruct (p c) eqn:E; [exact IH|exact E].
Qed.

Lemma rstrip_by_keeps_head (p : ascii -> bool) (c : ascii) (r : string) :
  p c = false -> exists r', Str.rstrip_by p (String c r) = String c r'.
Proof.
  intros E. simpl. destruct (Str.rstrip_by p r); rewrite ?E; eauto.
Qed.

Lemma rstrip_by_idempotent (p : ascii -> bool) (s : string) :
  Str.rstrip_by p (Str.rstrip_by p s) = Str.rstrip_by p s.
Proof.
  induction s as [|c r IH]; simpl; [reflexivity|].
  destruct (Str.rstrip_by p r) as [|d r'] eqn:E.
  - destruct (p c) eqn:Ec; simpl; [reflexivity|]. rewrite Ec. reflexivity.
  - simpl in IH. simpl.
    destruct (Str.rstrip_by p r') as [|d' r''] eqn:E'.
    + destruct (p d) eqn:Ed; [discriminate IH|]. f_equal. exact IH.
    + f_equal. exact IH.
Qed.

Lemma strip_no_leading_space (s : string) : no_leading_space (Str.strip s).
Proof.
  unfold Str.strip, no_leading_space.
  pose proof (lstrip_by_no_leading Str.is_space s) as H.
  destruct (Str.lstrip_by Str.is_space s) as [|c r]; [exact I|].
  destruct (rstrip_by_keeps_head Str.is_space c r H) as [r' ->]. exact H.
Qed.

Lemma lstrip_by_fixed (s : string) :
  no_leading_space s -> Str.lstrip_by Str.is_space s = s.
Proof.
  destruct s as [|c r]; simpl; [reflexivity|]. intros ->. reflexivity.
Qed.

Lemma strip_idempotent (s : string) : Str.strip (Str.strip s) = Str.strip s.
Proof.
  unfold Str.strip at 1.
  rewrite (lstrip_by_fixed _ (strip_no_leading_space s)).
  unfold Str.strip. apply rstrip_by_idempotent.
Qed.

(** X1.  A value that [config] returns is never the empty string, and
    stripping it again changes nothing: it has no whitespace at either
    end. *)
Theorem config_value_is_trimmed (key : string) tr (v : string) :
  runs (config key) tr (Ok (Some v)) ->
  v <> "" /\ Str.strip v = v /\ no_leading_space v.
Proof.
  intros H. apply config_trimmed_or_absent_aux in H as (r & _ & E).
  destruct r as [out|]; [|discriminate].
  destruct (String.eqb_spec (Str.strip out) "") as [He|Hne]; [discriminate|].
  injection E as ->. split; [exact Hne|].
  split; [apply strip_idempotent|apply strip_no_leading_space].
Qed.

Lemma config_value_is_trimmed_witness :
  let tr := [EvLocal "git config github.user" true
               (Some ("  alice " +:+ String "010" EmptyString))] in
  runs (config "user") tr (Ok (Some "alice")) /\
  "alice" <> "" /\ Str.strip "alice" = "alice" /\ no_leading_space "alice".
Proof.
  intros tr.
  assert (R : runs (config "user") tr (Ok (Some "alice"))).
  { unfold config, local. simpl.
    apply runs_sh with (r := Some ("  alice " +:+ String "010" EmptyString)).
    simpl. apply (runs_ret (Some "alice")). }
  split; [exact R|].
  exact (config_value_is_trimmed "user" tr "alice" R).
Defined.

(** X2.  The suffix [get_suffix] returns has no whitespace at either
    end, whatever [git] printed around it, so neither has the file name
    built from it. *)
Theorem get_suffix_is_trimmed (tag : pyval) tr (suffix : string) :
  runs (get_suffix tag) tr (Ok suffix) ->
  Str.strip suffix = suffix /\ no_leading_space suffix.
Proof.
  intros H. apply runs_get_suffix in H as (r & _ & E).
  destruct r as [out|]; [|discriminate]. injection E as ->.
  split; [apply strip_idempotent|apply strip_no_leading_space].
Qed.

Lemma get_suffix_is_trimmed_witness :
  let tr := [EvLocal "git rev-parse HEAD" true
               (Some ("1f3a9c0" +:+ String "010" EmptyString))] in
  runs (get_suffix (PyBool false)) tr (Ok "1f3a9c0") /\
  Str.strip "1f3a9c0" = "1f3a9c0" /\ no_leading_space "1f3a9c0".
Proof.
  intros tr.
  assert (R : runs (get_suffix (PyBool false)) tr (Ok "1f3a9c0")).
  { unfold get_suffix, local. simpl.
    apply runs_sh with (r := Some ("1f3a9c0" +:+ String "010" EmptyString)).
    simpl. apply (runs_ret "1f3a9c0"). }
  split; [exact R|].
  exact (get_suffix_is_trimmed (PyBool false) tr "1f3a9c0" R).
Defined.

Lemma basename_has_no_slash (s : string) :
  Str.has_slash (Str.basename s) = false.
Proof.
  induction s as [|c r IH]; simpl; [reflexivity|].
  destruct (Ascii.eqb c "/") eqn:Ec; [exact IH|].
  destruct (Str.has_slash r) eqn:Er; [exact IH|].
  simpl. rewrite Ec, Er. reflexivity.
Qed.

(** X3.  The name [gh_upload] looks up remotely for the suffixed bundle
    never contains a slash, and it is ["bootstrap-<suffix>.zip"] exactly
    when the suffix contains none; for a suffix with a slash the local
    path and the remote name part ways. *)
Theorem suffix_file_is_bundle_name (suffix : string) :
  Str.has_slash (suffix_file suffix) = false /\
  (suffix_file suffix = "bootstrap-" +:+ suffix +:+ ".zip"
   <-> Str.has_slash suffix = false).
Proof.
  split; [apply basename_has_no_slash|]. split.
  - intros E. pose proof (basename_has_no_slash (suffix_zip suffix)) as H.
    fold (suffix_file suffix) in H. rewrite E in H.
    rewrite !has_slash_app in H. simpl in H.
    rewrite orb_false_r in H. exact H.
  - apply suffix_file_no_slash.
Qed.

(* ===================================================================== *)
(** ** More on the dictionary of downloads *)
(* ===================================================================== *)

Lemma is_named_spec (name : string) (x : json) :
  is_named name x = true <-> record_named name x.
Proof.
  unfold is_named, record_named. split.
  - destruct x as [| | | | |m]; try discriminate.
    destruct (m !! "name") as [[| | |s| |]|] eqn:E; try discriminate.
    intros H%String.eqb_eq. subst. eauto.
  - intros (m & -> & ->). apply String.eqb_refl.
Qed.

Lemma dict_by_name_app (l1 l2 : list json) acc :
  dict_by_name (l1 ++ l2) acc
  = (d <-? dict_by_name l1 acc ;; dict_by_name l2 d).
Proof.
  revert acc. induction l1 as [|x l1 IH]; intros acc; simpl; [reflexivity|].
  destruct (getitem x "name") as [[| | |s| |]|e]; simpl; auto.
Qed.

Lemma dict_by_name_last (l : list json) :
  forall acc d name,
    dict_by_name l acc = Ok d ->
    d !! name = match last_named name l with
                | Some x => Some x
                | None => acc !! name
                end.
Proof.
  unfold last_named.
  induction l as [|x l IH] using rev_ind; intros acc d name Hd.
  - simpl in *. injection Hd as <-. reflexivity.
  - rewrite dict_by_name_app in Hd.
    destruct (dict_by_name l acc) as [d1|e] eqn:E1; [|discriminate].
    simpl in Hd. rewrite rev_unit. simpl.
    destruct x as [| | | | |m]; try discriminate.
    simpl in Hd.
    destruct (m !! "name") as [v|] eqn:En; [|discriminate]. simpl in Hd.
    unfold is_named at 1. rewrite En.
    destruct v as [| | |s| |]; try discriminate; injection Hd as <-;
      try (apply IH; exact E1).
    destruct (String.eqb_spec s name) as [->|Hne].
    + apply lookup_insert_eq.
    + rewrite lookup_insert_ne by exact Hne. apply IH. exact E1.
Qed.

(** X4.  In the dictionary [gh_upload] builds from the fetched list, a
    name is bound to the last record of the list that carries it, and
    names no record carries are unbound: of two downloads with the same
    name, the later one is the one found (and deleted). *)
Theorem dict_by_name_last_wins (l : list json) d (name : string) :
  dict_by_name l ∅ = Ok d ->
  d !! name = last_named name l.
Proof.
  intros Hd. rewrite (dict_by_name_last l ∅ d name Hd).
  destruct (last_named name l); [reflexivity|apply lookup_empty].
Qed.

Lemma dict_by_name_last_wins_witness :
  exists d,
    dict_by_name Outage.twice ∅ = Ok d /\
    last_named "bootstrap.zip" Outage.twice
      = Some (Sandbox.record "bootstrap.zip" 9) /\
    d !! "bootstrap.zip" = last_named "bootstrap.zip" Outage.twice.
Proof.
  destruct (dict_by_name Outage.twice ∅) as [d|e] eqn:E;
    [|vm_compute in E; discriminate E].
  exists d. split; [reflexivity|]. split; [vm_compute; reflexivity|].
  exact (dict_by_name_last_wins Outage.twice d "bootstrap.zip" E).
Defined.

(** X5.  The dictionary can be built exactly when every element of the
    fetched list is a dictionary with a hashable ['name']; one element
    without it makes the construction, and so [gh_upload], raise. *)
Theorem dict_by_name_succeeds_iff (l : list json) (acc : gmap string json) :
  (exists d, dict_by_name l acc = Ok d) <-> Forall hashable_named l.
Proof.
  revert acc. induction l as [|x l IH]; intros acc.
  - simpl. split; [constructor|eauto].
  - split.
    + intros [d Hd]. simpl in Hd.
      destruct x as [| | | | |m]; try discriminate. simpl in Hd.
      destruct (m !! "name") as [v|] eqn:En; [|discriminate]. simpl in Hd.
      apply Forall_cons_2.
      * exists m, v. split; [reflexivity|]. split; [exact En|].
        destruct v; try exact I; discriminate.
      * destruct v; try discriminate; eapply IH; eauto.
    + intros H. apply Forall_cons_1 in H as [(m & v & -> & En & Hv) H].
      simpl. rewrite En. simpl.
      destruct v; try destruct Hv; apply IH; exact H.
Qed.

(* ===================================================================== *)
(** ** More on the API client *)
(* ===================================================================== *)

Lemma add_headers_fold_frame (headers : list (string * string)) :
  forall req,
    let req' := fold_left (fun r kv => add_header (fst kv) (snd kv) r)
                  headers req in
    req_url req' = req_url req /\
    req_method req' = req_method req /\
    req_data req' = req_data req /\
    req_headers req' = req_headers req ++ headers.
Proof.
  induction headers as [|[key val] hs IH]; intros req; simpl.
  - rewrite app_nil_r. auto.
  - destruct (IH (add_header key val req)) as (-> & -> & -> & ->).
    simpl. rewrite <- app_assoc. auto.
Qed.

Lemma lstrip_slash_no_leading (path : string) :
  match Str.lstrip_slash path with
  | EmptyString => True
  | String c _ => c <> "/"%char
  end.
Proof.
  unfold Str.lstrip_slash.
  pose proof (lstrip_by_no_leading (Ascii.eqb "/") path) as H.
  destruct (Str.lstrip_by (Ascii.eqb "/") path) as [|c r]; [exact I|].
  intros ->. discriminate H.
Qed.

Section MoreApi.

Variable loads : string -> option json.
Variable dumps : option nat -> json -> string.
Variable encodestring : string -> string.
Variable py_repr : json -> string.

Lemma req_url_api_request (self : GitHub) path method headers data :
  req_url (api_request encodestring self path method headers data)
  = if String.eqb path "" then api_base self
    else api_base self +:+ "/" +:+ Str.lstrip_slash path.
Proof.
  unfold api_request, add_header. simpl.
  destruct (add_headers_fold_frame headers
              {| req_url := if String.eqb path "" then api_base self
                            else api_base self +:+ "/" +:+ Str.lstrip_slash path;
                 req_method := method; req_data := data;
                 req_headers := [] |}) as (E & _).
  unfold _add_headers. destruct headers; [reflexivity|exact E].
Qed.

(** X7.  The URL of a request: the API base itself for the empty path;
    otherwise the base, one slash, and the path without its leading
    slashes, so that a path and the same path behind a slash give the
    same URL and no double slash follows the base.  The path ["/"] gives
    the base with a trailing slash. *)
Theorem api_request_url (self : GitHub) method headers data :
  req_url (api_request encodestring self "" method headers data)
    = api_base self /\
  (forall c r,
     req_url (api_request encodestring self (String c r) method headers data)
     = api_base self +:+ "/" +:+ Str.lstrip_slash (String c r)) /\
  (forall c r,
     req_url (api_request encodestring self ("/" +:+ String c r)
                method headers data)
     = req_url (api_request encodestring self (String c r)
                  method headers data)) /\
  (forall path,
     match Str.lstrip_slash path with
     | EmptyString => True
     | String c _ => c <> "/"%char
     end) /\
  req_url (api_request encodestring self "/" method headers data)
    = api_base self +:+ "/".
Proof.
  split; [rewrite req_url_api_request; reflexivity|].
  split; [intros c r; rewrite req_url_api_request; reflexivity|].
  split; [intros c r; rewrite !req_url_api_request; reflexivity|].
  split; [apply lstrip_slash_no_leading|].
  rewrite req_url_api_request. reflexivity.
Qed.

(** X8.  [downloads_del] on a record without ['id'] raises [KeyError]
    and on a value that is not a dictionary [TypeError], in both cases
    before anything is sent.  Otherwise the run is one DELETE request,
    without body, to [<base>/repos/<user>/<repo>/downloads/<id>]. *)
Theorem downloads_del_needs_id (self : GitHub) (dl : json) tr o :
  runs (downloads_del loads encodestring py_repr self dl) tr o ->
  (forall e, getitem dl "id" = Err e ->
     tr = [] /\ o = Err e /\
     (e = KeyError "id" \/ e = TypeError)) /\
  (forall id, getitem dl "id" = Ok id ->
     exists q r,
       tr = [EvUrlopen q r] /\
       req_method q = "DELETE" /\
       req_data q = None /\
       req_url q
       = api_base self +:+ "/" +:+
         (("repos/" +:+ fmt_s (user self) +:+ "/" +:+ repo self +:+
           "/downloads") +:+ "/" +:+ fmt_json py_repr id)).
Proof.
  intros H. apply runs_downloads_del in H. split.
  - intros e He. rewrite He in H. destruct H as [-> ->].
    split; [reflexivity|]. split; [reflexivity|].
    unfold getitem in He. destruct dl as [| | | | |m]; try (injection He as <-; auto).
    destruct (m !! "id"); [discriminate|]. injection He as <-. auto.
  - intros id Hid. rewrite Hid in H. destruct H as (r & -> & _).
    eexists _, r. split; [reflexivity|].
    split; [reflexivity|]. split; [reflexivity|].
    unfold delete_request. rewrite req_url_api_request.
    unfold downloads_path. reflexivity.
Qed.

End MoreApi.

Lemma downloads_del_needs_id_witness :
  let dl := JObj {[ "name" := JStr "bootstrap.zip" ]} in
  let p := downloads_del Sandbox.loads Sandbox.encodestring Sandbox.py_repr
             Sandbox.github dl in
  runs p [] (Err (KeyError "id")) /\
  getitem dl "id" = Err (KeyError "id") /\
  (forall e, getitem dl "id" = Err e ->
     ([] : list event) = [] /\ (Err (KeyError "id") : outcome json) = Err e /\
     (e = KeyError "id" \/ e = TypeError)) /\
  (forall id, getitem dl "id" = Ok id ->
     exists q r,
       [] = [EvUrlopen q r] /\
       req_method q = "DELETE" /\
       req_data q = None /\
       req_url q
       = api_base Sandbox.github +:+ "/" +:+
         (("repos/" +:+ fmt_s (user Sandbox.github) +:+ "/" +:+
           repo Sandbox.github +:+ "/downloads") +:+ "/" +:+
          fmt_json Sandbox.py_repr id)).
Proof.
  intros dl p.
  assert (R : runs p [] (Err (KeyError "id"))).
  { change [] with (trace_of (exec (Sandbox.env "") p ∅)).
    change (Err (KeyError "id"))
      with (outcome_of (exec (Sandbox.env "") p ∅)).
    apply exec_runs. }
  split; [exact R|]. split; [reflexivity|].
  exact (downloads_del_needs_id Sandbox.loads Sandbox.encodestring
           Sandbox.py_repr Sandbox.github dl [] _ R).
Defined.

(* ===================================================================== *)
(** ** What [downloads_put] does when something is missing *)
(* ===================================================================== *)

Lemma append_assoc (a b c : string) : (a +:+ b) +:+ c = a +:+ (b +:+ c).
Proof.
  induction a as [|x a IH]; [reflexivity|].
  change (String x ((a +:+ b) +:+ c) = String x (a +:+ (b +:+ c))).
  f_equal. exact IH.
Qed.

Lemma curl_cmd_first_missing py_repr (m : gmap string json) :
  match first_missing m curl_keys with
  | Some k => curl_cmd py_repr (JObj m) = Err (KeyError k)
  | None => exists cmd, curl_cmd py_repr (JObj m) = Ok cmd
  end.
Proof.
  unfold first_missing, curl_keys, curl_cmd, fmt_key. simpl.
  repeat match goal with
         | |- context [m !! ?k] => destruct (m !! k); simpl; try reflexivity
         end.
  eauto.
Qed.

Lemma first_missing_not_inserted (m : gmap string json) key v k :
  first_missing (<[key := v]> m) curl_keys = Some k -> k <> key.
Proof.
  unfold first_missing. intros H.
  apply List.find_some in H as [_ H]. intros ->.
  rewrite lookup_insert_eq in H. discriminate.
Qed.

Section PutFailures.

Variable loads : string -> option json.
Variable dumps : option nat -> json -> string.
Variable encodestring : string -> string.
Variable py_repr : json -> string.

Local Abbreviation put := (downloads_put loads dumps encodestring py_repr).

(** X9.  When the size of the file cannot be read (the file is not
    there), [downloads_put] raises [OSError] at once: nothing is created
    remotely and nothing is uploaded. *)
Theorem downloads_put_unreadable_file (self : GitHub) file_name suffix desc tr o p :
  runs (put self file_name suffix desc) tr o ->
  In (EvGetsize p None) tr ->
  tr = [EvGetsize file_name None] /\ o = Err (OSError file_name) /\
  requests tr = [] /\ shell_cmds tr = [].
Proof.
  intros H Hin. apply runs_downloads_put in H.
  destruct H as [[-> ->]|(sz & r & H)]; [auto|].
  exfalso. simpl in H.
  destruct H as [[-> _]|(body & m & cmd & rc & _ & _ & _ & -> & _)];
    simpl in Hin; intuition discriminate.
Qed.

(** What follows the response to the create request. *)
Lemma runs_downloads_put_after_create
    (self : GitHub) file_name suffix desc tr o q body :
  runs (put self file_name suffix desc) tr o ->
  In (EvUrlopen q (Some body)) tr ->
  exists sz,
    q = create_request dumps encodestring self file_name sz
          (effective_desc suffix desc) /\
    match (meta <-? decode_body loads body ;; meta_update meta file_name) with
    | Err e =>
        tr = [EvGetsize file_name (Some sz); EvUrlopen q (Some body)] /\
        o = Err e
    | Ok meta' =>
        match curl_cmd py_repr meta' with
        | Err e =>
            tr = [EvGetsize file_name (Some sz); EvUrlopen q (Some body)] /\
            o = Err e
        | Ok cmd =>
            exists rc,
              tr = [EvGetsize file_name (Some sz); EvUrlopen q (Some body);
                    EvLocal cmd false rc] /\
              o = match rc with
                  | Some _ => Ok meta'
                  | None => Err (LocalError cmd)
                  end
        end
    end.
Proof.
  unfold downloads_put. fold (effective_desc suffix desc). intros H Hin.
  apply runs_bind_inv in H
    as [(sz & ? & ? & H1 & H & ->)|(e & H1 & ->)];
    apply runs_getsize_call_inv in H1 as (rs & -> & E).
  2:{ destruct Hin as [[=]|[]]. }
  destruct rs as [n|]; [|discriminate]. injection E as <-.
  destruct Hin as [[=]|Hin]. exists sz.
  apply runs_bind_inv in H
    as [(meta & ? & t3 & H1 & H & ->)|(e & H1 & ->)];
    apply (runs_api_op loads encodestring) in H1 as (r & -> & E).
  2:{ destruct Hin as [[= <- ->]|[]]. split; [reflexivity|].
      rewrite <- E. simpl. auto. }
  destruct Hin as [[= <- ->]|Hin].
  2:{ exfalso. simpl in Hin.
      apply runs_bind_inv in H
        as [(meta' & ? & ? & H1 & H & ->)|(e & H1 & ->)];
        apply runs_lift_inv in H1 as [-> E1]; [|destruct Hin].
      apply runs_bind_inv in H
        as [(cmd & ? & ? & H1 & H & ->)|(e & H1 & ->)];
        apply runs_lift_inv in H1 as [-> E2]; [|destruct Hin].
      apply runs_bind_inv in H
        as [(u & ? & ? & H1 & H & ->)|(e & H1 & ->)];
        apply runs_local_inv in H1 as (rc & -> & E3).
      - apply runs_ret_inv in H as [-> _]. destruct Hin as [[=]|[]].
      - destruct Hin as [[=]|[]]. }
  split; [reflexivity|]. rewrite <- E. simpl.
  apply runs_bind_inv in H
    as [(meta' & ? & ? & H1 & H & ->)|(e & H1 & ->)];
    apply runs_lift_inv in H1 as [-> E1]; rewrite <- E1; [|auto].
  apply runs_bind_inv in H
    as [(cmd & ? & ? & H1 & H & ->)|(e & H1 & ->)];
    apply runs_lift_inv in H1 as [-> E2]; rewrite <- E2; [|auto].
  apply runs_bind_inv in H
    as [(u & ? & ? & H1 & H & ->)|(e & H1 & ->)];
    apply runs_local_inv in H1 as (rc & -> & E3); exists rc.
  - destruct rc; [|discriminate]. apply runs_ret_inv in H as [-> ->]. auto.
  - destruct rc; [discriminate|]. injection E3 as ->. auto.
Qed.

(** X10.  When the response to the create request lacks one of the
    fields of the upload policy, [downloads_put] raises [KeyError] for
    the first one missing, in the order [path], [acl], [name],
    [accesskeyid], [policy], [signature], [mime_type]: the download has
    been created remotely, and no [curl] command is run.  An empty
    response body is the case where [path] is missing. *)
Theorem downloads_put_incomplete_policy
    (self : GitHub) file_name suffix desc tr o q body m k :
  runs (put self file_name suffix desc) tr o ->
  In (EvUrlopen q (Some body)) tr ->
  decode_body loads body = Ok (JObj m) ->
  first_missing (<["file_path" := JStr file_name]> m) curl_keys = Some k ->
  o = Err (KeyError k) /\
  k <> "file_path" /\
  req_method q = "POST" /\
  requests tr = [q] /\
  shell_cmds tr = [].
Proof.
  intros H Hin Hd Hk.
  destruct (runs_downloads_put_after_create _ _ _ _ _ _ _ _ H Hin)
    as (sz & -> & Hrest).
  rewrite Hd in Hrest. cbn [obind meta_update] in Hrest.
  pose proof (curl_cmd_first_missing py_repr
                (<["file_path" := JStr file_name]> m)) as Hc.
  rewrite Hk in Hc.
  destruct (curl_cmd py_repr (JObj (<["file_path" := JStr file_name]> m)))
    as [cmd|e] eqn:Ec; [discriminate Hc|].
  injection Hc as ->. destruct Hrest as [-> ->].
  split; [reflexivity|].
  split; [eapply first_missing_not_inserted; exact Hk|].
  split; [reflexivity|]. split; reflexivity.
Qed.

(** X11.  When the response to the create request decodes to something
    that is not a dictionary (a list, a string, a number), the update of
    the metadata raises [AttributeError]: again the request has been
    sent and no [curl] command is run. *)
Theorem downloads_put_response_not_a_dict
    (self : GitHub) file_name suffix desc tr o q body v :
  runs (put self file_name suffix desc) tr o ->
  In (EvUrlopen q (Some body)) tr ->
  decode_body loads body = Ok v ->
  (forall m, v <> JObj m) ->
  o = Err AttributeError /\ requests tr = [q] /\ shell_cmds tr = [].
Proof.
  intros H Hin Hd Hv.
  destruct (runs_downloads_put_after_create _ _ _ _ _ _ _ _ H Hin)
    as (sz & -> & Hrest).
  rewrite Hd in Hrest. cbn [obind meta_update] in Hrest.
  destruct v as [| | | | |m]; try (destruct Hrest as [-> ->]; auto).
  destruct (Hv m eq_refl).
Qed.

(** X12.  The [curl] command of a successful [downloads_put] posts the
    file it was given: it ends with the form field [file=@<file_name>]
    and the address of the storage service, whatever the response holds
    under ['file_path']. *)
Theorem downloads_put_posts_given_file
    (self : GitHub) file_name suffix desc tr result :
  runs (put self file_name suffix desc) tr (Ok result) ->
  exists pre cmd out sz body,
    tr = [EvGetsize file_name (Some sz);
          EvUrlopen (create_request dumps encodestring self file_name sz
                       (effective_desc suffix desc)) (Some body);
          EvLocal cmd false (Some out)] /\
    String.prefix "curl " cmd = true /\
    cmd = pre +:+ ("-F " +:+ Str.dq +:+ "file=@" +:+ file_name +:+ Str.dq
                   +:+ " " +:+ "https://github.s3.amazonaws.com/").
Proof.
  intros H.
  apply (runs_downloads_put_ok loads dumps encodestring py_repr) in H
    as (sz & body & m & cmd & out & -> & _ & -> & Hc).
  pose proof (curl_cmd_prefix _ _ _ Hc) as Hp.
  unfold curl_cmd, fmt_key in Hc.
  rewrite lookup_insert_eq in Hc.
  repeat match type of Hc with
         | context [(<["file_path" := ?v]> m) !! ?k] =>
             destruct ((<["file_path" := v]> m) !! k); simpl in Hc;
             try discriminate Hc
         end.
  injection Hc as <-.
  match type of Hp with
  | String.prefix _ (_ +:+ ?a +:+ ?b +:+ ?c +:+ ?d +:+ ?e +:+ ?f +:+ ?g
                       +:+ ?h +:+ _ +:+ _) = true =>
      exists ("curl " +:+ a +:+ b +:+ c +:+ d +:+ e +:+ f +:+ g +:+ h)
  end.
  eexists _, out, sz, body. split; [reflexivity|]. split; [exact Hp|].
  unfold form_field. rewrite !append_assoc. reflexivity.
Qed.

End PutFailures.

Lemma downloads_put_unreadable_file_witness :
  let p := downloads_put Sandbox.loads Sandbox.dumps Sandbox.encodestring
             Sandbox.py_repr Sandbox.github "build/bootstrap.zip" "abc123"
             None in
  let res := exec (Sandbox.env "") p ∅ in
  runs p (trace_of res) (outcome_of res) /\
  In (EvGetsize "build/bootstrap.zip" None) (trace_of res) /\
  trace_of res = [EvGetsize "build/bootstrap.zip" None] /\
  outcome_of res = Err (OSError "build/bootstrap.zip") /\
  requests (trace_of res) = [] /\ shell_cmds (trace_of res) = [].
Proof.
  intros p res.
  assert (R : runs p (trace_of res) (outcome_of res)) by apply exec_runs.
  assert (Hin : In (EvGetsize "build/bootstrap.zip" None) (trace_of res))
    by find_event.
  split; [exact R|]. split; [exact Hin|].
  exact (downloads_put_unreadable_file Sandbox.loads Sandbox.dumps
           Sandbox.encodestring Sandbox.py_repr Sandbox.github
           "build/bootstrap.zip" "abc123" None _ _ _ R Hin).
Defined.

Lemma downloads_put_incomplete_policy_witness :
  let p := downloads_put Sandbox.loads Sandbox.dumps Sandbox.encodestring
             Sandbox.py_repr Sandbox.github "build/bootstrap.zip" "abc123"
             None in
  let res := exec (Outage.answering "") p Sandbox.zips in
  let q := create_request Sandbox.dumps Sandbox.encodestring Sandbox.github
             "build/bootstrap.zip" 1024 (default_desc "abc123") in
  runs p (trace_of res) (outcome_of res) /\
  In (EvUrlopen q (Some "")) (trace_of res) /\
  outcome_of res = Err (KeyError "path") /\
  "path" <> "file_path" /\
  req_method q = "POST" /\
  requests (trace_of res) = [q] /\
  shell_cmds (trace_of res) = [].
Proof.
  intros p res q.
  assert (R : runs p (trace_of res) (outcome_of res)) by apply exec_runs.
  assert (Hin : In (EvUrlopen q (Some "")) (trace_of res)) by find_event.
  split; [exact R|]. split; [exact Hin|].
  exact (downloads_put_incomplete_policy Sandbox.loads Sandbox.dumps
           Sandbox.encodestring Sandbox.py_repr Sandbox.github
           "build/bootstrap.zip" "abc123" None _ _ q "" ∅ "path"
           R Hin eq_refl eq_refl).
Defined.

Lemma downloads_put_response_not_a_dict_witness :
  let p := downloads_put Sandbox.loads Sandbox.dumps Sandbox.encodestring
             Sandbox.py_repr Sandbox.github "build/bootstrap.zip" "abc123"
             None in
  let res := exec (Outage.answering "NONE") p Sandbox.zips in
  let q := create_request Sandbox.dumps Sandbox.encodestring Sandbox.github
             "build/bootstrap.zip" 1024 (default_desc "abc123") in
  runs p (trace_of res) (outcome_of res) /\
  In (EvUrlopen q (Some "NONE")) (trace_of res) /\
  outcome_of res = Err AttributeError /\
  requests (trace_of res) = [q] /\
  shell_cmds (trace_of res) = [].
Proof.
  intros p res q.
  assert (R : runs p (trace_of res) (outcome_of res)) by apply exec_runs.
  assert (Hin : In (EvUrlopen q (Some "NONE")) (trace_of res)) by find_event.
  assert (Hv : forall m, JArr [] <> JObj m) by (intros m; discriminate).
  split; [exact R|]. split; [exact Hin|].
  exact (downloads_put_response_not_a_dict Sandbox.loads Sandbox.dumps
           Sandbox.encodestring Sandbox.py_repr Sandbox.github
           "build/bootstrap.zip" "abc123" None _ _ q "NONE" (JArr [])
           R Hin eq_refl Hv).
Defined.

Lemma downloads_put_posts_given_file_witness :
  let p := downloads_put Sandbox.loads Sandbox.dumps Sandbox.encodestring
             Sandbox.py_repr Sandbox.github "build/bootstrap.zip" "abc123"
             None in
  let res := exec (Sandbox.env "") p Sandbox.zips in
  let result :=
    JObj (<["file_path" := JStr "build/bootstrap.zip"]> Sandbox.meta) in
  runs p (trace_of res) (Ok result) /\
  exists pre cmd out sz body,
    trace_of res
    = [EvGetsize "build/bootstrap.zip" (Some sz);
       EvUrlopen (create_request Sandbox.dumps Sandbox.encodestring
                    Sandbox.github "build/bootstrap.zip" sz
                    (effective_desc "abc123" None)) (Some body);
       EvLocal cmd false (Some out)] /\
    String.prefix "curl " cmd = true /\
    cmd = pre +:+ ("-F " +:+ Str.dq +:+ "file=@" +:+ "build/bootstrap.zip"
                   +:+ Str.dq +:+ " " +:+ "https://github.s3.amazonaws.com/").
Proof.
  intros p res result.
  assert (R : runs p (trace_of res) (Ok result)).
  { change (Ok result) with (outcome_of res). apply exec_runs. }
  split; [exact R|].
  exact (downloads_put_posts_given_file Sandbox.loads Sandbox.dumps
           Sandbox.encodestring Sandbox.py_repr Sandbox.github
           "build/bootstrap.zip" "abc123" None _ result R).
Defined.

(* ===================================================================== *)
(** ** Loops of shell commands: [clean] and the wrapper *)
(* ===================================================================== *)

(** A run of [for x in xs: local(f(x))]: every command succeeds, or the
    commands before some [x] succeed, the one for [x] fails, and the
    loop ends there. *)
Lemma runs_for_each_local {X : Type} (f : X -> string) (xs : list X) tr o :
  runs (for_each xs (fun x => local (f x) false ;;; Ret tt)) tr o ->
  (exists outs,
      length outs = length xs /\ tr = succeeded f xs outs /\ o = Ok tt)
  \/ (exists done x rest outs,
        xs = done ++ x :: rest /\ length outs = length done /\
        tr = succeeded f done outs ++ [EvLocal (f x) false None] /\
        o = Err (LocalError (f x))).
Proof.
  revert tr o. induction xs as [|x xs IH]; intros tr o H.
  - apply runs_ret_inv in H as [-> ->]. left. exists []. auto.
  - change (runs (bind (local (f x) false ;;; Ret tt)
                    (fun _ => for_each xs
                                (fun x => local (f x) false ;;; Ret tt)))
                 tr o) in H.
    apply runs_bind_inv in H as [(u & ? & t2 & H1 & H2 & ->)|(e & H1 & ->)].
    + apply runs_bind_inv in H1 as [(s & ? & ? & H1 & H3 & ->)|(? & _ & [=])].
      apply runs_local_inv in H1 as (r & -> & E).
      destruct r as [out|]; [|discriminate].
      apply runs_ret_inv in H3 as [-> _]. simpl.
      destruct (IH _ _ H2)
        as [(outs & Hl & -> & ->)|(dn & y & rest & outs & -> & Hl & -> & ->)].
      * left. exists (out :: outs). simpl. auto.
      * right. exists (x :: dn), y, rest, (out :: outs). simpl. auto.
    + apply runs_bind_inv in H1 as [(s & ? & ? & H1 & H3 & ->)|(e' & H1 & E')].
      { apply runs_ret_inv in H3 as [_ [=]]. }
      apply runs_local_inv in H1 as (r & -> & E).
      destruct r as [out|]; [discriminate|].
      injection E as ->. injection E' as ->.
      right. exists [], x, xs, []. auto.
Qed.




Section CleanTree.

Context {W : Type} (h : world W).

(** What the shell is assumed to do with [rm -rf <dir>]: it exits with
    status 0 whether or not the directory was there, the directory is
    absent afterwards, and nothing appears. *)
Hypothesis rm_rf :
  forall d capture w,
    exists out w',
      w_sh h ("rm -rf " +:+ d) capture w = (Some out, w') /\
      w_exists h d w' = false /\
      (forall g, w_exists h g w = false -> w_exists h g w' = false).

Lemma exec_rm_rf_each (dirs : list string) :
  forall w,
    let res := exec h (for_each dirs (fun build_dir =>
                         local ("rm -rf " +:+ build_dir) false ;;; Ret tt)) w in
    outcome_of res = Ok tt /\
    Forall (fun d => w_exists h d (state_of res) = false) dirs /\
    (forall g, w_exists h g w = false -> w_exists h g (state_of res) = false).
Proof.
  induction dirs as [|d dirs IH]; intros w; simpl.
  - unfold outcome_of, state_of. simpl. auto.
  - destruct (rm_rf d false w) as (out & w1 & E & A & K).
    rewrite E. simpl.
    specialize (IH w1). simpl in IH.
    destruct (exec h _ w1) as [[o1 t1] w2].
    unfold outcome_of, state_of in *. simpl in *.
    destruct IH as (-> & HF & K1). split; [reflexivity|]. split.
    + apply Forall_cons_2; [apply K1; exact A|exact HF].
    + intros g Hg. apply K1, K. exact Hg.
Qed.

(** X14.  In an environment where [rm -rf] does what it should,
    [clean] completes and none of the four build directories exists
    afterwards, whether they existed before or not; nothing that was
    absent appears. *)
Theorem clean_removes_build_dirs (w : W) :
  let res := exec h clean w in
  outcome_of res = Ok tt /\
  w_exists h "dist" (state_of res) = false /\
  w_exists h "build" (state_of res) = false /\
  w_exists h "demo/build" (state_of res) = false /\
  w_exists h "sphinx_bootstrap_theme.egg-info" (state_of res) = false /\
  (forall g, w_exists h g w = false -> w_exists h g (state_of res) = false).
Proof.
  intros res. subst res. unfold clean.
  destruct (exec_rm_rf_each BUILD_DIRS w) as (Ho & HF & K).
  split; [exact Ho|].
  apply Forall_cons_1 in HF as [H1 HF]. apply Forall_cons_1 in HF as [H2 HF].
  apply Forall_cons_1 in HF as [H3 HF]. apply Forall_cons_1 in HF as [H4 _].
  auto.
Qed.

End CleanTree.

Lemma outage_rm_rf (listing : string) :
  forall d capture w,
    exists out w',
      w_sh (Outage.env listing) ("rm -rf " +:+ d) capture w = (Some out, w') /\
      w_exists (Outage.env listing) d w' = false /\
      (forall g, w_exists (Outage.env listing) g w = false ->
                 w_exists (Outage.env listing) g w' = false).
Proof.
  intros d capture w. exists "", (w ∖ {[d]}). simpl. split; [|split].
  - unfold Outage.sh. simpl. reflexivity.
  - apply bool_decide_eq_false.
    rewrite elem_of_difference, elem_of_singleton. tauto.
  - intros g Hg. apply bool_decide_eq_false in Hg.
    apply bool_decide_eq_false.
    rewrite elem_of_difference. tauto.
Qed.

Lemma clean_removes_build_dirs_witness :
  let h := Outage.env "" in
  let res := exec h clean Outage.build_tree in
  w_exists h "build" Outage.build_tree = true /\
  w_exists h "README.rst" (state_of res) = true /\
  outcome_of res = Ok tt /\
  w_exists h "dist" (state_of res) = false /\
  w_exists h "build" (state_of res) = false /\
  w_exists h "demo/build" (state_of res) = false /\
  w_exists h "sphinx_bootstrap_theme.egg-info" (state_of res) = false /\
  (forall g, w_exists h g Outage.build_tree = false ->
             w_exists h g (state_of res) = false).
Proof.
  intros h res. split; [vm_compute; reflexivity|].
  split; [vm_compute; reflexivity|].
  exact (clean_removes_build_dirs h (outage_rm_rf "") Outage.build_tree).
Defined.

(* ===================================================================== *)
(** ** The wrapper when a copy or a removal fails *)
(* ===================================================================== *)

Lemma runs_remove_txt_files tr o :
  runs remove_txt_files tr o ->
  (tr = [EvLocal "rm -f README.txt" false None] /\
   o = Err (LocalError "rm -f README.txt"))
  \/ (exists out1,
        tr = [EvLocal "rm -f README.txt" false (Some out1);
              EvLocal "rm -f HISTORY.txt" false None] /\
        o = Err (LocalError "rm -f HISTORY.txt"))
  \/ (exists out1 out2,
        tr = [EvLocal "rm -f README.txt" false (Some out1);
              EvLocal "rm -f HISTORY.txt" false (Some out2)] /\
        o = Ok tt).
Proof.
  unfold remove_txt_files. rewrite SDIST_TXT_FILES_eq. intros H.
  apply runs_for_each_local in H
    as [(outs & Hl & -> & ->)|(dn & d & rest & outs & E & Hl & -> & ->)].
  - destruct outs as [|out1 [|out2 [|]]]; try discriminate Hl.
    right. right. exists out1, out2. auto.
  - destruct dn as [|d1 [|d2 [|]]]; simpl in E; try discriminate E.
    + injection E as <- _. destruct outs; [|discriminate Hl]. left. auto.
    + injection E as <- <- _.
      destruct outs as [|out1 [|]]; try discriminate Hl.
      right. left. exists out1. auto.
Qed.

Lemma runs_copy_txt_files tr o :
  runs copy_txt_files tr o ->
  (tr = [EvLocal "cp README.rst README.txt" false None] /\
   o = Err (LocalError "cp README.rst README.txt"))
  \/ (exists out1,
        tr = [EvLocal "cp README.rst README.txt" false (Some out1);
              EvLocal "cp HISTORY.rst HISTORY.txt" false None] /\
        o = Err (LocalError "cp HISTORY.rst HISTORY.txt"))
  \/ (exists out1 out2,
        tr = [EvLocal "cp README.rst README.txt" false (Some out1);
              EvLocal "cp HISTORY.rst HISTORY.txt" false (Some out2)] /\
        o = Ok tt).
Proof.
  unfold copy_txt_files.
  change (combine SDIST_RST_FILES SDIST_TXT_FILES)
    with [("README.rst", "README.txt"); ("HISTORY.rst", "HISTORY.txt")].
  intros H.
  apply (runs_for_each_local
           (fun p : string * string => "cp " +:+ fst p +:+ " " +:+ snd p)) in H
    as [(outs & Hl & -> & ->)|(dn & d & rest & outs & E & Hl & -> & ->)].
  - destruct outs as [|out1 [|out2 [|]]]; try discriminate Hl.
    right. right. exists out1, out2. auto.
  - destruct dn as [|d1 [|d2 [|]]]; simpl in E; try discriminate E.
    + injection E as <- _. destruct outs; [|discriminate Hl]. left. auto.
    + injection E as <- <- _.
      destruct outs as [|out1 [|]]; try discriminate Hl.
      right. left. exists out1. auto.
Qed.

Lemma runs_dist_wrapper_inv (action : prog unit) tr o :
  runs (_dist_wrapper action) tr o ->
  exists trb ob,
    runs (copy_txt_files ;;; action) trb ob /\
    ((exists out1 out2,
        tr = trb ++ [EvLocal "rm -f README.txt" false (Some out1);
                     EvLocal "rm -f HISTORY.txt" false (Some out2)] /\
        o = ob)
     \/ (tr = trb ++ [EvLocal "rm -f README.txt" false None] /\
         o = Err (LocalError "rm -f README.txt"))
     \/ (exists out1,
           tr = trb ++ [EvLocal "rm -f README.txt" false (Some out1);
                        EvLocal "rm -f HISTORY.txt" false None] /\
           o = Err (LocalError "rm -f HISTORY.txt"))).
Proof.
  rewrite dist_wrapper_unfold. intros H.
  apply runs_try_finally_inv in H as (trb & t2 & ob & ofin & Hb & Hf & -> & ->).
  exists trb, ob. split; [exact Hb|].
  apply runs_remove_txt_files in Hf
    as [[-> ->]|[(out1 & -> & ->)|(out1 & out2 & -> & ->)]]; eauto 6.
Qed.

(** X15.  The removals come after everything the copies and the action
    did, however these ended.  When both removals succeed the outcome
    of the wrapper is that of the copies and the action.  When a removal
    fails, its abort is the outcome, also when the action had raised an
    error of its own, which is then lost; and after a failed removal of
    [README.txt] the removal of [HISTORY.txt] is not attempted. *)
Theorem dist_wrapper_removal_failure_masks (action : prog unit) tr o :
  runs (_dist_wrapper action) tr o ->
  exists trb ob,
    runs (copy_txt_files ;;; action) trb ob /\
    ((exists out1 out2,
        tr = trb ++ [EvLocal "rm -f README.txt" false (Some out1);
                     EvLocal "rm -f HISTORY.txt" false (Some out2)] /\
        o = ob)
     \/ (tr = trb ++ [EvLocal "rm -f README.txt" false None] /\
         o = Err (LocalError "rm -f README.txt"))
     \/ (exists out1,
           tr = trb ++ [EvLocal "rm -f README.txt" false (Some out1);
                        EvLocal "rm -f HISTORY.txt" false None] /\
           o = Err (LocalError "rm -f HISTORY.txt"))).
Proof. exact (runs_dist_wrapper_inv action tr o). Qed.

Lemma dist_wrapper_removal_failure_masks_witness :
  let res := exec Outage.env_no_rm sdist Sandbox.sources in
  let tr := trace_of res in
  let action := local "python setup.py sdist" false ;;; Ret tt in
  runs sdist tr (outcome_of res) /\
  In (EvLocal "python setup.py sdist" false None) tr /\
  outcome_of res = Err (LocalError "rm -f README.txt") /\
  exists trb ob,
    runs (copy_txt_files ;;; action) trb ob /\
    ((exists out1 out2,
        tr = trb ++ [EvLocal "rm -f README.txt" false (Some out1);
                     EvLocal "rm -f HISTORY.txt" false (Some out2)] /\
        outcome_of res = ob)
     \/ (tr = trb ++ [EvLocal "rm -f README.txt" false None] /\
         outcome_of res = Err (LocalError "rm -f README.txt"))
     \/ (exists out1,
           tr = trb ++ [EvLocal "rm -f README.txt" false (Some out1);
                        EvLocal "rm -f HISTORY.txt" false None] /\
           outcome_of res = Err (LocalError "rm -f HISTORY.txt"))).
Proof.
  intros res tr action.
  assert (R : runs sdist tr (outcome_of res)) by apply exec_runs.
  split; [exact R|]. split; [find_event|]. split; [reflexivity|].
  exact (dist_wrapper_removal_failure_masks action tr _ R).
Defined.

(** X16.  When a copy fails the inner action is never started: what
    follows the failed copy in the trace is the removals and nothing
    else, and the task fails. *)
Theorem dist_wrapper_copy_failure_skips_action (action : prog unit) tr o tr' :
  runs (_dist_wrapper action) tr o ->
  (tr = EvLocal "cp README.rst README.txt" false None :: tr'
   \/ exists out,
        tr = EvLocal "cp README.rst README.txt" false (Some out)
             :: EvLocal "cp HISTORY.rst HISTORY.txt" false None :: tr') ->
  (exists e, o = Err e) /\
  (tr' = [EvLocal "rm -f README.txt" false None]
   \/ exists out1 r2,
        tr' = [EvLocal "rm -f README.txt" false (Some out1);
               EvLocal "rm -f HISTORY.txt" false r2]).
Proof.
  intros H Hfail.
  apply runs_dist_wrapper_inv in H as (trb & ob & Hb & Hrm).
  apply runs_bind_inv in Hb as [(u & tc & ta & Hc & Ha & ->)|(e & Hc & ->)];
    apply runs_copy_txt_files in Hc
      as [[-> Ec]|[(c1 & -> & Ec)|(c1 & c2 & -> & Ec)]];
    try discriminate Ec.
  - (* both copies succeeded: the trace does not start with a failed copy *)
    exfalso.
    destruct Hrm as [(o1 & o2 & -> & _)|[[-> _]|(o1 & -> & _)]];
      destruct Hfail as [E|[out E]]; simpl in E; discriminate E.
  - (* the first copy failed *)
    destruct Hrm as [(o1 & o2 & -> & ->)|[[-> ->]|(o1 & -> & ->)]];
      (destruct Hfail as [E|[out E]]; simpl in E; [|discriminate E]);
      injection E as <-; split; eauto.
  - (* the second copy failed *)
    destruct Hrm as [(o1 & o2 & -> & ->)|[[-> ->]|(o1 & -> & ->)]];
      (destruct Hfail as [E|[out E]]; simpl in E; [discriminate E|]);
      injection E as _ <-; split; eauto.
Qed.

Lemma dist_wrapper_copy_failure_skips_action_witness :
  let res := exec (Sandbox.env "") pypi_upload ∅ in
  let tr' := [EvLocal "rm -f README.txt" false (Some "");
              EvLocal "rm -f HISTORY.txt" false (Some "")] in
  runs pypi_upload (trace_of res) (outcome_of res) /\
  trace_of res = EvLocal "cp README.rst README.txt" false None :: tr' /\
  (exists e, outcome_of res = Err e) /\
  (tr' = [EvLocal "rm -f README.txt" false None]
   \/ exists out1 r2,
        tr' = [EvLocal "rm -f README.txt" false (Some out1);
               EvLocal "rm -f HISTORY.txt" false r2]).
Proof.
  intros res tr'.
  assert (R : runs pypi_upload (trace_of res) (outcome_of res))
    by apply exec_runs.
  assert (E : trace_of res
              = EvLocal "cp README.rst README.txt" false None :: tr')
    by (vm_compute; reflexivity).
  split; [exact R|]. split; [exact E|].
  exact (dist_wrapper_copy_failure_skips_action _ _ _ tr' R (or_introl E)).
Defined.

(* ===================================================================== *)
(** ** [gh_upload] when nothing is there yet, and when a call fails *)
(* ===================================================================== *)

Lemma iter_json_empty_dict : iter_json (JObj ∅) = Ok [].
Proof. unfold iter_json. rewrite map_to_list_empty. reflexivity. Qed.

Section GhUploadMore.

Variable loads : string -> option json.
Variable dumps : option nat -> json -> string.
Variable encodestring : string -> string.
Variable py_repr : json -> string.

Local Abbreviation gh_upload' := (gh_upload loads dumps encodestring py_repr).
Local Abbreviation upload_new' := (upload_new loads dumps encodestring py_repr).

Lemma runs_upload_new_fresh (github : GitHub) suffix d tr :
  d !! suffix_file suffix = None ->
  d !! base_file = None ->
  runs (upload_new' github suffix d) tr (Ok tt) ->
  exists sz1 m1 cmd1 sz2 m2 cmd2,
    requests tr
    = [create_request dumps encodestring github base_zip sz1
         (default_desc suffix);
       create_request dumps encodestring github (suffix_zip suffix) sz2
         (default_desc suffix)] /\
    shell_cmds tr = [cmd1; cmd2] /\
    curl_cmd py_repr (JObj (<["file_path" := JStr base_zip]> m1))
      = Ok cmd1 /\
    curl_cmd py_repr (JObj (<["file_path" := JStr (suffix_zip suffix)]> m2))
      = Ok cmd2.
Proof.
  unfold upload_new. intros -> -> H.
  apply runs_bind_inv in H as [(u0 & ? & ? & Ha & H & ->)|(? & _ & [=])].
  apply runs_ret_inv in Ha as [-> _].
  apply runs_bind_inv in H as [(u2 & ? & ? & H1 & H & ->)|(? & _ & [=])].
  apply runs_print_call_inv in H1 as [-> _].
  apply runs_bind_inv in H as [(res1 & ? & ? & H1 & H & ->)|(? & _ & [=])].
  apply (runs_downloads_put_ok loads dumps encodestring py_repr) in H1
    as (sz1 & body1 & m1 & cmd1 & out1 & -> & _ & -> & Hc1).
  apply runs_bind_inv in H as [(u3 & ? & ? & H1 & H & ->)|(? & _ & [=])].
  apply runs_print_call_inv in H1 as [-> _].
  apply runs_bind_inv in H as [(u4 & ? & ? & H1 & H & ->)|(? & _ & [=])].
  apply runs_print_call_inv in H1 as [-> _].
  apply runs_bind_inv in H as [(res2 & ? & ? & H1 & H & ->)|(? & _ & [=])].
  apply (runs_downloads_put_ok loads dumps encodestring py_repr) in H1
    as (sz2 & body2 & m2 & cmd2 & out2 & -> & _ & -> & Hc2).
  apply runs_print_call_inv in H as [-> _].
  exists sz1, m1, cmd1, sz2, m2, cmd2.
  split; [reflexivity|]. split; [reflexivity|]. split; [exact Hc1|exact Hc2].
Qed.

(** X17.  A run of [gh_upload] that completes, and in which what was
    fetched holds no record named ["bootstrap.zip"] and none with the
    suffixed file name, deletes nothing and uploads both files, base
    first.  What was fetched may be an empty list, or the empty
    dictionary an empty response body stands for. *)
Theorem gh_upload_uploads_both_when_absent (tag : pyval) tr out q body dls l :
  runs (gh_upload' tag) tr (Ok tt) ->
  In (EvLocal (suffix_cmd tag) true (Some out)) tr ->
  In (EvUrlopen q (Some body)) tr ->
  req_method q = "GET" ->
  decode_body loads body = Ok dls ->
  iter_json dls = Ok l ->
  (forall x, In x l -> ~ record_named "bootstrap.zip" x) ->
  (forall x, In x l -> ~ record_named (suffix_file (Str.strip out)) x) ->
  exists github sz1 sz2 cmd1 cmd2,
    let suffix := Str.strip out in
    let put1 := create_request dumps encodestring github
                  "build/bootstrap.zip" sz1 (default_desc suffix) in
    let put2 := create_request dumps encodestring github
                  ("build/bootstrap-" +:+ suffix +:+ ".zip") sz2
                  (default_desc suffix) in
    requests tr = [q; put1; put2] /\
    delete_calls tr = [] /\
    create_calls tr = [put1; put2] /\
    curl_calls tr = [cmd1; cmd2].
Proof.
  intros H Hs Hg Hm Hd Hi Hb Hn.
  destruct (runs_gh_upload_fetched loads dumps encodestring py_repr
              _ _ _ _ _ _ H Hs Hg Hm)
    as (github & pre & tr3 & -> & Hq & Hp1 & Hp2 & Htail).
  destruct Htail as [(_ & [e [=]] & _)|(dls' & records & d & Hd' & Hi' & Hy & Hr)].
  rewrite Hd in Hd'. injection Hd' as <-.
  rewrite Hi in Hi'. injection Hi' as <-.
  assert (Hnone : forall name,
            (forall x, In x l -> ~ record_named name x) -> d !! name = None).
  { intros name Hno. destruct (d !! name) as [x|] eqn:E; [|reflexivity].
    destruct (dict_by_name_lookup l ∅ d _ x Hy E) as [[Hin Hr']|He].
    - destruct (Hno x Hin Hr').
    - rewrite lookup_empty in He. discriminate. }
  destruct (runs_upload_new_fresh github _ d tr3 (Hnone _ Hn) (Hnone _ Hb) Hr)
    as (sz1 & m1 & cmd1 & sz2 & m2 & cmd2 & Hreq & Hsh & Hc1 & Hc2).
  exists github, sz1, sz2, cmd1, cmd2. cbv zeta.
  assert (Hrq : requests (pre ++ EvUrlopen q (Some body) :: tr3)
                = q :: requests tr3).
  { rewrite requests_app, Hp1. reflexivity. }
  split; [rewrite Hrq, Hreq; reflexivity|].
  split.
  { unfold delete_calls. rewrite Hrq, Hreq. simpl.
    unfold has_method at 1. rewrite Hm. reflexivity. }
  split.
  { unfold create_calls. rewrite Hrq, Hreq. simpl.
    unfold has_method at 1. rewrite Hm. reflexivity. }
  unfold curl_calls. rewrite shell_cmds_app, List.filter_app, Hp2.
  simpl. rewrite Hsh. simpl.
  rewrite (curl_cmd_prefix _ _ _ Hc1), (curl_cmd_prefix _ _ _ Hc2).
  reflexivity.
Qed.

End GhUploadMore.

Lemma gh_upload_uploads_both_when_absent_witness :
  let p := gh_upload Sandbox.loads Sandbox.dumps Sandbox.encodestring
             Sandbox.py_repr (PyBool false) in
  let res := exec (Sandbox.env "") p Sandbox.zips in
  let tr := trace_of res in
  let q := list_request Sandbox.encodestring Sandbox.github in
  runs p tr (Ok tt) /\
  In (EvLocal (suffix_cmd (PyBool false)) true (Some "abc123")) tr /\
  In (EvUrlopen q (Some "")) tr /\
  decode_body Sandbox.loads "" = Ok (JObj ∅) /\
  iter_json (JObj ∅) = Ok [] /\
  exists github sz1 sz2 cmd1 cmd2,
    let suffix := Str.strip "abc123" in
    let put1 := create_request Sandbox.dumps Sandbox.encodestring github
                  "build/bootstrap.zip" sz1 (default_desc suffix) in
    let put2 := create_request Sandbox.dumps Sandbox.encodestring github
                  ("build/bootstrap-" +:+ suffix +:+ ".zip") sz2
                  (default_desc suffix) in
    requests tr = [q; put1; put2] /\
    delete_calls tr = [] /\
    create_calls tr = [put1; put2] /\
    curl_calls tr = [cmd1; cmd2].
Proof.
  intros p res tr q.
  assert (R : runs p tr (Ok tt)).
  { change (Ok tt) with (outcome_of res). apply exec_runs. }
  assert (Hs : In (EvLocal (suffix_cmd (PyBool false)) true (Some "abc123")) tr)
    by find_event.
  assert (Hg : In (EvUrlopen q (Some "")) tr) by find_event.
  assert (Hno : forall name x, In x ([] : list json) -> ~ record_named name x)
    by (intros name x []).
  split; [exact R|]. split; [exact Hs|]. split; [exact Hg|].
  split; [reflexivity|]. split; [exact iter_json_empty_dict|].
  exact (gh_upload_uploads_both_when_absent Sandbox.loads Sandbox.dumps
           Sandbox.encodestring Sandbox.py_repr (PyBool false) tr
           "abc123" q "" (JObj ∅) [] R Hs Hg eq_refl eq_refl
           iter_json_empty_dict (Hno _) (Hno _)).
Defined.

(** X18.  In any run of [gh_upload], completed or cut short by a
    failing call, in which the fetched list holds a record named
    ["bootstrap.zip"] and none with the suffixed file name, the requests
    sent are an initial part of the sequence fetch, DELETE, create base,
    create suffixed: the run never deletes twice, never uploads before
    it has deleted, and never uploads the suffixed file before the base
    file. *)
Theorem gh_upload_never_out_of_order
    loads dumps encodestring py_repr (tag : pyval) tr o out q body l :
  runs (gh_upload loads dumps encodestring py_repr tag) tr o ->
  In (EvLocal (suffix_cmd tag) true (Some out)) tr ->
  In (EvUrlopen q (Some body)) tr ->
  req_method q = "GET" ->
  decode_body loads body = Ok (JArr l) ->
  (exists x, In x l /\ record_named "bootstrap.zip" x) ->
  (forall x, In x l -> ~ record_named (suffix_file (Str.strip out)) x) ->
  exists github id sz1 sz2 rest,
    [q;
     delete_request encodestring py_repr github id;
     create_request dumps encodestring github base_zip sz1
       (default_desc (Str.strip out));
     create_request dumps encodestring github (suffix_zip (Str.strip out)) sz2
       (default_desc (Str.strip out))]
    = requests tr ++ rest.
Proof.
  exact (gh_upload_requests_in_order loads dumps encodestring py_repr
           tag tr o out q body l).
Qed.

Lemma gh_upload_never_out_of_order_witness :
  let p := gh_upload Sandbox.loads Sandbox.dumps Sandbox.encodestring
             Sandbox.py_repr (PyBool false) in
  let res := exec (Outage.env "BASE") p Sandbox.zips in
  let tr := trace_of res in
  let q := list_request Sandbox.encodestring Sandbox.github in
  let l := [Sandbox.record "bootstrap.zip" 7] in
  runs p tr (outcome_of res) /\
  outcome_of res = Err HTTPError /\
  length (requests tr) = 3 /\
  exists github id sz1 sz2 rest,
    [q;
     delete_request Sandbox.encodestring Sandbox.py_repr github id;
     create_request Sandbox.dumps Sandbox.encodestring github base_zip sz1
       (default_desc (Str.strip "abc123"));
     create_request Sandbox.dumps Sandbox.encodestring github
       (suffix_zip (Str.strip "abc123")) sz2
       (default_desc (Str.strip "abc123"))]
    = requests tr ++ rest.
Proof.
  intros p res tr q l.
  assert (R : runs p tr (outcome_of res)) by apply exec_runs.
  assert (Hs : In (EvLocal (suffix_cmd (PyBool false)) true (Some "abc123")) tr)
    by find_event.
  assert (Hg : In (EvUrlopen q (Some "BASE")) tr) by find_event.
  assert (Hb : exists x, In x l /\ record_named "bootstrap.zip" x).
  { exists (Sandbox.record "bootstrap.zip" 7).
    split; [left; reflexivity|].
    eexists. split; [reflexivity|]. vm_compute. reflexivity. }
  assert (Hn : forall x, In x l ->
                 ~ record_named (suffix_file (Str.strip "abc123")) x).
  { intros x [<-|[]] (m & [= <-] & Hname). vm_compute in Hname.
    discriminate Hname. }
  split; [exact R|]. split; [vm_compute; reflexivity|].
  split; [vm_compute; reflexivity|].
  exact (gh_upload_never_out_of_order Sandbox.loads Sandbox.dumps
           Sandbox.encodestring Sandbox.py_repr (PyBool false) tr _
           "abc123" q "BASE" l R Hs Hg eq_refl eq_refl Hb Hn).
Defined.

(* ===================================================================== *)
(** ** No failure is handled *)
(* ===================================================================== *)

Lemma stops_bind {A B : Type} (m : prog A) (f : A -> prog B) :
  stops_on_failure m -> (forall a, stops_on_failure (f a)) ->
  stops_on_failure (bind m f).
Proof.
  intros Hm Hf.
  induction m as [a|e|c cap k IH|p k IH|p k IH|q k IH|l k IH]; simpl in *.
  - apply Hf.
  - exact I.
  - destruct Hm as [E Hk]. rewrite E. split; [reflexivity|].
    intros out. apply IH, Hk.
  - intros r. apply IH, Hm.
  - destruct Hm as [E Hk]. rewrite E. split; [reflexivity|].
    intros n. apply IH, Hk.
  - destruct Hm as [E Hk]. rewrite E. split; [reflexivity|].
    intros body. apply IH, Hk.
  - apply IH, Hm.
Qed.

Lemma stops_lift {A : Type} (m : outcome A) : stops_on_failure (lift m).
Proof. destruct m; exact I. Qed.

Lemma stops_local (cmd : string) (capture : bool) :
  stops_on_failure (local cmd capture).
Proof. simpl. auto. Qed.

Lemma stops_print (line : string) : stops_on_failure (print line).
Proof. exact I. Qed.

Lemma stops_config (key : string) : stops_on_failure (config key).
Proof.
  unfold config. apply stops_bind; [apply stops_local|]. intros a. exact I.
Qed.

Lemma stops_GitHub_init : stops_on_failure GitHub_init.
Proof.
  unfold GitHub_init.
  repeat (apply stops_bind; [apply stops_config|]; intros ?). exact I.
Qed.

(** In a run of a program that handles no failure, an exchange that
    went wrong is the last one, and it decides the outcome. *)
Lemma stops_run {A : Type} (p : prog A) :
  stops_on_failure p ->
  forall tr o e err,
    runs p tr o -> In e tr -> failed_event e = Some err ->
    o = Err err /\ exists pre, tr = pre ++ [e].
Proof.
  induction p as [a|x|c cap k IH|f k IH|f k IH|q k IH|l k IH];
    intros Hs tr o e err H Hin Hf; simpl in Hs.
  - apply runs_ret_inv in H as [-> _]. destruct Hin.
  - apply runs_raise_inv in H as [-> _]. destruct Hin.
  - apply runs_sh_inv in H as (r & tr' & -> & H). destruct Hs as [E Hk].
    destruct r as [out|].
    + destruct Hin as [<-|Hin]; [discriminate Hf|].
      destruct (IH _ (Hk out) _ _ _ _ H Hin Hf) as (-> & pre & ->).
      split; [reflexivity|]. exists (EvLocal c cap (Some out) :: pre).
      reflexivity.
    + rewrite E in H. apply runs_raise_inv in H as [-> ->].
      destruct Hin as [<-|[]]. injection Hf as <-.
      split; [reflexivity|]. exists []. reflexivity.
  - apply runs_exists_inv in H as (r & tr' & -> & H).
    destruct Hin as [<-|Hin]; [discriminate Hf|].
    destruct (IH _ (Hs r) _ _ _ _ H Hin Hf) as (-> & pre & ->).
    split; [reflexivity|]. exists (EvExists f r :: pre). reflexivity.
  - apply runs_getsize_inv in H as (r & tr' & -> & H). destruct Hs as [E Hk].
    destruct r as [n|].
    + destruct Hin as [<-|Hin]; [discriminate Hf|].
      destruct (IH _ (Hk n) _ _ _ _ H Hin Hf) as (-> & pre & ->).
      split; [reflexivity|]. exists (EvGetsize f (Some n) :: pre).
      reflexivity.
    + rewrite E in H. apply runs_raise_inv in H as [-> ->].
      destruct Hin as [<-|[]]. injection Hf as <-.
      split; [reflexivity|]. exists []. reflexivity.
  - apply runs_urlopen_inv in H as (r & tr' & -> & H). destruct Hs as [E Hk].
    destruct r as [body|].
    + destruct Hin as [<-|Hin]; [discriminate Hf|].
      destruct (IH _ (Hk body) _ _ _ _ H Hin Hf) as (-> & pre & ->).
      split; [reflexivity|]. exists (EvUrlopen q (Some body) :: pre).
      reflexivity.
    + rewrite E in H. apply runs_raise_inv in H as [-> ->].
      destruct Hin as [<-|[]]. injection Hf as <-.
      split; [reflexivity|]. exists []. reflexivity.
  - apply runs_print_inv in H as (tr' & -> & H).
    destruct Hin as [<-|Hin]; [discriminate Hf|].
    destruct (IH Hs _ _ _ _ H Hin Hf) as (-> & pre & ->).
    split; [reflexivity|]. exists (EvPrint l :: pre). reflexivity.
Qed.

Section NoHandler.

Variable loads : string -> option json.
Variable dumps : option nat -> json -> string.
Variable encodestring : string -> string.
Variable py_repr : json -> string.

Lemma stops_api_op (self : GitHub) path method headers data :
  stops_on_failure (api_op loads encodestring self path method headers data).
Proof.
  unfold api_op. simpl. split; [reflexivity|]. intros body. apply stops_lift.
Qed.

Lemma stops_downloads_del (self : GitHub) dl :
  stops_on_failure (downloads_del loads encodestring py_repr self dl).
Proof.
  unfold downloads_del. apply stops_bind; [apply stops_lift|].
  intros id. apply stops_api_op.
Qed.

Lemma stops_downloads_put (self : GitHub) file_name suffix desc :
  stops_on_failure
    (downloads_put loads dumps encodestring py_repr self file_name suffix desc).
Proof.
  unfold downloads_put.
  apply stops_bind; [simpl; auto|]. intros sz.
  apply stops_bind; [apply stops_api_op|]. intros meta.
  apply stops_bind; [apply stops_lift|]. intros meta'.
  apply stops_bind; [apply stops_lift|]. intros cmd.
  apply stops_bind; [apply stops_local|]. intros u. exact I.
Qed.

Lemma stops_upload_new (github : GitHub) suffix d :
  stops_on_failure (upload_new loads dumps encodestring py_repr github suffix d).
Proof.
  unfold upload_new.
  destruct (d !! suffix_file suffix); [exact I|].
  apply stops_bind.
  { destruct (d !! base_file); [|exact I].
    apply stops_bind; [apply stops_print|]. intros _.
    apply stops_bind; [apply stops_downloads_del|]. intros r.
    apply stops_print. }
  intros _. apply stops_bind; [apply stops_print|]. intros _.
  apply stops_bind; [apply stops_downloads_put|]. intros r1.
  apply stops_bind; [apply stops_print|]. intros _.
  apply stops_bind; [apply stops_print|]. intros _.
  apply stops_bind; [apply stops_downloads_put|]. intros r2.
  apply stops_print.
Qed.

Lemma stops_gh_upload (tag : pyval) :
  stops_on_failure (gh_upload loads dumps encodestring py_repr tag).
Proof.
  rewrite gh_upload_tail.
  apply stops_bind.
  { unfold get_suffix. apply stops_bind; [apply stops_local|].
    intros a. exact I. }
  intros suffix. apply stops_bind.
  { apply stops_bind; [simpl; auto|]. intros [|]; simpl; auto. }
  intros found. apply stops_bind; [destruct found; exact I|]. intros _.
  apply stops_bind; [apply stops_GitHub_init|]. intros github.
  apply stops_bind; [apply stops_api_op|]. intros dls.
  apply stops_bind; [apply stops_lift|]. intros records.
  apply stops_bind; [apply stops_lift|]. intros d.
  apply stops_upload_new.
Qed.

(** X19.  [gh_upload] handles no failure of its environment: a shell
    command that exits with a nonzero status, a request that fails or a
    file size that cannot be read is the last thing the run does, and
    the run ends with the corresponding error.  Nothing is retried and
    nothing is undone: what was deleted or created before stays so. *)
Theorem gh_upload_stops_at_first_failure (tag : pyval) tr o e err :
  runs (gh_upload loads dumps encodestring py_repr tag) tr o ->
  In e tr ->
  failed_event e = Some err ->
  o = Err err /\ exists pre, tr = pre ++ [e].
Proof.
  intros H Hin Hf.
  exact (stops_run _ (stops_gh_upload tag) tr o e err H Hin Hf).
Qed.

End NoHandler.

Lemma gh_upload_stops_at_first_failure_witness :
  let p := gh_upload Sandbox.loads Sandbox.dumps Sandbox.encodestring
             Sandbox.py_repr (PyBool false) in
  let res := exec (Outage.env "BASE") p Sandbox.zips in
  let tr := trace_of res in
  let e := EvUrlopen
             (create_request Sandbox.dumps Sandbox.encodestring Sandbox.github
                "build/bootstrap.zip" 1024 (default_desc "abc123")) None in
  runs p tr (outcome_of res) /\
  In e tr /\
  length (delete_calls tr) = 1 /\
  outcome_of res = Err HTTPError /\ exists pre, tr = pre ++ [e].
Proof.
  intros p res tr e.
  assert (R : runs p tr (outcome_of res)) by apply exec_runs.
  assert (Hin : In e tr) by find_event.
  split; [exact R|]. split; [exact Hin|]. split; [vm_compute; reflexivity|].
  exact (gh_upload_stops_at_first_failure Sandbox.loads Sandbox.dumps
           Sandbox.encodestring Sandbox.py_repr (PyBool false) tr _ e
           HTTPError R Hin eq_refl).
Defined.

(* ===================================================================== *)
(** ** The [GitHub] object and the listing task *)
(* ===================================================================== *)

(** X20.  [GitHub()] asks [git config] for [github.user],
    [github.password] and [github.token], in that order.  The object is
    built only when all three queries succeed, the one for the token
    included although no request uses the token; a value that is empty
    once stripped becomes [None].  The first query that fails ends the
    construction, and the later ones are not made. *)
Theorem github_init_reads_three_values tr o :
  runs GitHub_init tr o ->
  (exists o1 o2 o3,
      tr = [EvLocal "git config github.user" true (Some o1);
            EvLocal "git config github.password" true (Some o2);
            EvLocal "git config github.token" true (Some o3)] /\
      o = Ok {| user := config_value o1; password := config_value o2;
                token := config_value o3;
                repo := "sphinx-bootstrap-theme";
                api_base := "https://api.github.com" |})
  \/ (exists key pre,
        In key ["user"; "password"; "token"] /\
        tr = pre ++ [EvLocal ("git config github." +:+ key) true None] /\
        Forall (fun e => failed_event e = None) pre /\
        o = Err (LocalError ("git config github." +:+ key))).
Proof.
  unfold GitHub_init. intros H.
  apply runs_bind_inv in H as [(u & ? & ? & H1 & H & ->)|(e & H1 & ->)];
    apply config_trimmed_or_absent_aux in H1 as (r1 & -> & E1).
  2:{ destruct r1; [discriminate|]. injection E1 as ->.
      right. exists "user", []. simpl. auto. }
  destruct r1 as [o1|]; [|discriminate]. injection E1 as ->.
  apply runs_bind_inv in H as [(p & ? & ? & H1 & H & ->)|(e & H1 & ->)];
    apply config_trimmed_or_absent_aux in H1 as (r2 & -> & E2).
  2:{ destruct r2; [discriminate|]. injection E2 as ->.
      right. exists "password", [EvLocal "git config github.user" true (Some o1)].
      simpl. split; [auto|]. split; [reflexivity|].
      split; [each_event; reflexivity|reflexivity]. }
  destruct r2 as [o2|]; [|discriminate]. injection E2 as ->.
  apply runs_bind_inv in H as [(t & ? & ? & H1 & H & ->)|(e & H1 & ->)];
    apply config_trimmed_or_absent_aux in H1 as (r3 & -> & E3).
  2:{ destruct r3; [discriminate|]. injection E3 as ->.
      right. exists "token", [EvLocal "git config github.user" true (Some o1);
                             EvLocal "git config github.password" true (Some o2)].
      simpl. split; [auto|]. split; [reflexivity|].
      split; [each_event; reflexivity|reflexivity]. }
  destruct r3 as [o3|]; [|discriminate]. injection E3 as ->.
  apply runs_ret_inv in H as [-> ->].
  left. exists o1, o2, o3. split; reflexivity.
Qed.

Lemma github_init_reads_three_values_witness :
  let res := exec (Sandbox.env "") GitHub_init ∅ in
  runs GitHub_init (trace_of res) (outcome_of res) /\
  outcome_of res = Ok Sandbox.github /\
  ((exists o1 o2 o3,
       trace_of res
       = [EvLocal "git config github.user" true (Some o1);
          EvLocal "git config github.password" true (Some o2);
          EvLocal "git config github.token" true (Some o3)] /\
       outcome_of res
       = Ok {| user := config_value o1; password := config_value o2;
               token := config_value o3;
               repo := "sphinx-bootstrap-theme";
               api_base := "https://api.github.com" |})
   \/ (exists key pre,
         In key ["user"; "password"; "token"] /\
         trace_of res
         = pre ++ [EvLocal ("git config github." +:+ key) true None] /\
         Forall (fun e => failed_event e = None) pre /\
         outcome_of res = Err (LocalError ("git config github." +:+ key)))).
Proof.
  intros res.
  assert (R : runs GitHub_init (trace_of res) (outcome_of res))
    by apply exec_runs.
  split; [exact R|]. split; [reflexivity|].
  exact (github_init_reads_three_values _ _ R).
Defined.

Section Listing.

Variable loads : string -> option json.
Variable encodestring : string -> string.
Variable py_repr : json -> string.

Local Abbreviation gh_downloads' := (gh_downloads loads encodestring py_repr).

(** A run of the loop of [gh_downloads]: one line per record, up to the
    first record that cannot be formatted. *)
Lemma runs_print_lines (records : list json) tr o :
  runs (for_each records (fun download =>
          line <- lift (download_line py_repr download) ;; print line)) tr o ->
  (exists lines,
      download_lines py_repr records = Ok lines /\
      tr = map EvPrint lines /\ o = Ok tt)
  \/ (exists done x rest lines e,
        records = done ++ x :: rest /\
        download_lines py_repr done = Ok lines /\
        download_line py_repr x = Err e /\
        tr = map EvPrint lines /\ o = Err e).
Proof.
  revert tr o. induction records as [|x records IH]; intros tr o H.
  - apply runs_ret_inv in H as [-> ->]. left. exists []. auto.
  - change (runs (bind (line <- lift (download_line py_repr x) ;; print line)
                    (fun _ => for_each records (fun download =>
                       line <- lift (download_line py_repr download) ;;
                       print line))) tr o) in H.
    apply runs_bind_inv in H as [(u & ? & t2 & H1 & H2 & ->)|(e & H1 & ->)].
    + apply runs_bind_inv in H1 as [(line & ? & ? & H1 & H3 & ->)|(? & _ & [=])].
      apply runs_lift_inv in H1 as [-> E]. symmetry in E.
      apply runs_print_call_inv in H3 as [-> _].
      destruct (IH _ _ H2)
        as [(lines & Hl & -> & ->)|(dn & y & rest & lines & e & -> & Hl & Hy & -> & ->)].
      * left. exists (line :: lines). simpl. rewrite E, Hl. auto.
      * right. exists (x :: dn), y, rest, (line :: lines), e.
        simpl. rewrite E, Hl. auto.
    + apply runs_bind_inv in H1 as [(line & ? & ? & H1 & H3 & ->)|(e' & H1 & E')].
      { apply runs_print_call_inv in H3 as [_ [=]]. }
      apply runs_lift_inv in H1 as [-> E]. injection E' as ->.
      symmetry in E.
      right. exists [], x, records, [], e'. auto.
Qed.

Lemma runs_gh_downloads_inv tr o :
  runs gh_downloads' tr o ->
  exists trc,
    Forall config_event trc /\
    ((tr = EvPrint "Downloads:" :: trc /\ exists e, o = Err e)
     \/ exists github rb tl,
          tr = EvPrint "Downloads:" :: trc ++
               EvUrlopen (list_request encodestring github) rb :: tl /\
          match rb with
          | None => tl = [] /\ o = Err HTTPError
          | Some body =>
              match (dls <-? decode_body loads body ;; iter_json dls) with
              | Err e => tl = [] /\ o = Err e
              | Ok records =>
                  runs (for_each records (fun download =>
                          line <- lift (download_line py_repr download) ;;
                          print line)) tl o
              end
          end).
Proof.
  unfold gh_downloads. intros H.
  apply runs_bind_inv in H as [(u & ? & ? & H1 & H & ->)|(e & H1 & _)];
    apply runs_print_call_inv in H1 as [-> E]; [|discriminate].
  apply runs_bind_inv in H as [(github & trc & ? & Hc & H & ->)|(e & Hc & ->)].
  2:{ eexists. split; [eapply runs_GitHub_init_events; exact Hc|].
      left. eauto. }
  exists trc. split; [eapply runs_GitHub_init_events; exact Hc|].
  right.
  apply runs_bind_inv in H as [(dls & ? & tl & Hd & H & ->)|(e & Hd & ->)];
    apply (runs_api_op loads encodestring) in Hd as (rb & -> & Ed);
    exists github, rb.
  2:{ exists []. split; [reflexivity|].
      destruct rb as [body|]; [|injection Ed as ->; auto].
      rewrite <- Ed. simpl. auto. }
  exists tl. split; [reflexivity|].
  destruct rb as [body|]; [|discriminate]. rewrite <- Ed. simpl.
  apply runs_bind_inv in H as [(records & ? & ? & Hi & H & ->)|(e & Hi & ->)];
    apply runs_lift_inv in Hi as [-> Ei]; rewrite <- Ei; auto.
Qed.

(** X21.  [gh_downloads] only reads: in any run it sends at most one
    request, the GET of the list; it deletes nothing, creates nothing
    and runs no [curl]; and it prints its heading before anything
    else. *)
Theorem gh_downloads_only_reads tr o :
  runs gh_downloads' tr o ->
  (requests tr = [] \/ exists github,
                         requests tr = [list_request encodestring github]) /\
  delete_calls tr = [] /\ create_calls tr = [] /\ curl_calls tr = [] /\
  hd_error tr = Some (EvPrint "Downloads:").
Proof.
  intros H. apply runs_gh_downloads_inv in H as (trc & Hc & H).
  destruct (config_events_quiet trc Hc) as (Hq1 & Hq2 & _ & _).
  assert (Hquiet : forall tl lines, tl = map EvPrint lines ->
            requests tl = [] /\ shell_cmds tl = []).
  { intros tl lines ->. induction lines; simpl; auto. }
  assert (Hloop : forall records tl,
            runs (for_each records (fun download =>
                    line <- lift (download_line py_repr download) ;;
                    print line)) tl o ->
            requests tl = [] /\ shell_cmds tl = []).
  { intros records tl Hr. apply runs_print_lines in Hr
      as [(lines & _ & E & _)|(dn & y & rest & lines & e & _ & _ & _ & E & _)];
      eapply Hquiet; exact E. }
  assert (Hcurl : forall t, shell_cmds t = shell_cmds trc ->
            curl_calls t = []).
  { intros t E. unfold curl_calls. rewrite E. exact Hq2. }
  destruct H as [[-> _]|(github & rb & tl & -> & H)].
  - assert (Hr : requests (EvPrint "Downloads:" :: trc) = []) by exact Hq1.
    unfold delete_calls, create_calls. rewrite Hr.
    split; [left; reflexivity|]. split; [reflexivity|].
    split; [reflexivity|]. split; [apply Hcurl; reflexivity|reflexivity].
  - assert (Htl : requests tl = [] /\ shell_cmds tl = []).
    { destruct rb as [body|]; [|destruct H as [-> _]; auto].
      destruct (dls <-? decode_body loads body;; iter_json dls) as [records|e].
      - eapply Hloop. exact H.
      - destruct H as [-> _]. auto. }
    destruct Htl as [Ht1 Ht2].
    assert (Hr : requests (EvPrint "Downloads:" :: trc ++
                   EvUrlopen (list_request encodestring github) rb :: tl)
                 = [list_request encodestring github]).
    { simpl. rewrite requests_app, Hq1. simpl. rewrite Ht1. reflexivity. }
    assert (Hs : shell_cmds (EvPrint "Downloads:" :: trc ++
                   EvUrlopen (list_request encodestring github) rb :: tl)
                 = shell_cmds trc).
    { simpl. rewrite shell_cmds_app. simpl. rewrite Ht2.
      apply app_nil_r. }
    unfold delete_calls, create_calls. rewrite Hr.
    split; [right; exists github; reflexivity|].
    split; [reflexivity|]. split; [reflexivity|].
    split; [apply Hcurl; exact Hs|reflexivity].
Qed.

(** X22.  In a run of [gh_downloads] that got a response, one line per
    record is printed after the heading, in the order of the response;
    the first record that is not a dictionary, or lacks [created_at],
    [name] or [id], ends the run with [TypeError] or [KeyError], the
    lines of the records before it having been printed. *)
Theorem gh_downloads_prints_until_bad_record tr o q body dls records :
  runs gh_downloads' tr o ->
  In (EvUrlopen q (Some body)) tr ->
  decode_body loads body = Ok dls ->
  iter_json dls = Ok records ->
  (exists lines,
      download_lines py_repr records = Ok lines /\
      prints tr = "Downloads:" :: lines /\ o = Ok tt)
  \/ (exists done x rest lines e,
        records = done ++ x :: rest /\
        download_lines py_repr done = Ok lines /\
        download_line py_repr x = Err e /\
        prints tr = "Downloads:" :: lines /\ o = Err e).
Proof.
  intros H Hin Hd Hi. apply runs_gh_downloads_inv in H as (trc & Hc & H).
  destruct (config_events_quiet trc Hc) as (_ & _ & _ & Hq4).
  assert (Hpc : prints trc = []).
  { clear -Hc. induction Hc as [|e trc (key & r & ->) _ IH]; simpl; auto. }
  assert (Hpl : forall lines, prints (map EvPrint lines) = lines).
  { induction lines as [|l lines IH]; simpl; [reflexivity|]. rewrite IH.
    reflexivity. }
  assert (Hnl : forall lines qq rr, ~ In (EvUrlopen qq rr) (map EvPrint lines)).
  { intros lines qq rr. induction lines; simpl; [tauto|].
    intros [[=]|Hx]. auto. }
  assert (Happ : forall a b, prints (a ++ b) = prints a ++ prints b).
  { intros a b. induction a as [|[] a IH]; simpl; rewrite ?IH; reflexivity. }
  destruct H as [[-> _]|(github & rb & tl & -> & H)].
  { exfalso. destruct Hin as [[=]|Hin]. exact (Hq4 _ _ Hin). }
  assert (Hrb : rb = Some body).
  { destruct Hin as [[=]|Hin]. apply in_app_or in Hin as [Hin|Hin];
      [destruct (Hq4 _ _ Hin)|].
    destruct Hin as [[= _ ->]|Hin]; [reflexivity|]. exfalso.
    destruct rb as [b|]; [|destruct H as [-> _]; destruct Hin].
    destruct (dls' <-? decode_body loads b;; iter_json dls') as [recs|e].
    - apply runs_print_lines in H
        as [(lines & _ & -> & _)|(dn & y & rest & lines & e & _ & _ & _ & -> & _)];
        exact (Hnl _ _ _ Hin).
    - destruct H as [-> _]. destruct Hin. }
  subst rb. rewrite Hd in H. simpl in H. rewrite Hi in H.
  simpl. rewrite Happ, Hpc. simpl.
  apply runs_print_lines in H
    as [(lines & Hl & -> & ->)|(dn & y & rest & lines & e & -> & Hl & Hy & -> & ->)].
  - left. exists lines. rewrite Hpl. auto.
  - right. exists dn, y, rest, lines, e. rewrite Hpl. auto.
Qed.

End Listing.

Lemma gh_downloads_only_reads_witness :
  let p := gh_downloads Sandbox.loads Sandbox.encodestring Sandbox.py_repr in
  let res := exec (Sandbox.env "BOTH") p ∅ in
  let tr := trace_of res in
  runs p tr (outcome_of res) /\
  (requests tr = [] \/ exists github,
                         requests tr = [list_request Sandbox.encodestring github]) /\
  delete_calls tr = [] /\ create_calls tr = [] /\ curl_calls tr = [] /\
  hd_error tr = Some (EvPrint "Downloads:").
Proof.
  intros p res tr.
  assert (R : runs p tr (outcome_of res)) by apply exec_runs.
  split; [exact R|].
  exact (gh_downloads_only_reads Sandbox.loads Sandbox.encodestring
           Sandbox.py_repr tr _ R).
Defined.

Lemma gh_downloads_prints_until_bad_record_witness :
  let p := gh_downloads Sandbox.loads Sandbox.encodestring Sandbox.py_repr in
  let res := exec (Sandbox.env "BOTH") p ∅ in
  let tr := trace_of res in
  let q := list_request Sandbox.encodestring Sandbox.github in
  let records := [Sandbox.record "bootstrap.zip" 7;
                  Sandbox.record "bootstrap-abc123.zip" 8] in
  runs p tr (outcome_of res) /\
  In (EvUrlopen q (Some "BOTH")) tr /\
  outcome_of res = Err (KeyError "created_at") /\
  prints tr = ["Downloads:"] /\
  ((exists lines,
       download_lines Sandbox.py_repr records = Ok lines /\
       prints tr = "Downloads:" :: lines /\ outcome_of res = Ok tt)
   \/ (exists done x rest lines e,
         records = done ++ x :: rest /\
         download_lines Sandbox.py_repr done = Ok lines /\
         download_line Sandbox.py_repr x = Err e /\
         prints tr = "Downloads:" :: lines /\ outcome_of res = Err e)).
Proof.
  intros p res tr q records.
  assert (R : runs p tr (outcome_of res)) by apply exec_runs.
  assert (Hin : In (EvUrlopen q (Some "BOTH")) tr) by find_event.
  split; [exact R|]. split; [exact Hin|].
  split; [vm_compute; reflexivity|]. split; [vm_compute; reflexivity|].
  exact (gh_downloads_prints_until_bad_record Sandbox.loads
           Sandbox.encodestring Sandbox.py_repr tr _ q "BOTH"
           (JArr records) records R Hin eq_refl eq_refl).
Defined.
